(** * copyright_batcher: date resolution, year grouping, batching and manifest rows

    A shallow embedding of [copyright_batcher.py].  The Python functions
    [create_metadata_hdf5], [extract_date], [resize_image], [process_image],
    [process_batch] and [process_images]
    are transcribed below together with the parts of the Python standard
    library they rest on ([str.split], [str.replace], [re.match] as used by
    [datetime.strptime], [datetime] comparison and [strftime]).

    Conventions.
    - A Python [str] is a [string]; a character is read as the code point
      0..255 it denotes.
    - A raised exception is a value of [exn]; code that may raise returns
      [exn + A] ([inl] raised, [inr] returned).
    - The log keeps the records of level WARNING and above; INFO and DEBUG
      records have no influence on control flow and are left out.
    - The collaborators the program calls (the metadata store, the
      spreadsheet template, the image codec, the file system) are taken as
      given: the store and the directory listing are arguments, the codec
      is an oracle [pil], the file system is a finite map from paths to
      contents.  Failures of the operating system itself (permissions, a
      full disk, a file in the place of a directory) are not modelled.
    - The tasks of a worker pool are lists of events; a schedule decides
      how they interleave.  A task sees the files as they are when the pool
      starts: the tasks of a batch write different files, none of which is
      a source another task reads.

    The file has three parts: the program, the definitions the statements
    use, and the lemmas and theorems. *)

From Stdlib Require Import ZArith String Ascii List Permutation Sorted Mergesort Orders Lia Bool DecimalString.
From stdpp Require Import base gmap strings list.

Local Open Scope string_scope.
Local Open Scope Z_scope.

(** ** Python strings *)

Module PyStr.

Definition code (c : ascii) : Z := Z.of_N (N_of_ascii c).

(** [\d] of [re] on the code points 0..255. *)
Definition is_digit (c : ascii) : bool := (48 <=? code c) && (code c <=? 57).

(** [\s] of [re] (and [str.isspace]) on the code points 0..255. *)
Definition is_space (c : ascii) : bool :=
  ((9 <=? code c) && (code c <=? 13)) || ((28 <=? code c) && (code c <=? 32))
  || (code c =? 133) || (code c =? 160).

(** Lower-casing of the letters A..Z, as the IGNORECASE flag applies it to
    the literal characters of a format. *)
Definition lower (c : ascii) : ascii :=
  if (65 <=? code c) && (code c <=? 90)
  then ascii_of_N (N_of_ascii c + 32) else c.

Definition digit_val (c : ascii) : Z := code c - 48.

(** [s.split(sep)] for a one-character separator. *)
Fixpoint split (sep : ascii) (s : string) : list string :=
  match s with
  | EmptyString => [EmptyString]
  | String c s' =>
      if Ascii.eqb c sep then EmptyString :: split sep s'
      else match split sep s' with
           | w :: ws => String c w :: ws
           | [] => [String c EmptyString]
           end
  end.

(** [s.startswith(p)] *)
Fixpoint startswith (p s : string) : bool :=
  match p, s with
  | EmptyString, _ => true
  | String a p', String b s' => Ascii.eqb a b && startswith p' s'
  | String _ _, EmptyString => false
  end.

(** [s.endswith(p)]: [p] is [s] or ends the tail of [s]. *)
Fixpoint endswith (p s : string) : bool :=
  String.eqb p s
  || match s with
     | EmptyString => false
     | String _ s' => endswith p s'
     end.

(** [old in s] *)
Fixpoint contains (old s : string) : bool :=
  startswith old s
  || match s with
     | EmptyString => false
     | String _ s' => contains old s'
     end.

(** [s.replace(old, new)] for a non-empty [old]: the occurrences are found
    from the left and do not overlap.  [skip] counts the characters of an
    occurrence that are still to be dropped. *)
Fixpoint replace_from (old new : string) (skip : nat) (s : string) : string :=
  match s with
  | EmptyString => EmptyString
  | String c s' =>
      match skip with
      | S k => replace_from old new k s'
      | O =>
          if startswith old s
          then new ++ replace_from old new (String.length old - 1) s'
          else String c (replace_from old new O s')
      end
  end.

(** With an empty [old], Python puts [new] before every character and at
    the end. *)
Fixpoint intersperse (new s : string) : string :=
  match s with
  | EmptyString => new
  | String c s' => new ++ String c (intersperse new s')
  end.

Definition replace (old new s : string) : string :=
  match old with
  | EmptyString => intersperse new s
  | String _ _ => replace_from old new O s
  end.

(** [s[i:j]] for [0 <= i <= j]. *)
Definition slice (i j : nat) (s : string) : string := substring i (j - i) s.

(** [s[i:]] *)
Fixpoint slice_from (i : nat) (s : string) : string :=
  match i, s with
  | O, _ => s
  | S k, String _ s' => slice_from k s'
  | S _, EmptyString => EmptyString
  end.

Fixpoint lstrip (s : string) : string :=
  match s with
  | String c s' => if is_space c then lstrip s' else s
  | EmptyString => EmptyString
  end.

Fixpoint digits_val (acc : Z) (s : string) : option Z :=
  match s with
  | EmptyString => Some acc
  | String c s' =>
      if is_digit c then digits_val (10 * acc + digit_val c) s' else None
  end.

(** [int(s)] on the texts that [strptime] hands to it: optional leading
    white space, then one or more decimal digits.  [None] is the
    [ValueError] of an invalid literal.  (Signs, trailing white space and
    digit-group underscores never occur in those texts.) *)
Definition int (s : string) : option Z :=
  match lstrip s with
  | EmptyString => None
  | String c s' => digits_val 0 (String c s')
  end.

Fixpoint repeat0 (n : nat) : string :=
  match n with
  | O => EmptyString
  | S k => String "0"%char (repeat0 k)
  end.

Definition digit_char (d : Z) : ascii := ascii_of_N (Z.to_N (48 + d)).

(** ["%02d" % n] and ["%04d" % n] for [0 <= n]. *)
Definition fmt2 (n : Z) : string :=
  String (digit_char (n / 10 mod 10)) (String (digit_char (n mod 10)) EmptyString).

Definition fmt4 (n : Z) : string :=
  String (digit_char (n / 1000 mod 10))
    (String (digit_char (n / 100 mod 10)) (fmt2 n)).

(** ["%d" % n] for [0 <= n]: the decimal digits, without leading zeros. *)
Definition decimal (n : Z) : string :=
  NilEmpty.string_of_uint (N.to_uint (Z.to_N n)).

End PyStr.

(** ** The fragment of [re] that [strptime] compiles its formats to

    [re.match] is a backtracking matcher: alternatives are tried from the
    left, repetition is greedy, and the first way to match that is found is
    the one reported.  The matcher is written in continuation-passing style;
    the continuation receives the rest of the subject and the groups that
    have been captured so far. *)

Module Re.

Inductive regex : Type :=
| Eps
| Chr (p : ascii -> bool)
| Seq (r1 r2 : regex)
| Alt (r1 r2 : regex)
| Plus (p : ascii -> bool)
| Group (name : ascii) (r : regex).

Definition groups : Type := list (ascii * string).

Section Matcher.
Context {R : Type}.

(** [p+], greedy: as many characters as possible, giving them back one by
    one while the continuation fails. *)
Fixpoint plus_loop (p : ascii -> bool) (k : string -> option R) (s : string) : option R :=
  match s with
  | String c s' =>
      if p c then
        match plus_loop p k s' with
        | Some r => Some r
        | None => k s'
        end
      else None
  | EmptyString => None
  end.

Fixpoint run (r : regex) (s : string) (g : groups)
    (k : string -> groups -> option R) : option R :=
  match r with
  | Eps => k s g
  | Chr p =>
      match s with
      | String c s' => if p c then k s' g else None
      | EmptyString => None
      end
  | Seq r1 r2 => run r1 s g (fun s' g' => run r2 s' g' k)
  | Alt r1 r2 =>
      match run r1 s g k with
      | Some x => Some x
      | None => run r2 s g k
      end
  | Plus p => plus_loop p (fun s' => k s' g) s
  | Group name r1 =>
      run r1 s g (fun s' g' =>
        k s' ((name, substring 0 (String.length s - String.length s') s) :: g'))
  end.

End Matcher.

(** [re.match(r, s)]: the groups of the first match and the text that
    follows it. *)
Definition rmatch (r : regex) (s : string) : option (groups * string) :=
  run r s [] (fun s' g => Some (g, s')).

Fixpoint group (name : ascii) (g : groups) : option string :=
  match g with
  | [] => None
  | (n, v) :: g' => if Ascii.eqb n name then Some v else group name g'
  end.

Definition opt (r : regex) : regex := Alt r Eps.

Fixpoint seqs (rs : list regex) : regex :=
  match rs with
  | [] => Eps
  | [r] => r
  | r :: rs' => Seq r (seqs rs')
  end.

Fixpoint alts (r : regex) (rs : list regex) : regex :=
  match rs with
  | [] => r
  | r' :: rs' => Alt r (alts r' rs')
  end.

(** A literal character, matched exactly or under IGNORECASE. *)
Definition lit (c : ascii) : regex := Chr (Ascii.eqb c).

Definition lit_i (c : ascii) : regex :=
  Chr (fun x => Ascii.eqb (PyStr.lower x) (PyStr.lower c)).

(** A character range [[a-b]]. *)
Definition rng (a b : ascii) : regex :=
  Chr (fun x => (PyStr.code a <=? PyStr.code x) && (PyStr.code x <=? PyStr.code b)).

Definition d : regex := Chr PyStr.is_digit.

End Re.

(** ** [datetime]: calendar arithmetic, validation, comparison, [strftime] *)

Module DT.

(** A [datetime] value.  [tzinfo] is [None] for a naive value and the UTC
    offset in microseconds for an aware one.  None of the formats below has
    [%f], so the microsecond field is always 0 and is not carried. *)
Record datetime : Type := mk_datetime {
  year : Z; month : Z; day : Z;
  hour : Z; minute : Z; second : Z;
  tzinfo : option Z
}.

#[global] Instance datetime_eq_dec : EqDecision datetime.
Proof. solve_decision. Defined.

Definition is_leap (y : Z) : bool :=
  (y mod 4 =? 0) && (negb (y mod 100 =? 0) || (y mod 400 =? 0)).

Definition days_before_year (y : Z) : Z :=
  let y1 := y - 1 in y1 * 365 + y1 / 4 - y1 / 100 + y1 / 400.

Definition DAYS_IN_MONTH : list Z := [-1; 31; 28; 31; 30; 31; 30; 31; 31; 30; 31; 30; 31].

Definition DAYS_BEFORE_MONTH : list Z :=
  [-1; 0; 31; 59; 90; 120; 151; 181; 212; 243; 273; 304; 334].

Definition days_in_month (y m : Z) : Z :=
  if (m =? 2) && is_leap y then 29 else nth (Z.to_nat m) DAYS_IN_MONTH 0.

Definition days_before_month (y m : Z) : Z :=
  nth (Z.to_nat m) DAYS_BEFORE_MONTH 0 + (if (2 <? m) && is_leap y then 1 else 0).

(** [date(y, m, d).toordinal()] *)
Definition ymd2ord (y m d : Z) : Z :=
  days_before_year y + days_before_month y m + d.

Definition MINYEAR : Z := 1.
Definition MAXYEAR : Z := 9999.

(** The range checks of the [date] and [time] constructors; a [false] is
    their [ValueError]. *)
Definition check_date_fields (y m d : Z) : bool :=
  (MINYEAR <=? y) && (y <=? MAXYEAR) && (1 <=? m) && (m <=? 12)
  && (1 <=? d) && (d <=? days_in_month y m).

Definition check_time_fields (h mi s : Z) : bool :=
  (0 <=? h) && (h <=? 23) && (0 <=? mi) && (mi <=? 59) && (0 <=? s) && (s <=? 59).

Definition DAY_US : Z := 86400 * 1000000.

(** [timezone(offset)] accepts offsets strictly between -24h and +24h. *)
Definition check_utc_offset (us : Z) : bool := (- DAY_US <? us) && (us <? DAY_US).

(** [d.replace(tzinfo=timezone.utc)] *)
Definition replace_tzinfo_utc (d : datetime) : datetime :=
  mk_datetime (year d) (month d) (day d) (hour d) (minute d) (second d) (Some 0).

(** Microseconds from the start of day 0 to the wall-clock fields. *)
Definition wall_us (d : datetime) : Z :=
  (ymd2ord (year d) (month d) (day d) * 86400
   + hour d * 3600 + minute d * 60 + second d) * 1000000.

(** The instant an aware value denotes: its fields minus its offset.  Two
    aware values compare by their instants. *)
Definition instant (d : datetime) : Z := wall_us d - default 0 (tzinfo d).

(** [a > b] *)
Definition gt (a b : datetime) : bool := instant b <? instant a.

(** [max(x :: xs)]: the running maximum is replaced only by a strictly
    greater item, so the first of several equal maxima is returned. *)
Definition max_from (x : datetime) (xs : list datetime) : datetime :=
  fold_left (fun best y => if gt y best then y else best) xs x.

(** [d.strftime("%m/%Y")]: the month in two digits, a slash, and the year
    as the C library prints it.  The reference is CPython 3.11 on glibc,
    where [%Y] is the year as a plain decimal number: a year below 1000
    comes without leading zeros ("01/999" for January 999). *)
Definition strftime_m_Y (d : datetime) : string :=
  PyStr.fmt2 (month d) ++ "/" ++ PyStr.decimal (year d).

End DT.

(** ** [datetime.strptime] *)

Module Strptime.
Import Re.

(** The regular expressions of the directives, from [_strptime.TimeRE]. *)
Definition re_d : regex :=
  alts (Seq (lit "3") (rng "0" "1"))
    [Seq (rng "1" "2") d; Seq (lit "0") (rng "1" "9"); rng "1" "9";
     Seq (lit " ") (rng "1" "9")].

Definition re_H : regex :=
  alts (Seq (lit "2") (rng "0" "3")) [Seq (rng "0" "1") d; d].

Definition re_m : regex :=
  alts (Seq (lit "1") (rng "0" "2")) [Seq (lit "0") (rng "1" "9"); rng "1" "9"].

Definition re_M : regex := alts (Seq (rng "0" "5") d) [d].

Definition re_S : regex :=
  alts (Seq (lit "6") (rng "0" "1")) [Seq (rng "0" "5") d; d].

Definition re_Y : regex := seqs [d; d; d; d].

Definition sign : regex := Chr (fun c => Ascii.eqb c "+" || Ascii.eqb c "-").

(** [\d{1,6}], greedy *)
Definition d1_6 : regex :=
  Seq d (opt (Seq d (opt (Seq d (opt (Seq d (opt (Seq d (opt d))))))))).

(** [[+-]\d\d:?[0-5]\d(:?[0-5]\d(\.\d{1,6})?)?|(?-i:Z)] *)
Definition re_z : regex :=
  Alt (seqs [sign; d; d; opt (lit ":"); rng "0" "5"; d;
             opt (seqs [opt (lit ":"); rng "0" "5"; d;
                        opt (Seq (lit ".") d1_6)])])
      (lit "Z").

(** The directives that occur in [date_formats]; the others are not
    modelled. *)
Definition directive (c : ascii) : option regex :=
  if Ascii.eqb c "d" then Some (Group "d" re_d)
  else if Ascii.eqb c "H" then Some (Group "H" re_H)
  else if Ascii.eqb c "m" then Some (Group "m" re_m)
  else if Ascii.eqb c "M" then Some (Group "M" re_M)
  else if Ascii.eqb c "S" then Some (Group "S" re_S)
  else if Ascii.eqb c "Y" then Some (Group "Y" re_Y)
  else if Ascii.eqb c "z" then Some (Group "z" re_z)
  else None.

(** [TimeRE.pattern]: a run of white space in the format becomes [\s+], a
    directive becomes its group, every other character stands for itself
    (compiled with IGNORECASE).  [in_ws] tells that the previous character
    of the format was white space. *)
Fixpoint pattern_from (in_ws : bool) (fmt : string) : option (list regex) :=
  match fmt with
  | EmptyString => Some []
  | String c rest =>
      if Ascii.eqb c "%" then
        match rest with
        | EmptyString => None
        | String c' rest' =>
            r ← directive c'; rs ← pattern_from false rest'; Some (r :: rs)
        end
      else if PyStr.is_space c then
        rs ← pattern_from true rest;
        Some (if in_ws then rs else Plus PyStr.is_space :: rs)
      else
        rs ← pattern_from false rest; Some (lit_i c :: rs)
  end.

Definition pattern (fmt : string) : option regex := seqs <$> pattern_from false fmt.

Definition char_at (i : nat) (s : string) : option ascii := String.get i s.

(** The [%z] branch of [_strptime]: the offset in seconds and its fraction
    in microseconds. *)
Definition parse_z (z0 : string) : option (Z * Z) :=
  if String.eqb z0 "Z" then Some (0, 0) else
  z ← (if bool_decide (char_at 3 z0 = Some ":"%char) then
         let z1 := PyStr.slice 0 3 z0 ++ PyStr.slice_from 4 z0 in
         if (5 <? String.length z1)%nat then
           if bool_decide (char_at 5 z1 = Some ":"%char)
           then Some (PyStr.slice 0 5 z1 ++ PyStr.slice_from 6 z1)
           else None
         else Some z1
       else Some z0);
  hours ← PyStr.int (PyStr.slice 1 3 z);
  minutes ← PyStr.int (PyStr.slice 3 5 z);
  seconds ← (if String.eqb (PyStr.slice 5 7 z) "" then Some 0
             else PyStr.int (PyStr.slice 5 7 z));
  let gmtoff := hours * 60 * 60 + minutes * 60 + seconds in
  let remainder := PyStr.slice_from 8 z in
  fraction ← PyStr.int (remainder ++ PyStr.repeat0 (6 - String.length remainder));
  if PyStr.startswith "-" z then Some (- gmtoff, - fraction)
  else Some (gmtoff, fraction).

(** The value of a numeric group, or [dflt] when the format lacks it. *)
Definition field (name : ascii) (dflt : Z) (g : groups) : option Z :=
  match group name g with
  | Some v => PyStr.int v
  | None => Some dflt
  end.

(** [datetime.strptime(data, fmt)]; [None] stands for the [ValueError] it
    raises (no match, unconverted data, a bad offset, a field out of
    range). *)
Definition strptime (data fmt : string) : option DT.datetime :=
  r ← pattern fmt;
  '(g, rest) ← rmatch r data;
  if negb (String.eqb rest "") then None else
  y ← field "Y" 1900 g;
  m ← field "m" 1 g;
  dd ← field "d" 1 g;
  h ← field "H" 0 g;
  mi ← field "M" 0 g;
  s ← field "S" 0 g;
  tz ← match group "z" g with
       | Some z => '(gmtoff, fraction) ← parse_z z; Some (Some (gmtoff * 1000000 + fraction))
       | None => Some None
       end;
  if negb (DT.check_date_fields y m dd) then None else
  if negb (from_option DT.check_utc_offset true tz) then None else
  if negb (DT.check_time_fields h mi s) then None else
  Some (DT.mk_datetime y m dd h mi s tz).

End Strptime.

Local Close Scope Z_scope.
Local Open Scope list_scope.

(** ** Values, exceptions, results *)

(** The values [json.load] produces.  Of a float, a list and a dict the
    code observes only the truth value. *)
Inductive pyvalue : Type :=
| PyNone
| PyBool (b : bool)
| PyInt (n : Z)
| PyFloat (nonzero : bool)
| PyStr (s : string)
| PyList (nonempty : bool)
| PyDict (nonempty : bool).

(** [bool(v)] *)
Definition truthy (v : pyvalue) : bool :=
  match v with
  | PyNone => false
  | PyBool b => b
  | PyInt n => negb (n =? 0)%Z
  | PyFloat nz => nz
  | PyStr s => negb (String.eqb s "")
  | PyList ne => ne
  | PyDict ne => ne
  end.

Inductive exn : Type :=
| ValueError
| AttributeError
| IndexError
| FileNotFoundError
| UnidentifiedImageError
| OSError.

Definition is_FileNotFoundError (e : exn) : bool :=
  match e with FileNotFoundError => true | _ => false end.

Definition result (A : Type) : Type := (exn + A)%type.

Definition rbind {A B : Type} (m : result A) (k : A -> result B) : result B :=
  match m with
  | inl e => inl e
  | inr a => k a
  end.

Notation "x <-! m ; k" := (rbind m (fun x => k))
  (at level 100, m at next level, right associativity, only parsing).

(** [l[i]] *)
Definition item {A : Type} (i : nat) (l : list A) : result A :=
  match l !! i with
  | Some x => inr x
  | None => inl IndexError
  end.

(** A metadata record and the store of all records, keyed by image name
    without extension. *)
Abbreviation record := (gmap string pyvalue).
Abbreviation store := (gmap string (gmap string pyvalue)).

(** [f"{n}"] for a non-negative integer. *)
Definition str_of_nat (n : nat) : string := NilEmpty.string_of_uint (Nat.to_uint n).

(** [os.path.join(a, b)] on POSIX. *)
Definition path_join (a b : string) : string :=
  if PyStr.startswith "/" b then b
  else if String.eqb a "" || PyStr.endswith "/" a then a +:+ b
  else a +:+ "/" +:+ b.

(** [range(0, stop, step)] for a positive [step]: its length is
    [(stop + step - 1) // step], its [k]-th item [k * step]. *)
Definition py_range (stop step : nat) : list nat :=
  map (fun k => k * step) (seq 0 ((stop + step - 1) / step)).

(** [l[i:i + n]] *)
Definition slice {A : Type} (i n : nat) (l : list A) : list A := take n (drop i l).

(** The windows [for i in range(0, len(l), size): l[i:i + size]], each with
    its number [i // size + 1]. *)
Definition chunks {A : Type} (size : nat) (l : list A) : list (nat * list A) :=
  map (fun i => (i / size + 1, slice i size l)) (py_range (length l) size).

(** ** Effects

    The effects of the program are events.  A worker task denotes the
    events it performs, in program order, and its outcome; the main thread
    is a state transformer on the [world]. *)

Inductive level : Type := WARNING | ERROR.

(** One constructor per log call of the source, with the values its
    message interpolates. *)
Inductive log_msg : Type :=
| NoMetadataFound (image : string)
| ErrorExtractingDate (image : string) (e : exn)
| ErrorResizingImage (image_path : string) (e : exn)
| FileNotFound (img_path : string) (e : exn)
| ImageProcessingFailed
| ErrorProcessingImage (e : exn)
| ResizedImageNotFound (resized_img_path : string)
| FileNotFoundDuringCopy (resized_img_path : string) (e : exn).

Inductive cell_value : Type :=
| CInt (n : nat)
| CStr (s : string).

Abbreviation cells := (gmap (nat * nat) cell_value).

Inductive content : Type :=
| Dir
| Image (source : string)
| Workbook (c : cells).

Inductive event : Type :=
| EvLog (lv : level) (msg : log_msg)
| EvMakedirs (path : string)
| EvWrite (path : string) (c : content)
| EvLoadWorkbook (c : cells)
| EvCell (row col : nat) (v : cell_value).

#[global] Instance exn_eq_dec : EqDecision exn.
Proof. solve_decision. Defined.

#[global] Instance level_eq_dec : EqDecision level.
Proof. solve_decision. Defined.

#[global] Instance log_msg_eq_dec : EqDecision log_msg.
Proof. solve_decision. Defined.

#[global] Instance cell_value_eq_dec : EqDecision cell_value.
Proof. solve_decision. Defined.

#[global] Instance content_eq_dec : EqDecision content.
Proof. solve_decision. Defined.

#[global] Instance event_eq_dec : EqDecision event.
Proof. solve_decision. Defined.

(** The file system, the worksheet of the batch in progress, and the
    events performed so far (latest last). *)
Record world : Type := mk_world {
  files : gmap string content;
  sheet : cells;
  trace : list event
}.

Definition apply_event (w : world) (ev : event) : world :=
  let tr := trace w ++ [ev] in
  match ev with
  | EvLog _ _ => mk_world (files w) (sheet w) tr
  | EvMakedirs p =>
      mk_world (match files w !! p with
                | Some _ => files w
                | None => <[p := Dir]> (files w)
                end) (sheet w) tr
  | EvWrite p c => mk_world (<[p := c]> (files w)) (sheet w) tr
  | EvLoadWorkbook c => mk_world (files w) c tr
  | EvCell r c v => mk_world (files w) (<[(r, c) := v]> (sheet w)) tr
  end.

Definition apply_events (w : world) (evs : list event) : world :=
  fold_left apply_event evs w.

(** *** Worker tasks *)

Definition task (A : Type) : Type := (list event * result A)%type.

Definition t_ret {A : Type} (a : A) : task A := ([], inr a).
Definition t_raise {A : Type} (e : exn) : task A := ([], inl e).
Definition t_emit (ev : event) : task unit := ([ev], inr tt).

Definition t_bind {A B : Type} (m : task A) (k : A -> task B) : task B :=
  match m with
  | (evs, inl e) => (evs, inl e)
  | (evs, inr a) => let '(evs', r) := k a in (evs ++ evs', r)
  end.

(** [try: m  except <handled>: h] *)
Definition t_catch {A : Type} (m : task A) (handled : exn -> bool)
    (h : exn -> task A) : task A :=
  match m with
  | (evs, inl e) =>
      if handled e then let '(evs', r) := h e in (evs ++ evs', r) else (evs, inl e)
  | (evs, inr a) => (evs, inr a)
  end.

Notation "x <-- m ; k" := (t_bind m (fun x => k))
  (at level 100, m at next level, right associativity, only parsing).
Notation "m ;; k" := (t_bind m (fun _ => k))
  (at level 100, right associativity, only parsing).

Definition t_log (lv : level) (msg : log_msg) : task unit := t_emit (EvLog lv msg).

Definition t_when (b : bool) (m : task unit) : task unit := if b then m else t_ret tt.

(** One step of the task with index [i]: its next event, if it has one. *)
Fixpoint step_task (i : nat) (ts : list (list event)) : option (event * list (list event)) :=
  match ts with
  | [] => None
  | t :: ts' =>
      match i with
      | O => match t with
             | [] => None
             | e :: t' => Some (e, t' :: ts')
             end
      | S i' => match step_task i' ts' with
                | Some (e, ts'') => Some (e, t :: ts'')
                | None => None
                end
      end
  end.

(** The events of concurrently running tasks in the order a schedule fixes:
    [sched] names the task that takes each next step; when it is used up
    the tasks run to completion ([ThreadPoolExecutor.__exit__] waits for
    all of them). *)
Fixpoint interleave (sched : list nat) (ts : list (list event)) : list event :=
  match sched with
  | [] => concat ts
  | i :: sched' =>
      match step_task i ts with
      | Some (e, ts') => e :: interleave sched' ts'
      | None => interleave sched' ts
      end
  end.

(** *** The main thread *)

Definition M (A : Type) : Type := world -> A * world.

Definition m_ret {A : Type} (a : A) : M A := fun w => (a, w).

Definition m_bind {A B : Type} (m : M A) (k : A -> M B) : M B :=
  fun w => let '(a, w') := m w in k a w'.

Notation "x <~ m ; k" := (m_bind m (fun x => k))
  (at level 100, m at next level, right associativity, only parsing).
Notation "m >> k" := (m_bind m (fun _ => k))
  (at level 100, right associativity, only parsing).

Definition m_emit (ev : event) : M unit := fun w => (tt, apply_event w ev).

Definition m_emit_all (evs : list event) : M unit := fun w => (tt, apply_events w evs).

Definition m_get {A : Type} (f : world -> A) : M A := fun w => (f w, w).

(** [os.path.exists(p)] *)
Definition path_exists (p : string) : M bool :=
  m_get (fun w => match files w !! p with Some _ => true | None => false end).

(** [shutil.copy(src, dst)] *)
Definition shutil_copy (src dst : string) : M (result unit) :=
  fun w => match files w !! src with
           | Some c => (inr tt, apply_event w (EvWrite dst c))
           | None => (inl FileNotFoundError, w)
           end.

(** [for x in l: body(x)] *)
Fixpoint m_for {A : Type} (l : list A) (body : A -> M unit) : M unit :=
  match l with
  | [] => m_ret tt
  | x :: l' => body x >> m_for l' body
  end.

(** ** Sorting file names: [list.sort()] on [str] *)

Module StringOrder <: TotalLeBool.
Definition t := string.
Definition leb := String.leb.
Theorem leb_total (s1 s2 : string) : leb s1 s2 = true \/ leb s2 s1 = true.
Proof. apply String.leb_total. Qed.
End StringOrder.

Module StringSort := Sort StringOrder.

(** ** The program *)

Section Batcher.

(** Configuration: the module constants and the environment. *)
Variable BATCH_SIZE SUB_BATCH_SIZE : nat.
Variable DEFAULT_DATE IMAGE_DIRECTORY_FOLDER OUTPUT_DIR : string.

(** The worksheet [load_workbook(TEMPLATE_PATH).active] starts from. *)
Variable template : cells.

(** The image codec on an existing file: [None] when opening, shrinking and
    saving go through, [Some e] when one of them raises [e]. *)
Variable pil : string -> option exn.

Definition date_tags : list string :=
  ["EXIF:DateTimeOriginal"; "EXIF:CreateDate"; "IPTC:DateCreated";
   "IPTC:DigitalCreationDate"; "XMP:CreateDate"; "XMP:DateCreated"].

Definition date_formats : list string :=
  ["%Y:%m:%d"; "%Y:%m:%d %H:%M:%S"; "%Y:%m:%d %H:%M:%S%z";
   "%Y-%m-%dT%H:%M:%S"; "%Y-%m-%dT%H:%M:%S%z"].

(** The inner loop of [extract_date]: the formats are tried in order on
    [date_str.split('.')[0]]; the first that parses gives the date, made
    aware in UTC when it is naive; a [ValueError] moves on to the next. *)
Fixpoint try_formats (date_str : string) (formats : list string)
    : result (option DT.datetime) :=
  match formats with
  | [] => inr None
  | date_format :: rest =>
      match item 0 (PyStr.split "." date_str) with
      | inl e => inl e
      | inr s =>
          match Strptime.strptime s date_format with
          | Some date =>
              inr (Some (match DT.tzinfo date with
                         | None => DT.replace_tzinfo_utc date
                         | Some _ => date
                         end))
          | None => try_formats date_str rest
          end
      end
  end.

(** The outer loop: [dates] collects one date per tag that parses.  A
    truthy value that is not a [str] has no [split]: the [AttributeError]
    is not a [ValueError] and leaves the function. *)
Fixpoint collect_dates (metadata : record) (tags : list string)
    (dates : list DT.datetime) : result (list DT.datetime) :=
  match tags with
  | [] => inr dates
  | tag :: rest =>
      match metadata !! tag with
      | Some v =>
          if truthy v then
            match v with
            | PyStr date_str =>
                match try_formats date_str date_formats with
                | inl e => inl e
                | inr (Some date) => collect_dates metadata rest (dates ++ [date])
                | inr None => collect_dates metadata rest dates
                end
            | _ => inl AttributeError
            end
          else collect_dates metadata rest dates
      | None => collect_dates metadata rest dates
      end
  end.

Definition extract_date (metadata : record) : result string :=
  dates <-! collect_dates metadata date_tags [];
  match dates with
  | [] => inr DEFAULT_DATE
  | x :: xs => inr (DT.strftime_m_Y (DT.max_from x xs))
  end.

(** [resize_image]: any exception is logged and raised again.  [fs] is the
    file system as the task finds it. *)
Definition resize_image (fs : gmap string content) (image_path output_path : string)
    : task unit :=
  t_catch
    (match fs !! image_path with
     | None => t_raise FileNotFoundError
     | Some _ =>
         match pil image_path with
         | Some e => t_raise e
         | None => t_emit (EvWrite output_path (Image image_path))
         end
     end)
    (fun _ => true)
    (fun e => t_log ERROR (ErrorResizingImage image_path e) ;; t_raise e).

Definition process_image (fs : gmap string content) (image batch_dir : string)
    (idx : nat) (metadata : store) : task bool :=
  let img_path := path_join IMAGE_DIRECTORY_FOLDER image in
  let image_metadata : record :=
    default ∅ (metadata !! PyStr.replace ".jpg" "" image) in
  t_when (Nat.eqb (size image_metadata) 0) (t_log WARNING (NoMetadataFound image)) ;;
  match extract_date image_metadata with
  | inl e => t_log ERROR (ErrorExtractingDate image e) ;; t_ret false
  | inr metadata_date =>
      let resized_img_path := path_join batch_dir image in
      resized <-- t_catch (resize_image fs img_path resized_img_path ;; t_ret true)
                    is_FileNotFoundError
                    (fun e => t_log ERROR (FileNotFound img_path e) ;; t_ret false);
      if resized : bool then
        t_emit (EvCell (idx + 11) 1 (CInt (idx + 1))) ;;
        t_emit (EvCell (idx + 11) 2 (CStr image)) ;;
        t_emit (EvCell (idx + 11) 3 (CStr image)) ;;
        t_emit (EvCell (idx + 11) 4 (CStr metadata_date)) ;;
        t_emit (EvCell (idx + 11) 5 (CStr image)) ;;
        t_emit (EvCell (idx + 11) 6 (CStr "")) ;;
        t_ret true
      else t_ret false
  end.

(** What a future contributes to the batch: the events of its task, then
    the log record the [as_completed] loop writes for its outcome. *)
Definition future_events (t : task bool) : list event :=
  match t with
  | (evs, inr true) => evs
  | (evs, inr false) => evs ++ [EvLog WARNING ImageProcessingFailed]
  | (evs, inl e) => evs ++ [EvLog ERROR (ErrorProcessingImage e)]
  end.

Definition batch_dir_of (year : string) (batch_number : nat) : string :=
  path_join OUTPUT_DIR (year +:+ "_batch_" +:+ str_of_nat batch_number).

Definition sub_batch_dir_of (batch_dir : string) (j : nat) : string :=
  path_join batch_dir ("sub_batch_" +:+ str_of_nat (j / SUB_BATCH_SIZE + 1)).

(** The futures submitted for a batch, in submission order. *)
Definition submit_all (fs : gmap string content) (images : list string)
    (batch_dir : string) (metadata : store) : list (task bool) :=
  imap (fun idx image => process_image fs image batch_dir idx metadata) images.

(** The sub-batch loop of [process_batch]. *)
Definition copy_sub_batches (images : list string) (batch_dir : string) : M unit :=
  m_for (py_range (length images) SUB_BATCH_SIZE) (fun j =>
    let sub_batch := slice j SUB_BATCH_SIZE images in
    let sub_batch_dir := sub_batch_dir_of batch_dir j in
    m_emit (EvMakedirs sub_batch_dir) >>
    m_for sub_batch (fun image =>
      let resized_img_path := path_join batch_dir image in
      found <~ path_exists resized_img_path;
      if negb found then
        m_emit (EvLog WARNING (ResizedImageNotFound resized_img_path))
      else
        r <~ shutil_copy resized_img_path (path_join sub_batch_dir image);
        match r with
        | inl e => m_emit (EvLog ERROR (FileNotFoundDuringCopy resized_img_path e))
        | inr _ => m_ret tt
        end)).

(** [process_batch]; [sched] is the schedule of the worker pool. *)
Definition process_batch (sched : list nat) (images : list string)
    (batch_number : nat) (metadata : store) (year : string) : M unit :=
  let batch_dir := batch_dir_of year batch_number in
  m_emit (EvMakedirs batch_dir) >>
  m_emit (EvLoadWorkbook template) >>
  fs <~ m_get files;
  m_emit_all (interleave sched
                (map future_events (submit_all fs images batch_dir metadata))) >>
  let output_xlsx :=
    path_join batch_dir ("diversity_photos_batch_" +:+ str_of_nat batch_number +:+ ".xlsx") in
  ws <~ m_get sheet;
  m_emit (EvWrite output_xlsx (Workbook ws)) >>
  copy_sub_batches images batch_dir.

(** [images_by_year[year].append(image)], creating the entry when the year
    is new; a dict keeps its keys in insertion order. *)
Fixpoint dict_append (year image : string) (d : list (string * list string))
    : list (string * list string) :=
  match d with
  | [] => [(year, [image])]
  | (y, l) :: d' =>
      if String.eqb y year then (y, l ++ [image]) :: d'
      else (y, l) :: dict_append year image d'
  end.

(** The year of an image: the second field of its date bucket. *)
Definition year_of (metadata : store) (image : string) : result string :=
  let image_metadata : record :=
    default ∅ (metadata !! PyStr.replace ".jpg" "" image) in
  date_str <-! extract_date image_metadata;
  item 1 (PyStr.split "/" date_str).

(** The grouping loop of [process_images]. *)
Fixpoint group_by_year (metadata : store) (images : list string)
    (images_by_year : list (string * list string))
    : result (list (string * list string)) :=
  match images with
  | [] => inr images_by_year
  | image :: rest =>
      match year_of metadata image with
      | inl e => inl e
      | inr year => group_by_year metadata rest (dict_append year image images_by_year)
      end
  end.

(** The images of a directory listing, sorted. *)
Definition sorted_images (listing : list string) : list string :=
  StringSort.sort (List.filter (PyStr.endswith ".jpg") listing).

(** The batches of a year, numbered. *)
Definition batches (year_images : list string) : list (nat * list string) :=
  chunks BATCH_SIZE year_images.

(** [process_images]; [listing] is [os.listdir(IMAGE_DIRECTORY_FOLDER)],
    [metadata] the store built from the JSON documents, [sched] the
    schedule of each batch's pool. *)
Definition process_images (listing : list string) (metadata : store)
    (sched : string -> nat -> list nat) : M (result unit) :=
  let images := sorted_images listing in
  match group_by_year metadata images [] with
  | inl e => m_ret (inl e)
  | inr images_by_year =>
      m_for images_by_year (fun '(year, year_images) =>
        m_for (batches year_images) (fun '(batch_number, batch) =>
          process_batch (sched year batch_number) batch batch_number metadata year)) >>
      m_ret (inr tt)
  end.

End Batcher.

(** ** Building the metadata store: [create_metadata_hdf5]

    The loader reads every file of the image directory that ends in
    ".json", writes each dict it finds to a new HDF5 file and returns the
    dicts keyed by file name.  Reading a file ([open] and [json.load]) and
    h5py's opinion of a dataset name are taken as given; the HDF5 file and
    the log of the loader are the loader's own state, apart from the
    [world] of the batches. *)

(** A JSON document as far as the loader looks into it: a dict; a
    non-empty list, of which only the first item is looked at; the empty
    list; any other value. *)
Inductive json_doc : Type :=
| DocDict (d : gmap string pyvalue)
| DocList (first : json_doc)
| DocEmptyList
| DocOther.

(** The log records of the loader: the warning for a document that is not
    a dict, the error for a file whose reading or storing raised. *)
Inductive store_log : Type :=
| UnexpectedMetadataFormat (json_path : string)
| ErrorReadingJSON (json_path : string) (e : exn).

(** The HDF5 file written so far (a dataset name with the dict whose JSON
    text the dataset holds), the dict built so far, the log. *)
Record store_state : Type := mk_store_state {
  h5 : gmap string (gmap string pyvalue);
  metadata_of : gmap string (gmap string pyvalue);
  store_logs : list store_log
}.

Section MetadataStore.
Variable IMAGE_DIRECTORY_FOLDER : string.

(** [open(json_path)] followed by [json.load]: the document, or the
    exception that was raised. *)
Variable read_json : string -> result json_doc.

(** The exception h5py raises for a dataset name that it accepts in no
    file; [None] for an acceptable name. *)
Variable h5_name_error : string -> option exn.

(** [f.create_dataset(name, data=json.dumps(d))]: the name must be new in
    the file.  ([json.dumps] of what [json.load] returned does not
    raise.) *)
Definition create_dataset (f : gmap string (gmap string pyvalue)) (name : string)
    (data : gmap string pyvalue) : result (gmap string (gmap string pyvalue)) :=
  match h5_name_error name with
  | Some e => inl e
  | None =>
      match f !! name with
      | Some _ => inl ValueError
      | None => inr (<[name := data]> f)
      end
  end.

(** The body of the [try] for one file. *)
Definition load_json_file (json_file : string) (st : store_state) : result store_state :=
  let json_path := path_join IMAGE_DIRECTORY_FOLDER json_file in
  metadata_content <-! read_json json_path;
  metadata_content <-! match metadata_content with
                       | DocList first => inr first
                       | DocEmptyList => inl IndexError
                       | _ => inr metadata_content
                       end;
  match metadata_content with
  | DocDict d =>
      f <-! create_dataset (h5 st) (PyStr.replace ".json" "" json_file) d;
      inr (mk_store_state f
             (<[PyStr.replace ".json" "" json_file := d]> (metadata_of st))
             (store_logs st))
  | _ =>
      inr (mk_store_state (h5 st) (metadata_of st)
             (store_logs st ++ [UnexpectedMetadataFormat json_path]))
  end.

(** The loop over the JSON files: an exception is logged and the loop goes
    on. *)
Fixpoint load_json_files (json_files : list string) (st : store_state) : store_state :=
  match json_files with
  | [] => st
  | json_file :: rest =>
      match load_json_file json_file st with
      | inr st' => load_json_files rest st'
      | inl e =>
          load_json_files rest
            (mk_store_state (h5 st) (metadata_of st)
               (store_logs st
                ++ [ErrorReadingJSON (path_join IMAGE_DIRECTORY_FOLDER json_file) e]))
      end
  end.

(** [create_metadata_hdf5]; [listing] is [os.listdir(IMAGE_DIRECTORY_FOLDER)].
    The HDF5 file is opened with mode "w" and so starts empty. *)
Definition create_metadata_hdf5 (listing : list string) : store_state :=
  load_json_files (List.filter (PyStr.endswith ".json") listing)
    (mk_store_state ∅ ∅ []).

End MetadataStore.


(** * Definitions for the statements

    The notions the theorems are stated with: what a record of the data
    model is, which dates a record yields, how a year group, a manifest
    cell and the events of a sub-batch are described. *)

(** ** Records and dates *)

Definition is_str (v : pyvalue) : bool :=
  match v with PyStr _ => true | _ => false end.

(** A record as the data model has it: every value is a string. *)
Definition string_valued (md : record) : Prop :=
  map_Forall (fun _ v => is_str v = true) md.

(** The date a tag contributes: its value parsed under the first format
    that accepts it. *)
Definition parse_tag (md : record) (tag : string) : option DT.datetime :=
  match md !! tag with
  | Some (PyStr s) =>
      match try_formats s date_formats with
      | inr o => o
      | inl _ => None
      end
  | _ => None
  end.

(** All successfully parsed dates, in tag order. *)
Definition parsed_dates (md : record) : list DT.datetime :=
  omap (parse_tag md) date_tags.

(** The strings MM/YYYY: two digits, a slash, four digits. *)
Definition mm_yyyy (s : string) : Prop :=
  exists m y : Z,
    (1 <= m <= 12)%Z /\ (1 <= y <= 9999)%Z
    /\ s = PyStr.fmt2 m +:+ String "/" (PyStr.fmt4 y).

(** The strings a date is rendered to: the month in two digits, a slash,
    the year in decimal without leading zeros. *)
Definition month_slash_year (s : string) : Prop :=
  exists m y : Z,
    (1 <= m <= 12)%Z /\ (1 <= y <= 9999)%Z
    /\ s = PyStr.fmt2 m +:+ String "/" (PyStr.decimal y).

(** The number of digits of a year. *)
Definition year_digits (y : Z) : nat :=
  if (y <? 10)%Z then 1 else if (y <? 100)%Z then 2
  else if (y <? 1000)%Z then 3 else 4.

(** A record dated in the year 999. *)
Definition md_year_999 : record :=
  <["EXIF:DateTimeOriginal" := PyStr "0999:01:01"]> ∅.

(** A store as the data model has it: every record is string-valued. *)
Definition store_string_valued (st : store) : Prop :=
  map_Forall (fun _ md => string_valued md) st.

(** ** Year groups *)

(** The group of a year in the dict, empty when the year has no entry. *)
Fixpoint dict_get (year : string) (d : list (string * list string)) : list string :=
  match d with
  | [] => []
  | (y, l) :: d' => if String.eqb y year then l else dict_get year d'
  end.

Section GroupingDefs.
Variable DEFAULT_DATE : string.
Variable metadata : store.

(** The record of an image, as both look-ups compute it. *)
Definition record_of (image : string) : record :=
  default ∅ (metadata !! PyStr.replace ".jpg" "" image).

(** Whether an image falls into a year. *)
Definition in_year (year image : string) : bool :=
  match year_of DEFAULT_DATE metadata image with
  | inr y => String.eqb y year
  | inl _ => false
  end.

End GroupingDefs.

(** ** Events of a task and of a batch *)

(** The six cells of a manifest row. *)
Definition row_cells (idx : nat) (image metadata_date : string) : list event :=
  [EvCell (idx + 11) 1 (CInt (idx + 1)); EvCell (idx + 11) 2 (CStr image);
   EvCell (idx + 11) 3 (CStr image); EvCell (idx + 11) 4 (CStr metadata_date);
   EvCell (idx + 11) 5 (CStr image); EvCell (idx + 11) 6 (CStr "")].

(** The value [process_image] puts into a column of its row. *)
Definition row_value (idx : nat) (image metadata_date : string) (col : nat)
    : option cell_value :=
  match col with
  | 1 => Some (CInt (idx + 1))
  | 2 | 3 | 5 => Some (CStr image)
  | 4 => Some (CStr metadata_date)
  | 6 => Some (CStr "")
  | _ => None
  end.

Definition is_cell (ev : event) : bool :=
  match ev with EvCell _ _ _ => true | _ => false end.

Definition is_load (ev : event) : bool :=
  match ev with EvLoadWorkbook _ => true | _ => false end.

(** An event that leaves the worksheet alone. *)
Definition off_sheet (ev : event) : bool := negb (is_cell ev) && negb (is_load ev).

(** [m] does nothing but perform events that satisfy [P]. *)
Definition emits (P : event -> bool) (m : M unit) : Prop :=
  forall w, exists evs,
    m w = (tt, apply_events w evs) /\ Forall (fun ev => P ev = true) evs.

Section BatchDefs.
Variables DEFAULT_DATE IMAGE_DIRECTORY_FOLDER OUTPUT_DIR : string.
Variable template : cells.
Variable pil : string -> option exn.
Variable metadata : store.
Variable images : list string.
Variable batch_number : nat.
Variable year : string.

(** The warning that opens the task when the image has no metadata. *)
Definition no_metadata_warning (image : string) : list event :=
  if Nat.eqb (size (record_of metadata image)) 0
  then [EvLog WARNING (NoMetadataFound image)] else [].

(** The file system the tasks of the batch find: the one [process_batch]
    starts in, with the batch directory made. *)
Definition batch_fs (w : world) : gmap string content :=
  files (apply_event w (EvMakedirs (batch_dir_of OUTPUT_DIR year batch_number))).

(** The task of the image at index [idx]. *)
Definition batch_task (w : world) (idx : nat) (image : string) : task bool :=
  process_image DEFAULT_DATE IMAGE_DIRECTORY_FOLDER pil (batch_fs w) image
    (batch_dir_of OUTPUT_DIR year batch_number) idx metadata.

(** The events of the pool under a schedule. *)
Definition pool_events (sched : list nat) (w : world) : list event :=
  interleave sched
    (map future_events
       (submit_all DEFAULT_DATE IMAGE_DIRECTORY_FOLDER pil (batch_fs w) images
          (batch_dir_of OUTPUT_DIR year batch_number) metadata)).

(** The cell of the manifest at row [r], column [c]: for [r >= 11] it
    belongs to the image at index [r - 11] and holds that image's value
    when its task returned [True]; otherwise it is the template's. *)
Definition manifest_cell (w : world) (r c : nat) : option cell_value :=
  if Nat.leb 11 r then
    match images !! (r - 11) with
    | Some image =>
        match snd (batch_task w (r - 11) image),
              extract_date DEFAULT_DATE (record_of metadata image) with
        | inr true, inr date =>
            match row_value (r - 11) image date c with
            | Some v => Some v
            | None => template !! (r, c)
            end
        | _, _ => template !! (r, c)
        end
    | None => template !! (r, c)
    end
  else template !! (r, c).

End BatchDefs.

Section BatchRunDefs.
Variables DEFAULT_DATE IMAGE_DIRECTORY_FOLDER OUTPUT_DIR : string.
Variable template : cells.
Variable pil : string -> option exn.
Variable metadata : store.
Variable images : list string.
Variable batch_number : nat.
Variable year : string.

(** The world when the pool is done. *)
Definition after_pool (sched : list nat) (w : world) : world :=
  apply_events
    (apply_event (apply_event w (EvMakedirs (batch_dir_of OUTPUT_DIR year batch_number)))
       (EvLoadWorkbook template))
    (pool_events DEFAULT_DATE IMAGE_DIRECTORY_FOLDER OUTPUT_DIR pil metadata images
       batch_number year sched w).

(** The path the manifest is saved under. *)
Definition output_xlsx : string :=
  path_join (batch_dir_of OUTPUT_DIR year batch_number)
    ("diversity_photos_batch_" +:+ str_of_nat batch_number +:+ ".xlsx").

(** The world when the manifest is saved. *)
Definition after_save (sched : list nat) (w : world) : world :=
  apply_event (after_pool sched w)
    (EvWrite output_xlsx (Workbook (sheet (after_pool sched w)))).

End BatchRunDefs.

(** ** Sub-batches *)

(** The characters of a string. *)
Abbreviation chars := list_ascii_of_string.

(** What [os.path.join] puts between a directory and a relative name. *)
Definition sep_of (a : string) : string :=
  if String.eqb a "" || PyStr.endswith "/" a then "" else "/".

(** A file name of the image list: it ends in ".jpg" and has no slash. *)
Definition jpg_name (image : string) : Prop :=
  PyStr.endswith ".jpg" image = true /\ PyStr.contains "/" image = false.

Section SubBatchDefs.
Variable SUB_BATCH_SIZE : nat.
Variable batch_dir : string.

(** The file system the sub-batch loop starts in. *)
Variable fs0 : gmap string content.

(** The directory of the sub-batch with number [n]. *)
Definition sub_batch_dir_n (n : nat) : string :=
  path_join batch_dir ("sub_batch_" +:+ str_of_nat n).

(** What the loop does for one image: the copy when the resized file
    exists, the warning when it does not. *)
Definition copy_event (sub_batch_dir image : string) : event :=
  match fs0 !! path_join batch_dir image with
  | Some c => EvWrite (path_join sub_batch_dir image) c
  | None => EvLog WARNING (ResizedImageNotFound (path_join batch_dir image))
  end.

(** The events of the sub-batches, one list per sub-batch. *)
Definition sub_batch_events (images : list string) : list (list event) :=
  map (fun '(n, sub_batch) =>
         EvMakedirs (sub_batch_dir_n n)
         :: map (copy_event (sub_batch_dir_n n)) sub_batch)
      (chunks SUB_BATCH_SIZE images).

(** The resized files are as the loop found them. *)
Definition agrees (w : world) : Prop :=
  forall image, jpg_name image ->
    files w !! path_join batch_dir image = fs0 !! path_join batch_dir image.

End SubBatchDefs.

(** ** Example data *)

(** The record of the specification's example: the original-capture tag
    holds May 2022, the XMP creation tag January 2023. *)
Definition md_example : record :=
  <["EXIF:DateTimeOriginal" := PyStr "2022:05:01 10:00:00"]>
    (<["XMP:CreateDate" := PyStr "2023-01-01T00:00:00"]> ∅).

(** A store with three images of March 2023, and a directory listing. *)
Definition store_example : store :=
  <["a" := <["EXIF:CreateDate" := PyStr "2023:03:05"]> ∅]>
    (<["b" := <["EXIF:CreateDate" := PyStr "2023:03:06"]> ∅]>
       (<["c" := <["EXIF:CreateDate" := PyStr "2023:03:07 10:11:12"]> ∅]> ∅)).

Definition listing_example : list string := ["c.jpg"; "notes.txt"; "a.jpg"; "b.jpg"].

(** A world with the sources of "a.jpg" and "b.jpg" but not of "c.jpg". *)
Definition world_example : world :=
  mk_world (<["/in/a.jpg" := Image "a"]> (<["/in/b.jpg" := Image "b"]> ∅)) ∅ [].

Definition images_example : list string := ["a.jpg"; "b.jpg"; "c.jpg"].

(** A schedule that lets the last task run first and the first task last. *)
Definition sched_reverse : list nat := [2; 2; 2; 1; 1; 1; 1; 1; 1; 1; 1].

(** ** Definitions for the further properties *)

(** What a candidate tag contributes to [extract_date]: nothing, a date,
    or the exception its value raises. *)
Definition tag_result (md : record) (tag : string) : result (option DT.datetime) :=
  match md !! tag with
  | Some v =>
      if truthy v then
        match v with
        | PyStr date_str => try_formats date_str date_formats
        | _ => inl AttributeError
        end
      else inr None
  | None => inr None
  end.

(** A candidate tag holds a value that is truthy and not a string. *)
Definition bad_tag (md : record) (tag : string) : Prop :=
  In tag date_tags
  /\ exists v, md !! tag = Some v /\ truthy v = true /\ is_str v = false.

(** ** Date texts *)

(** The texts of a date and of a date with a time of day as EXIF writes
    them, YYYY:MM:DD and YYYY:MM:DD HH:MM:SS, and the ISO 8601 text
    YYYY-MM-DDTHH:MM:SS. *)
Definition exif_date (y m d : Z) : string :=
  PyStr.fmt4 y +:+ String ":" (PyStr.fmt2 m +:+ String ":" (PyStr.fmt2 d)).

Definition time_text (h mi s : Z) : string :=
  PyStr.fmt2 h +:+ String ":" (PyStr.fmt2 mi +:+ String ":" (PyStr.fmt2 s)).

Definition exif_datetime (y m d h mi s : Z) : string :=
  PyStr.fmt4 y +:+ String ":" (PyStr.fmt2 m +:+ String ":"
    (PyStr.fmt2 d +:+ String " " (time_text h mi s))).

Definition iso_datetime (y m d h mi s : Z) : string :=
  PyStr.fmt4 y +:+ String "-" (PyStr.fmt2 m +:+ String "-"
    (PyStr.fmt2 d +:+ String "T" (time_text h mi s))).

(** The same texts with a UTC offset, +HH:MM or -HH:MM, after the seconds,
    and the offset in microseconds. *)
Definition offset_text (negative : bool) (oh om : Z) : string :=
  String (if negative then "-" else "+")%char
    (PyStr.fmt2 oh +:+ String ":" (PyStr.fmt2 om)).

Definition offset_us (negative : bool) (oh om : Z) : Z :=
  ((if negative then -1 else 1) * (oh * 3600 + om * 60) * 1000000)%Z.

Definition time_offset_text (h mi s : Z) (negative : bool) (oh om : Z) : string :=
  PyStr.fmt2 h +:+ String ":" (PyStr.fmt2 mi +:+ String ":"
    (PyStr.fmt2 s +:+ offset_text negative oh om)).

Definition exif_datetime_offset (y m d h mi s : Z) (negative : bool) (oh om : Z)
    : string :=
  PyStr.fmt4 y +:+ String ":" (PyStr.fmt2 m +:+ String ":"
    (PyStr.fmt2 d +:+ String " " (time_offset_text h mi s negative oh om))).

Definition iso_datetime_offset (y m d h mi s : Z) (negative : bool) (oh om : Z)
    : string :=
  PyStr.fmt4 y +:+ String "-" (PyStr.fmt2 m +:+ String "-"
    (PyStr.fmt2 d +:+ String "T" (time_offset_text h mi s negative oh om))).

(** Two tags for the same instant, half past midnight on New Year's Day at
    UTC+1: the first is written with its offset, the second in UTC. *)
Definition md_same_instant : record :=
  <["EXIF:DateTimeOriginal" := PyStr "2023:01:01 00:30:00+01:00"]>
    (<["XMP:CreateDate" := PyStr "2022-12-31T23:30:00"]> ∅).

(** Goes through the events of a task, the warning for missing metadata
    first, looking for the event of [Hin]. *)
Ltac outcome_in Hw Hin :=
  apply in_app_or in Hin as [Hin|Hin];
  [ apply Hw in Hin; discriminate Hin
  | repeat (destruct Hin as [Hin|Hin];
            [try discriminate Hin; injection Hin as <- <-; by split |]);
    destruct Hin ].

(** ** Reports and batches of a run *)



(** The batches of a run in the order of the two loops of
    [process_images]: year by year, window by window. *)
Definition all_batches (BATCH_SIZE : nat) (images_by_year : list (string * list string))
    : list (string * nat * list string) :=
  flat_map (fun '(year, year_images) =>
              map (fun '(batch_number, batch) => (year, batch_number, batch))
                  (batches BATCH_SIZE year_images))
           images_by_year.

(** ** The metadata store *)

(** The key a JSON file is stored under. *)
Definition json_key (json_file : string) : string :=
  PyStr.replace ".json" "" json_file.

(** The dict the loader takes from a document: the document itself, or the
    first item of a list. *)
Definition doc_dict (doc : json_doc) : option record :=
  match doc with
  | DocDict d => Some d
  | DocList (DocDict d) => Some d
  | _ => None
  end.

(** One turn of the loop of [create_metadata_hdf5]. *)
Definition load_step (IMAGE_DIRECTORY_FOLDER : string)
    (read_json : string -> result json_doc) (h5_name_error : string -> option exn)
    (json_file : string) (st : store_state) : store_state :=
  load_json_files IMAGE_DIRECTORY_FOLDER read_json h5_name_error [json_file] st.

(** A listing with two side-car files for one key, and what they hold. *)
Definition listing_sidecars : list string :=
  ["a.jpg"; "a.json"; "a.json.json"; "b.jpg"; "b.json"; "c.jpg"; "c.json"; "d.json"].

Definition read_json_example (json_path : string) : result json_doc :=
  if String.eqb json_path "/in/a.json"
  then inr (DocDict (<["EXIF:CreateDate" := PyStr "2023:03:05"]> ∅))
  else if String.eqb json_path "/in/a.json.json"
  then inr (DocDict (<["EXIF:CreateDate" := PyStr "1999:01:01"]> ∅))
  else if String.eqb json_path "/in/b.json"
  then inr (DocList (DocDict (<["EXIF:CreateDate" := PyStr "2023:03:06"]> ∅)))
  else if String.eqb json_path "/in/c.json" then inr DocOther
  else inl ValueError.

(** * Lemmas and theorems *)
(** ** Windows of a list *)

Section Windows.
Context {A : Type}.
Implicit Types (l : list A) (size stop : nat).

Lemma py_range_length stop size :
  length (py_range stop size) = (stop + size - 1) / size.
Proof. unfold py_range. by rewrite length_map, length_seq. Qed.

Lemma py_range_lookup stop size k :
  k < (stop + size - 1) / size -> py_range stop size !! k = Some (k * size).
Proof.
  intros Hk. unfold py_range.
  rewrite list_lookup_fmap, lookup_seq_lt by done. reflexivity.
Qed.

(** The number of windows is the ceiling of [stop / size]. *)
Lemma ceil_bounds stop size :
  0 < size ->
  stop <= (stop + size - 1) / size * size < stop + size.
Proof.
  intros Hs.
  pose proof (Nat.div_mod_eq (stop + size - 1) size) as Hd.
  pose proof (Nat.mod_upper_bound (stop + size - 1) size) as Hm.
  nia.
Qed.

Lemma slice_shift size k l :
  slice (S k * size) size l = slice (k * size) size (drop size l).
Proof. unfold slice. rewrite drop_drop. reflexivity. Qed.

Lemma windows_concat size n l :
  length l <= n * size ->
  concat (map (fun k => slice (k * size) size l) (seq 0 n)) = l.
Proof.
  revert l. induction n as [|n IH]; intros l Hl.
  - destruct l; simpl in *; [done | lia].
  - simpl. rewrite <- seq_shift, map_map.
    rewrite (map_ext _ (fun k => slice (k * size) size (drop size l)))
      by (intros k; apply slice_shift).
    rewrite IH by (rewrite length_drop; lia).
    unfold slice. simpl. apply take_drop.
Qed.

Lemma chunks_length size l :
  length (chunks size l) = (length l + size - 1) / size.
Proof. unfold chunks. by rewrite length_map, py_range_length. Qed.

Lemma chunks_lookup size l i :
  0 < size -> i < length (chunks size l) ->
  chunks size l !! i = Some (i + 1, slice (i * size) size l).
Proof.
  intros Hs Hi. rewrite chunks_length in Hi. unfold chunks.
  rewrite list_lookup_fmap, py_range_lookup by done. simpl.
  by rewrite Nat.div_mul by lia.
Qed.

Lemma chunks_windows size l :
  0 < size -> concat (map snd (chunks size l)) = l.
Proof.
  intros Hs. unfold chunks, py_range. rewrite !map_map. simpl.
  apply windows_concat. apply (ceil_bounds (length l) size Hs).
Qed.

Lemma slice_length size l i :
  length (slice (i * size) size l) = Nat.min size (length l - i * size).
Proof. unfold slice. by rewrite length_take, length_drop. Qed.

Lemma chunks_full size l i :
  0 < size -> S i < length (chunks size l) ->
  length (slice (i * size) size l) = size.
Proof.
  intros Hs Hi. rewrite chunks_length in Hi.
  pose proof (ceil_bounds (length l) size Hs).
  rewrite slice_length. nia.
Qed.

Lemma chunks_nonempty size l i :
  0 < size -> i < length (chunks size l) ->
  1 <= length (slice (i * size) size l) <= size.
Proof.
  intros Hs Hi. rewrite chunks_length in Hi.
  pose proof (ceil_bounds (length l) size Hs).
  rewrite slice_length. nia.
Qed.

End Windows.

(** ** Facts about the string functions *)

Module PyStrFacts.
Import PyStr.

Lemma split_nonempty sep s : split sep s <> [].
Proof.
  destruct s as [|c s]; simpl; [done |].
  destruct (Ascii.eqb c sep); [done |]. by destruct (split sep s).
Qed.

(** Without the separator there is one field, the string itself. *)
Lemma split_none sep s :
  contains (String sep EmptyString) s = false -> split sep s = [s].
Proof.
  induction s as [|c s IH]; simpl; [done |].
  rewrite Ascii.eqb_sym. destruct (Ascii.eqb c sep); simpl; [done |].
  intros H. by rewrite IH.
Qed.

(** With the separator there are at least two fields. *)
Lemma split_some sep s :
  contains (String sep EmptyString) s = true ->
  exists a b rest, split sep s = a :: b :: rest.
Proof.
  induction s as [|c s IH]; simpl; [done |].
  rewrite Ascii.eqb_sym. destruct (Ascii.eqb c sep); simpl.
  - intros _. pose proof (split_nonempty sep s).
    destruct (split sep s) as [|b rest]; [done |]. by exists EmptyString, b, rest.
  - intros H. destruct (IH H) as (a & b & rest & ->). by exists (String c a), b, rest.
Qed.

Lemma split_app sep a b :
  contains (String sep EmptyString) a = false ->
  split sep (a ++ String sep b) = a :: split sep b.
Proof.
  induction a as [|c a IH]; simpl.
  - by rewrite Ascii.eqb_refl.
  - rewrite Ascii.eqb_sym. destruct (Ascii.eqb c sep); simpl; [done |].
    intros H. by rewrite IH.
Qed.

Lemma digit_char_spec (x : Z) :
  (0 <= x < 10)%Z ->
  is_digit (digit_char x) = true /\ digit_val (digit_char x) = x
  /\ Ascii.eqb (digit_char x) "/" = false /\ is_space (digit_char x) = false.
Proof.
  intros H.
  assert (x = 0 \/ x = 1 \/ x = 2 \/ x = 3 \/ x = 4 \/ x = 5 \/ x = 6
          \/ x = 7 \/ x = 8 \/ x = 9)%Z as Hx by lia.
  repeat (destruct Hx as [-> | Hx]; [by vm_compute |]). subst. by vm_compute.
Qed.

Lemma digit_mod10 (n : Z) :
  is_digit (digit_char (n mod 10)) = true
  /\ digit_val (digit_char (n mod 10)) = (n mod 10)%Z
  /\ Ascii.eqb (digit_char (n mod 10)) "/" = false
  /\ is_space (digit_char (n mod 10)) = false.
Proof. apply digit_char_spec, Z.mod_pos_bound. lia. Qed.

(** [fmt2] and [fmt4] print what [int] reads back. *)
Lemma int_fmt2 (n : Z) : (0 <= n < 100)%Z -> int (fmt2 n) = Some n.
Proof.
  intros H. unfold fmt2, int.
  destruct (digit_mod10 (n / 10)) as (Ha & Hav & _ & Hs).
  destruct (digit_mod10 n) as (Hb & Hbv & _ & _).
  simpl. rewrite Hs. simpl. rewrite Ha, Hb, Hav, Hbv. f_equal. Z.div_mod_to_equations. lia.
Qed.

Lemma int_fmt4 (n : Z) : (0 <= n < 10000)%Z -> int (fmt4 n) = Some n.
Proof.
  intros H. unfold fmt4, fmt2, int.
  destruct (digit_mod10 (n / 1000)) as (Ha & Hav & _ & Hs).
  destruct (digit_mod10 (n / 100)) as (Hb & Hbv & _ & _).
  destruct (digit_mod10 (n / 10)) as (Hc & Hcv & _ & _).
  destruct (digit_mod10 n) as (Hd & Hdv & _ & _).
  simpl. rewrite Hs. simpl. rewrite Ha, Hb, Hc, Hd, Hav, Hbv, Hcv, Hdv. f_equal. Z.div_mod_to_equations. lia.
Qed.

Lemma fmt2_no_slash (n : Z) : contains "/" (fmt2 n) = false.
Proof.
  unfold fmt2.
  destruct (digit_mod10 (n / 10)) as (_ & _ & Ha & _).
  destruct (digit_mod10 n) as (_ & _ & Hb & _).
  cbn [contains startswith].
  rewrite (Ascii.eqb_sym "/"), Ha, (Ascii.eqb_sym "/"), Hb. done.
Qed.

Lemma fmt4_no_slash (n : Z) : contains "/" (fmt4 n) = false.
Proof.
  unfold fmt4.
  destruct (digit_mod10 (n / 1000)) as (_ & _ & Ha & _).
  destruct (digit_mod10 (n / 100)) as (_ & _ & Hb & _).
  pose proof (fmt2_no_slash n) as Hc.
  cbn [contains startswith]. cbn [contains startswith] in Hc.
  rewrite (Ascii.eqb_sym "/"), Ha, (Ascii.eqb_sym "/"), Hb. simpl. exact Hc.
Qed.

(** [decimal] prints digits. *)
Lemma decimal_digits (n : Z) :
  Forall (fun c => is_digit c = true) (chars (decimal n)).
Proof. unfold decimal. induction (N.to_uint (Z.to_N n)); simpl; by constructor. Qed.

Lemma digits_no_slash (s : string) :
  Forall (fun c => is_digit c = true) (chars s) -> contains "/" s = false.
Proof.
  induction s as [|c s IH]; [done |].
  intros [Hc Hs]%Forall_cons. cbn [contains startswith].
  rewrite (IH Hs), andb_true_r, orb_false_r.
  apply Ascii.eqb_neq. by intros <-.
Qed.

Lemma decimal_no_slash (n : Z) : contains "/" (decimal n) = false.
Proof. apply digits_no_slash, decimal_digits. Qed.

(** The year of a date in decimal: it reads back as the year, starts with
    no zero, and has as many digits as the year needs. *)
Lemma decimal_year (y : Z) :
  (1 <= y <= 9999)%Z ->
  int (decimal y) = Some y
  /\ startswith "0" (decimal y) = false
  /\ String.length (decimal y) = year_digits y.
Proof.
  intros Hy.
  assert (forallb (fun n =>
                     let v := Z.of_nat n in
                     match int (decimal v) with
                     | Some r => (r =? v)%Z
                     | None => false
                     end
                     && negb (startswith "0" (decimal v))
                     && Nat.eqb (String.length (decimal v)) (year_digits v))
            (seq 1 (Z.to_nat 9999)) = true) as Hall by (by vm_compute).
  rewrite forallb_forall in Hall.
  assert (In (Z.to_nat y) (seq 1 (Z.to_nat 9999))) as Hin by (apply in_seq; lia).
  apply Hall in Hin. cbv zeta in Hin. rewrite Z2Nat.id in Hin by lia.
  apply andb_true_iff in Hin as [Hin H3]. apply andb_true_iff in Hin as [H1 H2].
  destruct (int (decimal y)) as [r|]; [| done].
  apply Z.eqb_eq in H1 as ->. apply negb_true_iff in H2. by apply Nat.eqb_eq in H3.
Qed.

(** The fields of a rendered date. *)
Lemma split_m_Y (m y : Z) :
  split "/" (fmt2 m ++ String "/" (decimal y)) = [fmt2 m; decimal y].
Proof.
  rewrite split_app by apply fmt2_no_slash.
  by rewrite split_none by apply decimal_no_slash.
Qed.

End PyStrFacts.

(** ** Facts about dates *)

Module DTFacts.
Import DT.

(** [max] returns an item of the list that no item exceeds. *)
Lemma max_from_spec (xs : list datetime) (x : datetime) :
  In (max_from x xs) (x :: xs)
  /\ (instant x <= instant (max_from x xs))%Z
  /\ forall y, In y xs -> (instant y <= instant (max_from x xs))%Z.
Proof.
  revert x. induction xs as [|y xs IH]; intros x.
  - simpl. split; [by left |]. split; [lia | tauto].
  - change (max_from x (y :: xs))
      with (max_from (if gt y x then y else x) xs).
    unfold gt.
    destruct (Z.ltb_spec (instant x) (instant y)) as [Hlt|Hge].
    + destruct (IH y) as (Hin & Hx & Hall). split; [| split].
      * right. exact Hin.
      * lia.
      * intros z [<-|Hz]; [done | by apply Hall].
    + destruct (IH x) as (Hin & Hx & Hall). split; [| split].
      * destruct Hin as [Hin|Hin]; [by left | right; by right].
      * done.
      * intros z [<-|Hz]; [lia | by apply Hall].
Qed.

(** [strptime] gives dates whose fields passed the constructor's checks. *)
Lemma strptime_valid (data fmt : string) (d : datetime) :
  Strptime.strptime data fmt = Some d ->
  check_date_fields (year d) (month d) (day d) = true.
Proof.
  unfold Strptime.strptime. intros H.
  repeat (simplify_option_eq || case_match); simpl;
    by apply negb_false_iff.
Qed.

Lemma check_date_fields_range (y m d : Z) :
  check_date_fields y m d = true -> (1 <= y <= 9999 /\ 1 <= m <= 12)%Z.
Proof. unfold check_date_fields, MINYEAR, MAXYEAR. lia. Qed.

End DTFacts.

(** ** Date resolution *)

Section ExtractDate.
Variable DEFAULT_DATE : string.

Lemma try_formats_total (s : string) (fmts : list string) :
  exists o, try_formats s fmts = inr o.
Proof.
  induction fmts as [|f fmts IH]; simpl; [by eexists |].
  unfold item. pose proof (PyStrFacts.split_nonempty "." s) as Hne.
  destruct (PyStr.split "." s) as [|x xs]; [done |]. simpl.
  destruct (Strptime.strptime x f); [by eexists | exact IH].
Qed.

Lemma try_formats_empty : try_formats "" date_formats = inr None.
Proof. by vm_compute. Qed.

Lemma try_formats_valid (s : string) (fmts : list string) (d : DT.datetime) :
  try_formats s fmts = inr (Some d) ->
  DT.check_date_fields (DT.year d) (DT.month d) (DT.day d) = true
  /\ DT.tzinfo d <> None.
Proof.
  induction fmts as [|f fmts IH]; simpl; [done |].
  destruct (item 0 (PyStr.split "." s)) as [e|x]; [done |].
  destruct (Strptime.strptime x f) as [d0|] eqn:Hp; [| exact IH].
  intros [= <-]. apply DTFacts.strptime_valid in Hp.
  split; [by destruct (DT.tzinfo d0) |].
  destruct (DT.tzinfo d0) eqn:Htz; simpl; [by rewrite Htz | done].
Qed.

(** Only the text before the first dot reaches the parser. *)
Lemma try_formats_truncates (a b : string) (fmts : list string) :
  PyStr.contains "." a = false ->
  try_formats (a +:+ String "." b) fmts = try_formats a fmts.
Proof.
  intros Ha. induction fmts as [|f fmts IH]; simpl; [done |].
  rewrite PyStrFacts.split_app, (PyStrFacts.split_none "." a) by done. simpl.
  destruct (Strptime.strptime a f); [done | exact IH].
Qed.

#[local] Arguments try_formats : simpl never.

Lemma collect_dates_string_valued (md : record) (tags : list string)
    (acc : list DT.datetime) :
  string_valued md ->
  collect_dates md tags acc = inr (acc ++ omap (parse_tag md) tags).
Proof.
  intros Hmd. revert acc. induction tags as [|tag tags IH]; intros acc; simpl.
  - by rewrite app_nil_r.
  - unfold parse_tag at 1. destruct (md !! tag) as [v|] eqn:Hv; [| apply IH].
    pose proof (Hmd _ _ Hv) as Hs. destruct v; try done. simpl.
    destruct (String.eqb_spec s "") as [->|Hne]; simpl.
    + rewrite ?try_formats_empty. apply IH.
    + destruct (try_formats_total s date_formats) as [o ->].
      destruct o as [d|]; [| apply IH].
      rewrite IH. by rewrite <- app_assoc.
Qed.

(** Whatever the record holds, the dates collected are valid dates. *)
Lemma collect_dates_valid (md : record) (tags : list string)
    (acc dates : list DT.datetime) :
  collect_dates md tags acc = inr dates ->
  Forall (fun d => DT.check_date_fields (DT.year d) (DT.month d) (DT.day d) = true) acc ->
  Forall (fun d => DT.check_date_fields (DT.year d) (DT.month d) (DT.day d) = true) dates.
Proof.
  revert acc. induction tags as [|tag tags IH]; intros acc; simpl.
  - by intros [= <-].
  - destruct (md !! tag) as [v|]; [| apply IH].
    destruct (truthy v); [| apply IH].
    destruct v; try done.
    destruct (try_formats s date_formats) as [e|[d|]] eqn:Hp; [done | | apply IH].
    intros Hc Hacc. apply (IH _ Hc). apply Forall_app. split; [done |].
    apply Forall_cons. split; [| done]. by apply try_formats_valid in Hp as [? _].
Qed.

Lemma strftime_month_slash_year (d : DT.datetime) :
  DT.check_date_fields (DT.year d) (DT.month d) (DT.day d) = true ->
  month_slash_year (DT.strftime_m_Y d).
Proof.
  intros H. apply DTFacts.check_date_fields_range in H as [Hy Hm].
  by exists (DT.month d), (DT.year d).
Qed.

Lemma extract_date_string_valued (md : record) :
  string_valued md ->
  extract_date DEFAULT_DATE md =
    inr (match parsed_dates md with
         | [] => DEFAULT_DATE
         | x :: xs => DT.strftime_m_Y (DT.max_from x xs)
         end).
Proof.
  intros Hmd. unfold extract_date.
  rewrite (collect_dates_string_valued md date_tags [] Hmd).
  change ([] ++ omap (parse_tag md) date_tags) with (parsed_dates md).
  unfold rbind. by destruct (parsed_dates md).
Qed.

Lemma parsed_dates_valid (md : record) (d : DT.datetime) :
  In d (parsed_dates md) ->
  DT.check_date_fields (DT.year d) (DT.month d) (DT.day d) = true.
Proof.
  intros Hd. apply list_elem_of_In, list_elem_of_omap in Hd as (tag & _ & Hp).
  unfold parse_tag in Hp. destruct (md !! tag) as [[]|]; try done.
  destruct (try_formats s date_formats) as [|o] eqn:Ht; [done |]. subst o.
  by apply try_formats_valid in Ht as [? _].
Qed.

(** The latest date, as [extract_date] picks it. *)
Lemma extract_date_latest (md : record) :
  string_valued md -> parsed_dates md <> [] ->
  exists latest,
    In latest (parsed_dates md)
    /\ (forall d, In d (parsed_dates md) -> (DT.instant d <= DT.instant latest)%Z)
    /\ extract_date DEFAULT_DATE md = inr (DT.strftime_m_Y latest).
Proof.
  intros Hmd Hne. rewrite (extract_date_string_valued md Hmd).
  destruct (parsed_dates md) as [|x xs]; [done |].
  destruct (DTFacts.max_from_spec xs x) as (Hin & Hx & Hall).
  exists (DT.max_from x xs). split; [done |]. split; [| done].
  intros d [<-|Hd]; [done | by apply Hall].
Qed.

End ExtractDate.

(** The rendering of a date: two digits that read back as the month, a
    slash, and the digits of the year, which read back as the year and
    start with no zero: four digits from the year 1000 on, fewer below. *)
Lemma strftime_m_Y_format (d : DT.datetime) :
  DT.check_date_fields (DT.year d) (DT.month d) (DT.day d) = true ->
  exists mm yyyy,
    DT.strftime_m_Y d = mm +:+ "/" +:+ yyyy
    /\ String.length mm = 2
    /\ PyStr.int mm = Some (DT.month d) /\ PyStr.int yyyy = Some (DT.year d)
    /\ PyStr.startswith "0" yyyy = false
    /\ String.length yyyy = year_digits (DT.year d)
    /\ (String.length yyyy = 4 <-> (1000 <= DT.year d)%Z).
Proof.
  intros H. apply DTFacts.check_date_fields_range in H as [Hy Hm].
  destruct (PyStrFacts.decimal_year (DT.year d) Hy) as (Hint & Hzero & Hlen).
  exists (PyStr.fmt2 (DT.month d)), (PyStr.decimal (DT.year d)).
  split; [done |]. split; [done |].
  split; [apply PyStrFacts.int_fmt2; lia |].
  split; [done |]. split; [done |]. split; [done |].
  rewrite Hlen. unfold year_digits.
  repeat case Z.ltb_spec; intros; lia.
Qed.

(** C1, as stated, fails: the year is not always four digits.  A record
    dated in the year 999 parses and gives "01/999". *)
Lemma C1_four_digit_year_counterexample :
  ~ (forall (DEFAULT_DATE : string) (md : record),
       string_valued md ->
       (exists tag s d, In tag date_tags /\ md !! tag = Some (PyStr s)
                        /\ try_formats s date_formats = inr (Some d)) ->
       exists mm yyyy,
         extract_date DEFAULT_DATE md = inr (mm +:+ "/" +:+ yyyy)
         /\ String.length mm = 2 /\ String.length yyyy = 4).
Proof.
  intros H.
  destruct (H "08/2024" md_year_999) as (mm & yyyy & Hres & Hmm & Hyyyy).
  - apply map_Forall_insert_2; [done | apply map_Forall_empty].
  - exists "EXIF:DateTimeOriginal", "0999:01:01",
      (DT.mk_datetime 999 1 1 0 0 0 (Some 0%Z)).
    split; [simpl; tauto |]. split; by vm_compute.
  - assert (extract_date "08/2024" md_year_999 = inr "01/999") as Hext
      by (by vm_compute).
    rewrite Hext in Hres. injection Hres as Hres.
    destruct mm as [|a [|b [|c mm]]]; try discriminate Hmm.
    cbv [String.append] in Hres. injection Hres as _ _ Hres.
    subst yyyy. discriminate Hyyyy.
Qed.

(** C1 (amended): when at least one candidate tag of a string-valued record
    parses, [extract_date] returns the latest of all parsed dates, whichever
    tag it came from, as zero-padded month, slash, and the year in decimal
    without leading zeros (four digits exactly for the years from 1000 on);
    a date that is strictly later than every other parsed date always
    wins. *)
Theorem C1_extract_date_returns_latest (DEFAULT_DATE : string) (md : record) :
  string_valued md ->
  (exists tag s d, In tag date_tags /\ md !! tag = Some (PyStr s)
                   /\ try_formats s date_formats = inr (Some d)) ->
  exists latest,
    In latest (parsed_dates md)
    /\ (forall d, In d (parsed_dates md) -> (DT.instant d <= DT.instant latest)%Z)
    /\ extract_date DEFAULT_DATE md = inr (DT.strftime_m_Y latest)
    /\ (exists mm yyyy,
          DT.strftime_m_Y latest = mm +:+ "/" +:+ yyyy
          /\ String.length mm = 2
          /\ PyStr.int mm = Some (DT.month latest)
          /\ PyStr.int yyyy = Some (DT.year latest)
          /\ PyStr.startswith "0" yyyy = false
          /\ String.length yyyy = year_digits (DT.year latest)
          /\ (String.length yyyy = 4 <-> (1000 <= DT.year latest)%Z))
    /\ (forall d, In d (parsed_dates md) ->
          (forall d', In d' (parsed_dates md) -> d' <> d ->
                      (DT.instant d' < DT.instant d)%Z) ->
          extract_date DEFAULT_DATE md = inr (DT.strftime_m_Y d)).
Proof.
  intros Hmd (tag & s & d & Htag & Hv & Hp).
  assert (parsed_dates md <> []) as Hne.
  { assert (d ∈ parsed_dates md) as Hd; [| by intros Heq; rewrite Heq in Hd; inversion Hd].
    apply list_elem_of_omap. exists tag. split; [by apply list_elem_of_In |].
    unfold parse_tag. by rewrite Hv, Hp. }
  destruct (extract_date_latest DEFAULT_DATE md Hmd Hne) as (latest & Hin & Hmax & Hres).
  exists latest. split; [done |]. split; [done |]. split; [done |].
  split; [by apply strftime_m_Y_format, (parsed_dates_valid md) |].
  intros d1 Hd1 Hlater.
  destruct (decide (latest = d1)) as [<-|Hneq]; [done |].
  pose proof (Hlater latest Hin Hneq). pose proof (Hmax d1 Hd1). lia.
Qed.

Lemma md_example_string_valued : string_valued md_example.
Proof.
  unfold md_example.
  apply map_Forall_insert_2; [done |].
  apply map_Forall_insert_2; [done |]. apply map_Forall_empty.
Qed.

Lemma C1_extract_date_returns_latest_witness :
  string_valued md_example
  /\ extract_date "08/2024" md_example = inr "01/2023".
Proof.
  split; [exact md_example_string_valued |].
  destruct (C1_extract_date_returns_latest "08/2024" md_example
              md_example_string_valued) as (latest & _ & _ & _ & _ & Hwin).
  - exists "XMP:CreateDate", "2023-01-01T00:00:00",
      (DT.mk_datetime 2023 1 1 0 0 0 (Some 0%Z)).
    split; [simpl; tauto |]. split; by vm_compute.
  - rewrite (Hwin (DT.mk_datetime 2023 1 1 0 0 0 (Some 0%Z))).
    + reflexivity.
    + vm_compute. tauto.
    + intros d' Hd' Hne. vm_compute in Hd'.
      destruct Hd' as [<-|[<-|[]]]; [by vm_compute | done].
Defined.

(** C7, as stated, fails: with the default "08/2024" a record dated August
    2024 gets the default string back although one date parsed. *)
Lemma C7_default_iff_counterexample :
  ~ (forall (DEFAULT_DATE : string) (md : record),
       string_valued md ->
       (extract_date DEFAULT_DATE md = inr DEFAULT_DATE <-> parsed_dates md = [])).
Proof.
  intros H.
  specialize (H "08/2024" (<["EXIF:DateTimeOriginal" := PyStr "2024:08:15"]> ∅)).
  destruct H as [H _].
  - apply map_Forall_insert_2; [done | apply map_Forall_empty].
  - assert (extract_date "08/2024"
              (<["EXIF:DateTimeOriginal" := PyStr "2024:08:15"]> ∅)
            = inr "08/2024") as Hres by (by vm_compute).
    specialize (H Hres). vm_compute in H. discriminate H.
Qed.

(** C7 (amended): on a string-valued record [extract_date] never raises; a
    tag whose value parses under no format is skipped and the other tags
    still contribute; with no parsed date the result is the default, with
    some parsed date it is the rendering of the latest one, a parsed date
    that none exceeds; and the result is the default exactly when no date
    parsed, provided no parsed date renders as the default string. *)
Theorem C7_extract_date_total (DEFAULT_DATE : string) (md : record) :
  string_valued md ->
  collect_dates md date_tags [] = inr (parsed_dates md)
  /\ (exists s, extract_date DEFAULT_DATE md = inr s)
  /\ (forall tag d, In tag date_tags -> parse_tag md tag = Some d ->
                    In d (parsed_dates md))
  /\ (parsed_dates md = [] -> extract_date DEFAULT_DATE md = inr DEFAULT_DATE)
  /\ (parsed_dates md <> [] ->
      exists latest,
        In latest (parsed_dates md)
        /\ (forall d, In d (parsed_dates md) ->
              (DT.instant d <= DT.instant latest)%Z)
        /\ extract_date DEFAULT_DATE md = inr (DT.strftime_m_Y latest))
  /\ ((forall d, In d (parsed_dates md) -> DT.strftime_m_Y d <> DEFAULT_DATE) ->
      (extract_date DEFAULT_DATE md = inr DEFAULT_DATE <-> parsed_dates md = [])).
Proof.
  intros Hmd.
  pose proof (extract_date_string_valued DEFAULT_DATE md Hmd) as Hres.
  split; [by rewrite collect_dates_string_valued |].
  split; [by eexists |].
  split.
  { intros tag d Htag Hp. apply list_elem_of_In, list_elem_of_omap.
    exists tag. split; [by apply list_elem_of_In | done]. }
  split; [by intros Hnil; rewrite Hres, Hnil |].
  split.
  { intros Hne. by apply extract_date_latest. }
  intros Hdiff. split; [| by intros Hnil; rewrite Hres, Hnil].
  intros Hd. destruct (parsed_dates md) as [|x xs] eqn:Hpd; [done |].
  exfalso. rewrite Hres in Hd. injection Hd as Hd.
  apply (Hdiff (DT.max_from x xs)); [| done].
  apply (DTFacts.max_from_spec xs x).
Qed.

Lemma C7_extract_date_total_witness :
  string_valued md_example
  /\ exists latest,
       In latest (parsed_dates md_example)
       /\ (forall d, In d (parsed_dates md_example) ->
             (DT.instant d <= DT.instant latest)%Z)
       /\ extract_date "08/2024" md_example = inr (DT.strftime_m_Y latest).
Proof.
  split; [exact md_example_string_valued |].
  destruct (C7_extract_date_total "08/2024" md_example md_example_string_valued)
    as (_ & _ & _ & _ & Hlatest & _).
  apply Hlatest. by vm_compute.
Defined.

(** C8: the value "2023-01-01T00:00:00.5+02:00" is cut at its first dot, so
    the offset is lost with the fraction: it parses under the offset-free
    ISO format and is taken as UTC, two hours later than the instant it
    denotes.  Against a second tag holding 2022-12-31 23:00:00 (UTC) it
    wins and the bucket is 01/2023, although the instant it denotes,
    2022-12-31 22:00:00.5 UTC, is the earlier one. *)
Theorem C8_fraction_strip_drops_offset :
  try_formats "2023-01-01T00:00:00.5+02:00" date_formats
    = inr (Some (DT.mk_datetime 2023 1 1 0 0 0 (Some 0%Z)))
  /\ Strptime.strptime "2023-01-01T00:00:00+02:00" "%Y-%m-%dT%H:%M:%S%z"
     = Some (DT.mk_datetime 2023 1 1 0 0 0 (Some 7200000000%Z))
  /\ try_formats "2022:12:31 23:00:00" date_formats
     = inr (Some (DT.mk_datetime 2022 12 31 23 0 0 (Some 0%Z)))
  /\ (DT.instant (DT.mk_datetime 2023 1 1 0 0 0 (Some 7200000000%Z))
      < DT.instant (DT.mk_datetime 2022 12 31 23 0 0 (Some 0%Z))
      < DT.instant (DT.mk_datetime 2023 1 1 0 0 0 (Some 0%Z)))%Z
  /\ extract_date "08/2024"
       (<["EXIF:CreateDate" := PyStr "2022:12:31 23:00:00"]>
          (<["XMP:CreateDate" := PyStr "2023-01-01T00:00:00.5+02:00"]> ∅))
     = inr "01/2023".
Proof. repeat split; by vm_compute. Qed.

(** ** Grouping by year *)

Lemma filter_sublist {A : Type} (f : A -> bool) (l : list A) :
  sublist (List.filter f l) l.
Proof.
  induction l as [|x l IH]; simpl; [constructor |].
  destruct (f x); by constructor.
Qed.

Section DictFacts.
Implicit Types (d : list (string * list string)) (year image : string).

Lemma dict_get_append year year' image d :
  dict_get year (dict_append year' image d) =
    if String.eqb year' year then dict_get year d ++ [image] else dict_get year d.
Proof.
  induction d as [|[y l] d IH]; simpl.
  - by destruct (String.eqb year' year).
  - destruct (String.eqb_spec y year') as [->|Hne]; simpl.
    + by destruct (String.eqb year' year).
    + destruct (String.eqb_spec y year) as [->|Hne']; [| exact IH].
      by destruct (String.eqb_spec year' year) as [->|].
Qed.

Lemma dict_keys_append year image d :
  map fst (dict_append year image d) =
    if bool_decide (year ∈ map fst d) then map fst d else map fst d ++ [year].
Proof.
  induction d as [|[y l] d IH]; simpl; [done |].
  destruct (String.eqb_spec y year) as [->|Hne]; simpl.
  - rewrite bool_decide_eq_true_2; [done | by left].
  - rewrite IH. destruct (decide (year ∈ map fst d)) as [Hin|Hnin].
    + rewrite !bool_decide_eq_true_2; [done | by right | done].
    + rewrite !bool_decide_eq_false_2; [done | | done].
      intros Hc. apply elem_of_cons in Hc as [->|Hc]; done.
Qed.

Lemma dict_keys_NoDup year image d :
  NoDup (map fst d) -> NoDup (map fst (dict_append year image d)).
Proof.
  intros Hd. rewrite dict_keys_append. case_bool_decide as Hin; [done |].
  apply NoDup_app. split; [done |]. split; [| apply NoDup_singleton].
  intros x Hx Hx'. apply list_elem_of_singleton in Hx' as ->. done.
Qed.

Lemma dict_append_nonempty year image d :
  Forall (fun e => snd e <> []) d ->
  Forall (fun e => snd e <> []) (dict_append year image d).
Proof.
  induction 1 as [|[y l] d Hl Hd IH]; simpl.
  - by repeat constructor.
  - destruct (String.eqb y year); constructor; simpl in *; try done.
    by destruct l.
Qed.

Lemma dict_append_perm year image d :
  Permutation (concat (map snd (dict_append year image d)))
              (concat (map snd d) ++ [image]).
Proof.
  induction d as [|[y l] d IH]; simpl; [done |].
  destruct (String.eqb y year); simpl.
  - rewrite <- !app_assoc. apply Permutation_app_head, Permutation_app_comm.
  - rewrite IH. by rewrite app_assoc.
Qed.

(** With distinct keys, the entry of a year is its group. *)
Lemma dict_get_entry year l d :
  NoDup (map fst d) -> In (year, l) d -> dict_get year d = l.
Proof.
  induction d as [|[y l'] d IH]; simpl; [done |].
  intros Hnd [Heq|Hin].
  - injection Heq as -> ->. by rewrite String.eqb_refl.
  - apply NoDup_cons in Hnd as [Hy Hnd].
    destruct (String.eqb_spec y year) as [->|Hne]; [| by apply IH].
    exfalso. apply Hy. apply list_elem_of_In, in_map_iff. by exists (year, l).
Qed.

End DictFacts.

Section Grouping.
Variable DEFAULT_DATE : string.
Variable metadata : store.

Lemma group_by_year_spec (images : list string) (d d' : list (string * list string)) :
  group_by_year DEFAULT_DATE metadata images d = inr d' ->
  (forall year, dict_get year d' = dict_get year d ++ List.filter (in_year DEFAULT_DATE metadata year) images)
  /\ (NoDup (map fst d) -> NoDup (map fst d'))
  /\ (Forall (fun e => snd e <> []) d -> Forall (fun e => snd e <> []) d')
  /\ Permutation (concat (map snd d')) (concat (map snd d) ++ images).
Proof.
  revert d. induction images as [|image images IH]; intros d; simpl.
  - intros [= <-]. split; [intros; by rewrite app_nil_r |].
    split; [done |]. split; [done |]. by rewrite app_nil_r.
  - destruct (year_of DEFAULT_DATE metadata image) as [e|y] eqn:Hy; [done |].
    intros Hg. destruct (IH _ Hg) as (Hget & Hnd & Hne & Hperm).
    split; [| split; [| split]].
    + intros year. rewrite Hget, dict_get_append. unfold in_year at 2. rewrite Hy.
      destruct (String.eqb y year); [by rewrite <- app_assoc | done].
    + intros H. by apply Hnd, dict_keys_NoDup.
    + intros H. by apply Hne, dict_append_nonempty.
    + rewrite Hperm, dict_append_perm, <- app_assoc. done.
Qed.

(** An exception of one image is the exception of the loop. *)
Lemma group_by_year_raises (e : exn) (images : list string)
    (d : list (string * list string)) :
  (exists image, In image images /\ year_of DEFAULT_DATE metadata image = inl e) ->
  (forall image, In image images ->
     year_of DEFAULT_DATE metadata image = inl e
     \/ exists y, year_of DEFAULT_DATE metadata image = inr y) ->
  group_by_year DEFAULT_DATE metadata images d = inl e.
Proof.
  revert d. induction images as [|image images IH]; intros d (im & Him & He) Hall.
  - destruct Him.
  - simpl. destruct (Hall image (or_introl eq_refl)) as [->|[y Hy]]; [done |].
    rewrite Hy. apply IH.
    + destruct Him as [->|Him]; [congruence | by exists im].
    + intros im' Him'. apply Hall. by right.
Qed.

Lemma group_by_year_returns (images : list string) (d : list (string * list string)) :
  (forall image, In image images ->
     exists y, year_of DEFAULT_DATE metadata image = inr y) ->
  exists d', group_by_year DEFAULT_DATE metadata images d = inr d'.
Proof.
  revert d. induction images as [|image images IH]; intros d Hall; simpl.
  - by eexists.
  - destruct (Hall image (or_introl eq_refl)) as [y ->].
    apply IH. intros im Him. apply Hall. by right.
Qed.

Lemma record_of_string_valued (image : string) :
  store_string_valued metadata -> string_valued (record_of metadata image).
Proof.
  intros Hst. unfold record_of.
  destruct (metadata !! PyStr.replace ".jpg" "" image) as [md|] eqn:Hmd; simpl.
  - exact (Hst _ _ Hmd).
  - apply map_Forall_empty.
Qed.

(** The year of an image in a string-valued store. *)
Lemma year_of_string_valued (image : string) :
  store_string_valued metadata ->
  year_of DEFAULT_DATE metadata image =
    match parsed_dates (record_of metadata image) with
    | [] => item 1 (PyStr.split "/" DEFAULT_DATE)
    | x :: xs => inr (PyStr.decimal (DT.year (DT.max_from x xs)))
    end.
Proof.
  intros Hst. unfold year_of. fold (record_of metadata image).
  rewrite (extract_date_string_valued _ _ (record_of_string_valued image Hst)).
  destruct (parsed_dates (record_of metadata image)) as [|x xs]; [done |].
  unfold rbind, DT.strftime_m_Y.
  change (?a ++ "/" ++ ?b)%string with (a ++ String "/" b)%string.
  by rewrite PyStrFacts.split_m_Y.
Qed.

Lemma year_of_total (image : string) :
  store_string_valued metadata -> PyStr.contains "/" DEFAULT_DATE = true ->
  exists y, year_of DEFAULT_DATE metadata image = inr y.
Proof.
  intros Hst Hd. rewrite year_of_string_valued by done.
  destruct (parsed_dates (record_of metadata image)); [| by eexists].
  destruct (PyStrFacts.split_some "/" DEFAULT_DATE Hd) as (a & b & rest & ->).
  by exists b.
Qed.

Lemma year_of_no_slash (image : string) :
  store_string_valued metadata -> PyStr.contains "/" DEFAULT_DATE = false ->
  year_of DEFAULT_DATE metadata image =
    match parsed_dates (record_of metadata image) with
    | [] => inl IndexError
    | x :: xs => inr (PyStr.decimal (DT.year (DT.max_from x xs)))
    end.
Proof.
  intros Hst Hd. rewrite year_of_string_valued by done.
  destruct (parsed_dates (record_of metadata image)); [| done].
  by rewrite PyStrFacts.split_none.
Qed.

End Grouping.

Lemma dict_get_in (year : string) (d : list (string * list string)) :
  dict_get year d <> [] -> In (year, dict_get year d) d.
Proof.
  induction d as [|[y l] d IH]; simpl; [done |].
  destruct (String.eqb_spec y year) as [->|Hne]; [by left | right; by apply IH].
Qed.

Lemma sorted_images_perm (listing : list string) :
  Permutation (sorted_images listing) (List.filter (PyStr.endswith ".jpg") listing).
Proof. unfold sorted_images. symmetry. apply StringSort.Permuted_sort. Qed.

Lemma sorted_images_in (listing : list string) (image : string) :
  In image (sorted_images listing)
  <-> In image listing /\ PyStr.endswith ".jpg" image = true.
Proof.
  rewrite <- filter_In. split; apply Permutation_in;
    [| symmetry]; apply sorted_images_perm.
Qed.

(** C3: the year groups partition the corpus.  The sorted image list holds
    the files of the listing that end in ".jpg", each as often as the
    listing has it, in ascending order; grouping returns, the years are
    distinct, the group of a year holds exactly the images of that year in
    the order of the sorted list, every image lies in exactly one group,
    and the groups together are a permutation of the sorted list and so of
    the images of the listing. *)
Theorem C3_year_groups_partition (DEFAULT_DATE : string) (metadata : store)
    (listing : list string) :
  store_string_valued metadata ->
  PyStr.contains "/" DEFAULT_DATE = true ->
  exists groups,
    group_by_year DEFAULT_DATE metadata (sorted_images listing) [] = inr groups
    /\ Permutation (sorted_images listing)
         (List.filter (PyStr.endswith ".jpg") listing)
    /\ (forall image, In image (sorted_images listing)
                      <-> In image listing /\ PyStr.endswith ".jpg" image = true)
    /\ Sorted (fun a b => String.leb a b = true) (sorted_images listing)
    /\ NoDup (map fst groups)
    /\ (forall year l, In (year, l) groups ->
          l <> []
          /\ l = List.filter (in_year DEFAULT_DATE metadata year) (sorted_images listing)
          /\ sublist l (sorted_images listing))
    /\ (forall image, In image (sorted_images listing) ->
          exists year l,
            In (year, l) groups /\ In image l
            /\ forall year' l', In (year', l') groups -> In image l' -> year' = year)
    /\ Permutation (concat (map snd groups)) (sorted_images listing)
    /\ Permutation (concat (map snd groups))
         (List.filter (PyStr.endswith ".jpg") listing).
Proof.
  intros Hst Hd.
  pose proof (sorted_images_perm listing) as Hlisting.
  pose proof (sorted_images_in listing) as Hin_listing.
  set (images := sorted_images listing) in *.
  destruct (group_by_year_returns DEFAULT_DATE metadata images []) as [groups Hg].
  { intros image _. by apply year_of_total. }
  destruct (group_by_year_spec _ _ _ _ _ Hg) as (Hget & Hnd & Hne & Hperm).
  specialize (Hnd (NoDup_nil_2)). specialize (Hne (Forall_nil_2 _)).
  assert (forall year l, In (year, l) groups ->
            l = List.filter (in_year DEFAULT_DATE metadata year) images) as Hgrp.
  { intros year l Hin. rewrite <- (dict_get_entry year l groups Hnd Hin). apply Hget. }
  exists groups. split; [done |]. split; [done |]. split; [done |].
  split; [apply StringSort.Sorted_sort |]. split; [done |].
  split; [| split; [| split; [done | by rewrite Hperm]]].
  - intros year l Hin. split; [| split; [by apply Hgrp |]].
    + rewrite Forall_forall in Hne. apply (Hne (year, l)). by apply list_elem_of_In.
    + rewrite (Hgrp year l Hin). apply filter_sublist.
  - intros image Him.
    destruct (year_of_total DEFAULT_DATE metadata image Hst Hd) as [y Hy].
    assert (In image (dict_get y groups)) as Hin.
    { rewrite Hget. simpl. apply filter_In. split; [done |].
      unfold in_year. by rewrite Hy, String.eqb_refl. }
    exists y, (dict_get y groups). split; [| split; [done |]].
    + apply dict_get_in. by destruct (dict_get y groups).
    + intros y' l' Hin' Him'. rewrite (Hgrp y' l' Hin') in Him'.
      apply filter_In in Him' as [_ Hy']. unfold in_year in Hy'. rewrite Hy in Hy'.
      symmetry. by apply String.eqb_eq.
Qed.

Lemma store_example_string_valued : store_string_valued store_example.
Proof.
  unfold store_example.
  repeat (apply map_Forall_insert_2;
          [apply map_Forall_insert_2; [done | apply map_Forall_empty] |]).
  apply map_Forall_empty.
Qed.

Lemma C3_year_groups_partition_witness :
  store_string_valued store_example
  /\ PyStr.contains "/" "08/2024" = true
  /\ exists groups,
       group_by_year "08/2024" store_example (sorted_images listing_example) []
         = inr groups
       /\ Permutation (concat (map snd groups))
            (List.filter (PyStr.endswith ".jpg") listing_example)
       /\ List.filter (PyStr.endswith ".jpg") listing_example
          = ["c.jpg"; "a.jpg"; "b.jpg"].
Proof.
  split; [exact store_example_string_valued |]. split; [reflexivity |].
  destruct (C3_year_groups_partition "08/2024" store_example listing_example
              store_example_string_valued eq_refl)
    as (groups & Hg & _ & _ & _ & _ & _ & _ & _ & Hperm).
  exists groups. split; [exact Hg |]. split; [exact Hperm | reflexivity].
Defined.

(** C9, as stated, fails: what [extract_date] returns need not be the
    default or a string MM/YYYY.  For a record dated in the year 999 it is
    "01/999". *)
Lemma C9_mm_yyyy_counterexample :
  ~ (forall (DEFAULT_DATE : string) (md : record) (s : string),
       extract_date DEFAULT_DATE md = inr s ->
       s = DEFAULT_DATE \/ mm_yyyy s).
Proof.
  intros H.
  destruct (H "08/2024" md_year_999 "01/999") as [Heq|(m & y & _ & _ & Heq)].
  - by vm_compute.
  - discriminate Heq.
  - unfold PyStr.fmt2, PyStr.fmt4, PyStr.fmt2 in Heq. discriminate Heq.
Qed.

(** C9 (amended): what [extract_date] returns is the default string as it
    is or the rendering of a date: the month in two digits, a slash, and
    the year in decimal without leading zeros, which has exactly two fields
    around its one slash.  Hence, on a string-valued store, taking the
    year succeeds for every image when the default has a slash; when it has
    none, an image without a parsed date makes the grouping loop, and with
    it [process_images], raise [IndexError] before anything is done. *)
Theorem C9_year_extraction_needs_slash (DEFAULT_DATE : string) :
  (forall (md : record) (s : string),
     extract_date DEFAULT_DATE md = inr s ->
     s = DEFAULT_DATE
     \/ (month_slash_year s
         /\ exists mm yyyy,
              PyStr.split "/" s = [mm; yyyy]
              /\ PyStr.contains "/" mm = false /\ PyStr.contains "/" yyyy = false))
  /\ (PyStr.contains "/" DEFAULT_DATE = true ->
      forall (metadata : store) (images : list string),
        store_string_valued metadata ->
        exists groups, group_by_year DEFAULT_DATE metadata images [] = inr groups)
  /\ (PyStr.contains "/" DEFAULT_DATE = false ->
      forall (metadata : store) (listing : list string) (image : string),
        store_string_valued metadata ->
        In image (sorted_images listing) ->
        parsed_dates (record_of metadata image) = [] ->
        year_of DEFAULT_DATE metadata image = inl IndexError
        /\ group_by_year DEFAULT_DATE metadata (sorted_images listing) []
           = inl IndexError
        /\ forall BATCH_SIZE SUB_BATCH_SIZE IMAGE_DIRECTORY_FOLDER OUTPUT_DIR
                  template pil sched w,
             process_images BATCH_SIZE SUB_BATCH_SIZE DEFAULT_DATE
               IMAGE_DIRECTORY_FOLDER OUTPUT_DIR template pil
               listing metadata sched w
             = (inl IndexError, w)).
Proof.
  split; [| split].
  - intros md s Hs. unfold extract_date in Hs.
    destruct (collect_dates md date_tags []) as [e|dates] eqn:Hc; [done |].
    simpl in Hs. destruct dates as [|x xs]; [left; congruence | right].
    injection Hs as <-.
    pose proof (collect_dates_valid md _ _ _ Hc (Forall_nil_2 _)) as Hv.
    rewrite Forall_forall in Hv.
    assert (DT.check_date_fields (DT.year (DT.max_from x xs))
              (DT.month (DT.max_from x xs)) (DT.day (DT.max_from x xs)) = true) as Hm.
    { apply Hv, list_elem_of_In, (DTFacts.max_from_spec xs x). }
    split; [by apply strftime_month_slash_year |].
    exists (PyStr.fmt2 (DT.month (DT.max_from x xs))),
           (PyStr.decimal (DT.year (DT.max_from x xs))).
    split; [apply PyStrFacts.split_m_Y |].
    split; [apply PyStrFacts.fmt2_no_slash | apply PyStrFacts.decimal_no_slash].
  - intros Hd metadata images Hst. apply group_by_year_returns.
    intros image _. by apply year_of_total.
  - intros Hd metadata listing image Hst Him Hnone.
    assert (year_of DEFAULT_DATE metadata image = inl IndexError) as Hy.
    { rewrite year_of_no_slash by done. by rewrite Hnone. }
    assert (group_by_year DEFAULT_DATE metadata (sorted_images listing) []
            = inl IndexError) as Hg.
    { apply group_by_year_raises; [by exists image |].
      intros im _. rewrite year_of_no_slash by done.
      destruct (parsed_dates (record_of metadata im)); [by left | right; by eexists]. }
    split; [done |]. split; [done |].
    intros. unfold process_images. by rewrite Hg.
Qed.

Lemma C9_year_extraction_needs_slash_witness :
  PyStr.contains "/" "unknown" = false
  /\ store_string_valued store_example
  /\ In "d.jpg" (sorted_images ["d.jpg"; "a.jpg"])
  /\ parsed_dates (record_of store_example "d.jpg") = []
  /\ group_by_year "unknown" store_example (sorted_images ["d.jpg"; "a.jpg"]) []
     = inl IndexError.
Proof.
  split; [reflexivity |]. split; [exact store_example_string_valued |].
  split; [vm_compute; tauto |]. split; [by vm_compute |].
  destruct (C9_year_extraction_needs_slash "unknown") as (_ & _ & Hraise).
  destruct (Hraise eq_refl store_example ["d.jpg"; "a.jpg"] "d.jpg"
              store_example_string_valued) as (_ & Hg & _).
  - vm_compute. tauto.
  - by vm_compute.
  - exact Hg.
Defined.

(** ** Batches *)

(** C2: a year group of K items is cut into ceil(K / BATCH_SIZE) batches
    (the number n of batches is the one with K <= n * BATCH_SIZE <
    K + BATCH_SIZE); the window with 0-based index i is batch i + 1 and
    holds the items from position i * BATCH_SIZE on; every batch has
    between 1 and BATCH_SIZE items and every batch but the last has
    exactly BATCH_SIZE; the batches in order, put together, are the year
    group. *)
Theorem C2_batches_chunking (BATCH_SIZE : nat) (year_images : list string) :
  0 < BATCH_SIZE ->
  length (batches BATCH_SIZE year_images)
    = (length year_images + BATCH_SIZE - 1) / BATCH_SIZE
  /\ length year_images <= length (batches BATCH_SIZE year_images) * BATCH_SIZE
     < length year_images + BATCH_SIZE
  /\ (forall i, i < length (batches BATCH_SIZE year_images) ->
        exists batch,
          batches BATCH_SIZE year_images !! i = Some (i + 1, batch)
          /\ batch = take BATCH_SIZE (drop (i * BATCH_SIZE) year_images)
          /\ 1 <= length batch <= BATCH_SIZE
          /\ (S i < length (batches BATCH_SIZE year_images) ->
              length batch = BATCH_SIZE))
  /\ concat (map snd (batches BATCH_SIZE year_images)) = year_images.
Proof.
  intros HB. unfold batches.
  split; [apply chunks_length |].
  split; [rewrite chunks_length; by apply ceil_bounds |].
  split; [| by apply chunks_windows].
  intros i Hi. exists (slice (i * BATCH_SIZE) BATCH_SIZE year_images).
  split; [by apply chunks_lookup |]. split; [done |].
  split; [by apply chunks_nonempty |]. intros Hlast. by apply chunks_full.
Qed.

Lemma C2_batches_chunking_witness :
  0 < 2
  /\ concat (map snd (batches 2 ["a.jpg"; "b.jpg"; "c.jpg"]))
     = ["a.jpg"; "b.jpg"; "c.jpg"]
  /\ length (batches 2 ["a.jpg"; "b.jpg"; "c.jpg"]) = 2.
Proof.
  split; [lia |].
  destruct (C2_batches_chunking 2 ["a.jpg"; "b.jpg"; "c.jpg"]) as (Hlen & _ & _ & Hcat);
    [lia |].
  split; [exact Hcat | exact Hlen].
Defined.

(** ** The metadata key *)

Lemma startswith_jpg_app (a : string) :
  PyStr.startswith ".jpg" a = false ->
  PyStr.startswith ".jpg" (a +:+ ".jpg") = String.eqb a "".
Proof.
  destruct a as [|c1 [|c2 [|c3 [|c4 a]]]]; simpl; try done;
    repeat (case Ascii.eqb_spec; intros; subst; simpl; try done).
Qed.

(** Removing ".jpg" from a name whose only ".jpg" is the extension leaves
    the stem. *)
Lemma replace_jpg_stem (stem : string) :
  PyStr.contains ".jpg" stem = false ->
  PyStr.replace ".jpg" "" (stem +:+ ".jpg") = stem.
Proof.
  unfold PyStr.replace. induction stem as [|c stem IH]; [done |].
  intros Hc. cbn [PyStr.contains] in Hc. apply orb_false_iff in Hc as [Hs Hc].
  change (String c stem +:+ ".jpg") with (String c (stem +:+ ".jpg")).
  cbn [PyStr.replace_from].
  change (String c (stem +:+ ".jpg")) with (String c stem +:+ ".jpg").
  rewrite (startswith_jpg_app (String c stem) Hs).
  cbn [String.eqb]. by rewrite IH.
Qed.

(** ** One image *)

Section ProcessImage.
Variables DEFAULT_DATE IMAGE_DIRECTORY_FOLDER : string.
Variable pil : string -> option exn.
Variable fs : gmap string content.
Variable metadata : store.

Let process := process_image DEFAULT_DATE IMAGE_DIRECTORY_FOLDER pil fs.

(** The outcomes of [process_image], case by case. *)
Lemma process_image_date_raises image batch_dir idx e :
  extract_date DEFAULT_DATE (record_of metadata image) = inl e ->
  process image batch_dir idx metadata
  = (no_metadata_warning metadata image ++ [EvLog ERROR (ErrorExtractingDate image e)],
     inr false).
Proof.
  intros He. unfold process, process_image, no_metadata_warning.
  fold (record_of metadata image). rewrite He.
  by destruct (Nat.eqb (size (record_of metadata image)) 0).
Qed.

Lemma process_image_source_missing image batch_dir idx date :
  extract_date DEFAULT_DATE (record_of metadata image) = inr date ->
  fs !! path_join IMAGE_DIRECTORY_FOLDER image = None ->
  process image batch_dir idx metadata
  = (no_metadata_warning metadata image
       ++ [EvLog ERROR (ErrorResizingImage (path_join IMAGE_DIRECTORY_FOLDER image)
                          FileNotFoundError);
           EvLog ERROR (FileNotFound (path_join IMAGE_DIRECTORY_FOLDER image)
                          FileNotFoundError)],
     inr false).
Proof.
  intros Hd Hf. unfold process, process_image, no_metadata_warning, resize_image.
  fold (record_of metadata image). rewrite Hd, Hf.
  by destruct (Nat.eqb (size (record_of metadata image)) 0).
Qed.

Lemma process_image_codec_raises image batch_dir idx date c e :
  extract_date DEFAULT_DATE (record_of metadata image) = inr date ->
  fs !! path_join IMAGE_DIRECTORY_FOLDER image = Some c ->
  pil (path_join IMAGE_DIRECTORY_FOLDER image) = Some e ->
  process image batch_dir idx metadata
  = (no_metadata_warning metadata image
       ++ EvLog ERROR (ErrorResizingImage (path_join IMAGE_DIRECTORY_FOLDER image) e)
          :: (if is_FileNotFoundError e
              then [EvLog ERROR (FileNotFound (path_join IMAGE_DIRECTORY_FOLDER image) e)]
              else []),
     if is_FileNotFoundError e then inr false else inl e).
Proof.
  intros Hd Hf Hp. unfold process, process_image, no_metadata_warning, resize_image.
  fold (record_of metadata image). rewrite Hd, Hf, Hp.
  destruct (Nat.eqb (size (record_of metadata image)) 0); by destruct e.
Qed.

Lemma process_image_succeeds image batch_dir idx date c :
  extract_date DEFAULT_DATE (record_of metadata image) = inr date ->
  fs !! path_join IMAGE_DIRECTORY_FOLDER image = Some c ->
  pil (path_join IMAGE_DIRECTORY_FOLDER image) = None ->
  process image batch_dir idx metadata
  = (no_metadata_warning metadata image
       ++ EvWrite (path_join batch_dir image)
            (Image (path_join IMAGE_DIRECTORY_FOLDER image))
          :: row_cells idx image date,
     inr true).
Proof.
  intros Hd Hf Hp. unfold process, process_image, no_metadata_warning, resize_image.
  fold (record_of metadata image). rewrite Hd, Hf, Hp.
  by destruct (Nat.eqb (size (record_of metadata image)) 0).
Qed.

(** The cells a task writes: the row of its index when it returns [True],
    none otherwise. *)
Lemma process_image_cells image batch_dir idx :
  List.filter is_cell (fst (process image batch_dir idx metadata))
  = match snd (process image batch_dir idx metadata),
          extract_date DEFAULT_DATE (record_of metadata image) with
    | inr true, inr date => row_cells idx image date
    | _, _ => []
    end.
Proof.
  destruct (extract_date DEFAULT_DATE (record_of metadata image)) as [e|date] eqn:Hd.
  - rewrite (process_image_date_raises _ batch_dir idx _ Hd). simpl.
    rewrite List.filter_app. unfold no_metadata_warning.
    by destruct (Nat.eqb (size (record_of metadata image)) 0).
  - destruct (fs !! path_join IMAGE_DIRECTORY_FOLDER image) as [c|] eqn:Hf.
    + destruct (pil (path_join IMAGE_DIRECTORY_FOLDER image)) as [e|] eqn:Hp.
      * rewrite (process_image_codec_raises _ batch_dir idx _ _ _ Hd Hf Hp). simpl.
        rewrite List.filter_app. unfold no_metadata_warning.
        destruct (Nat.eqb (size (record_of metadata image)) 0); by destruct e.
      * rewrite (process_image_succeeds _ batch_dir idx _ _ Hd Hf Hp). simpl.
        rewrite List.filter_app. unfold no_metadata_warning.
        by destruct (Nat.eqb (size (record_of metadata image)) 0).
    + rewrite (process_image_source_missing _ batch_dir idx _ Hd Hf). simpl.
      rewrite List.filter_app. unfold no_metadata_warning.
      by destruct (Nat.eqb (size (record_of metadata image)) 0).
Qed.

(** A task returns [True] only after the date was resolved. *)
Lemma process_image_true image batch_dir idx :
  snd (process image batch_dir idx metadata) = inr true ->
  exists date, extract_date DEFAULT_DATE (record_of metadata image) = inr date.
Proof.
  destruct (extract_date DEFAULT_DATE (record_of metadata image)) as [e|date] eqn:Hd.
  - by rewrite (process_image_date_raises _ batch_dir idx _ Hd).
  - by eexists.
Qed.

End ProcessImage.



(** ** Events and worlds *)

Lemma apply_events_app (w : world) (evs evs' : list event) :
  apply_events w (evs ++ evs') = apply_events (apply_events w evs) evs'.
Proof. unfold apply_events. apply fold_left_app. Qed.

Lemma apply_events_snoc (w : world) (evs : list event) (ev : event) :
  apply_events w (evs ++ [ev]) = apply_event (apply_events w evs) ev.
Proof. by rewrite apply_events_app. Qed.

Lemma trace_apply_event (w : world) (ev : event) :
  trace (apply_event w ev) = trace w ++ [ev].
Proof. by destruct ev. Qed.

Lemma trace_apply_events (w : world) (evs : list event) :
  trace (apply_events w evs) = trace w ++ evs.
Proof.
  revert w. induction evs as [|ev evs IH]; intros w; simpl.
  - by rewrite app_nil_r.
  - rewrite IH, trace_apply_event. by rewrite <- app_assoc.
Qed.

Lemma sheet_apply_event_off (w : world) (ev : event) :
  off_sheet ev = true -> sheet (apply_event w ev) = sheet w.
Proof. by destruct ev. Qed.

Lemma sheet_apply_events_off (w : world) (evs : list event) :
  Forall (fun ev => off_sheet ev = true) evs -> sheet (apply_events w evs) = sheet w.
Proof.
  intros H. revert w. induction H as [|ev evs Hev _ IH]; intros w; simpl; [done |].
  by rewrite IH, sheet_apply_event_off.
Qed.

(** A cell that no event writes keeps its value. *)
Lemma sheet_untouched (w : world) (evs : list event) (r c : nat) :
  Forall (fun ev => is_load ev = false) evs ->
  (forall v, ~ In (EvCell r c v) evs) ->
  sheet (apply_events w evs) !! (r, c) = sheet w !! (r, c).
Proof.
  induction evs as [|ev evs IH] using rev_ind; [done |].
  intros Hl Hn. apply Forall_app in Hl as [Hl Hev].
  rewrite apply_events_snoc.
  assert (sheet (apply_events w evs) !! (r, c) = sheet w !! (r, c)) as <-.
  { apply IH; [done |]. intros v Hv. apply (Hn v), in_app_iff. by left. }
  apply Forall_cons in Hev as [Hev _].
  destruct ev as [| | | |r' c' v']; try done. simpl.
  apply lookup_insert_ne. intros [= -> ->].
  apply (Hn v'), in_app_iff. right. by left.
Qed.

(** A cell whose writes all carry the same value ends with that value,
    in whatever order the events come. *)
Lemma sheet_written (w : world) (evs : list event) (r c : nat) (v : cell_value) :
  Forall (fun ev => is_load ev = false) evs ->
  In (EvCell r c v) evs ->
  (forall v', In (EvCell r c v') evs -> v' = v) ->
  sheet (apply_events w evs) !! (r, c) = Some v.
Proof.
  induction evs as [|ev evs IH] using rev_ind; [done |].
  intros Hl Hin Hfun. apply Forall_app in Hl as [Hl Hev].
  apply Forall_cons in Hev as [Hev _].
  rewrite apply_events_snoc.
  destruct (decide (ev = EvCell r c v)) as [->|Hne].
  - simpl. apply lookup_insert_eq.
  - assert (In (EvCell r c v) evs) as Hin'.
    { apply in_app_iff in Hin as [?|[?|[]]]; [done | congruence]. }
    assert (sheet (apply_events w evs) !! (r, c) = Some v) as Hs.
    { apply IH; [done | done |]. intros v' Hv'. apply Hfun, in_app_iff. by left. }
    destruct ev as [| | | |r' c' v']; try done. simpl.
    rewrite lookup_insert_ne; [done |]. intros [= -> ->].
    apply Hne. f_equal. apply Hfun, in_app_iff. right. by left.
Qed.

(** ** Schedules *)

Lemma step_task_perm (i : nat) (ts ts' : list (list event)) (e : event) :
  step_task i ts = Some (e, ts') -> Permutation (concat ts) (e :: concat ts').
Proof.
  revert i ts'. induction ts as [|t ts IH]; intros [|i] ts'; simpl; try done.
  - destruct t as [|e' t]; [done |]. by intros [= -> <-].
  - destruct (step_task i ts) as [[e' ts'']|] eqn:Hs; [| done].
    intros [= -> <-]. simpl. rewrite (IH _ _ Hs).
    by rewrite Permutation_middle.
Qed.

(** Whatever the schedule, each event of each task is performed exactly
    once. *)
Lemma interleave_perm (sched : list nat) (ts : list (list event)) :
  Permutation (interleave sched ts) (concat ts).
Proof.
  revert ts. induction sched as [|i sched IH]; intros ts; simpl; [done |].
  destruct (step_task i ts) as [[e ts']|] eqn:Hs; [| apply IH].
  by rewrite (step_task_perm _ _ _ _ Hs), IH.
Qed.

(** A schedule that runs the tasks one after the other, last task first. *)
Example interleave_reverse_order :
  interleave [1; 1; 0; 0]
    [[EvCell 11 1 (CInt 1); EvCell 11 2 (CStr "a.jpg")];
     [EvCell 12 1 (CInt 2); EvCell 12 2 (CStr "b.jpg")]]
  = [EvCell 12 1 (CInt 2); EvCell 12 2 (CStr "b.jpg");
     EvCell 11 1 (CInt 1); EvCell 11 2 (CStr "a.jpg")].
Proof. reflexivity. Qed.

(** ** Main-thread code as events *)

Section Emits.
Variable P : event -> bool.

Lemma emits_ret : emits P (m_ret tt).
Proof. intros w. by exists []. Qed.

Lemma emits_emit (ev : event) : P ev = true -> emits P (m_emit ev).
Proof. intros Hev w. exists [ev]. split; [done | by repeat constructor]. Qed.

Lemma emits_seq (m1 m2 : M unit) :
  emits P m1 -> emits P m2 -> emits P (m_bind m1 (fun _ => m2)).
Proof.
  intros H1 H2 w. destruct (H1 w) as (evs1 & Hm1 & Hp1).
  destruct (H2 (apply_events w evs1)) as (evs2 & Hm2 & Hp2).
  exists (evs1 ++ evs2). unfold m_bind. rewrite Hm1, Hm2, apply_events_app.
  split; [done | by apply Forall_app].
Qed.

Lemma emits_for {A : Type} (l : list A) (body : A -> M unit) :
  (forall x, emits P (body x)) -> emits P (m_for l body).
Proof.
  intros Hb. induction l as [|x l IH]; simpl; [apply emits_ret |].
  by apply emits_seq.
Qed.

End Emits.

Lemma copy_sub_batches_off_sheet (SUB_BATCH_SIZE : nat) (images : list string)
    (batch_dir : string) :
  emits off_sheet (copy_sub_batches SUB_BATCH_SIZE images batch_dir).
Proof.
  unfold copy_sub_batches. apply emits_for. intros j.
  apply emits_seq; [by apply emits_emit |].
  apply emits_for. intros image w. unfold m_bind, path_exists, m_get, shutil_copy.
  destruct (files w !! path_join batch_dir image) as [c|] eqn:Hf; simpl;
    rewrite ?Hf; simpl.
  - exists [EvWrite (path_join (sub_batch_dir_of SUB_BATCH_SIZE batch_dir j) image) c].
    split; [done | by repeat constructor].
  - exists [EvLog WARNING (ResizedImageNotFound (path_join batch_dir image))].
    split; [done | by repeat constructor].
Qed.

Lemma perm_in_iff {A : Type} (l l' : list A) (x : A) :
  Permutation l l' -> In x l <-> In x l'.
Proof.
  intros H. split; apply Permutation_in; [done | by symmetry].
Qed.

(** ** One batch *)

Lemma row_cells_spec idx image date r c v :
  In (EvCell r c v) (row_cells idx image date)
  <-> r = idx + 11 /\ row_value idx image date c = Some v.
Proof.
  unfold row_cells. simpl. split.
  - intros H. repeat (destruct H as [[= <- <- <-]|H]; [done |]). done.
  - intros [-> H].
    do 7 (destruct c as [|c]; simpl in H; try discriminate H;
          try (injection H as <-; tauto)).
Qed.

Section Batch.
Variable SUB_BATCH_SIZE : nat.
Variables DEFAULT_DATE IMAGE_DIRECTORY_FOLDER OUTPUT_DIR : string.
Variable template : cells.
Variable pil : string -> option exn.
Variable metadata : store.
Variable images : list string.
Variable batch_number : nat.
Variable year : string.

Let batch_dir := batch_dir_of OUTPUT_DIR year batch_number.

Lemma future_events_cell (t : task bool) (r c : nat) (v : cell_value) :
  In (EvCell r c v) (future_events t) <-> In (EvCell r c v) (fst t).
Proof.
  destruct t as [evs [e|[|]]]; simpl; [| done |];
    rewrite in_app_iff; simpl; split; try tauto; by intros [?|[?|[]]].
Qed.

Lemma process_image_no_load fs image bd idx :
  Forall (fun ev => is_load ev = false)
    (fst (process_image DEFAULT_DATE IMAGE_DIRECTORY_FOLDER pil fs image bd idx metadata)).
Proof.
  assert (Forall (fun ev => is_load ev = false) (no_metadata_warning metadata image)) as Hw.
  { unfold no_metadata_warning. destruct (Nat.eqb _ _); by repeat constructor. }
  destruct (extract_date DEFAULT_DATE (record_of metadata image)) as [e|date] eqn:Hd.
  - rewrite (process_image_date_raises _ _ _ _ _ _ bd idx _ Hd). simpl.
    apply Forall_app. split; [done | by repeat constructor].
  - destruct (fs !! path_join IMAGE_DIRECTORY_FOLDER image) as [c|] eqn:Hf.
    + destruct (pil (path_join IMAGE_DIRECTORY_FOLDER image)) as [e|] eqn:Hp.
      * rewrite (process_image_codec_raises _ _ _ _ _ _ bd idx _ _ _ Hd Hf Hp). simpl.
        apply Forall_app. split; [done |]. destruct (is_FileNotFoundError e);
          by repeat constructor.
      * rewrite (process_image_succeeds _ _ _ _ _ _ bd idx _ _ Hd Hf Hp). simpl.
        apply Forall_app. split; [done | by repeat constructor].
    + rewrite (process_image_source_missing _ _ _ _ _ _ bd idx _ Hd Hf). simpl.
      apply Forall_app. split; [done | by repeat constructor].
Qed.

Lemma future_events_no_load (t : task bool) :
  Forall (fun ev => is_load ev = false) (fst t) ->
  Forall (fun ev => is_load ev = false) (future_events t).
Proof.
  destruct t as [evs [e|[|]]]; simpl; [| done |]; intros H;
    apply Forall_app; split; try done; by repeat constructor.
Qed.

(** The events of the pool are the events of the futures. *)
Lemma pool_events_in (sched : list nat) (w : world) (ev : event) :
  In ev (pool_events DEFAULT_DATE IMAGE_DIRECTORY_FOLDER OUTPUT_DIR pil metadata images batch_number year sched w)
  <-> exists idx image,
        images !! idx = Some image /\ In ev (future_events (batch_task DEFAULT_DATE IMAGE_DIRECTORY_FOLDER OUTPUT_DIR pil metadata batch_number year w idx image)).
Proof.
  unfold pool_events.
  rewrite (perm_in_iff _ _ ev (interleave_perm sched _)).
  rewrite in_concat. setoid_rewrite in_map_iff. unfold submit_all. split.
  - intros (evs & (t & <- & Ht) & Hev).
    apply list_elem_of_In, list_elem_of_lookup in Ht as [idx Ht].
    rewrite list_lookup_imap in Ht.
    destruct (images !! idx) as [image|] eqn:Him; [| done].
    injection Ht as <-. by exists idx, image.
  - intros (idx & image & Him & Hev). eexists. split; [| exact Hev].
    eexists. split; [done |]. apply list_elem_of_In, list_elem_of_lookup.
    exists idx. by rewrite list_lookup_imap, Him.
Qed.

Lemma pool_events_no_load (sched : list nat) (w : world) :
  Forall (fun ev => is_load ev = false) (pool_events DEFAULT_DATE IMAGE_DIRECTORY_FOLDER OUTPUT_DIR pil metadata images batch_number year sched w).
Proof.
  apply Forall_forall. intros ev Hev.
  apply list_elem_of_In, pool_events_in in Hev as (idx & image & _ & Hev).
  pose proof (future_events_no_load _
                (process_image_no_load (batch_fs OUTPUT_DIR batch_number year w) image batch_dir idx)) as H.
  rewrite Forall_forall in H. by apply H, list_elem_of_In.
Qed.

(** The cells the pool writes: row [idx + 11] for the images whose task
    returned [True]. *)
Lemma pool_events_cell (sched : list nat) (w : world) (r c : nat) (v : cell_value) :
  In (EvCell r c v) (pool_events DEFAULT_DATE IMAGE_DIRECTORY_FOLDER OUTPUT_DIR pil metadata images batch_number year sched w)
  <-> exists image date,
        11 <= r /\ images !! (r - 11) = Some image
        /\ snd (batch_task DEFAULT_DATE IMAGE_DIRECTORY_FOLDER OUTPUT_DIR pil metadata batch_number year w (r - 11) image) = inr true
        /\ extract_date DEFAULT_DATE (record_of metadata image) = inr date
        /\ row_value (r - 11) image date c = Some v.
Proof.
  rewrite pool_events_in. split.
  - intros (idx & image & Him & Hev). apply future_events_cell in Hev.
    assert (In (EvCell r c v) (List.filter is_cell (fst (batch_task DEFAULT_DATE IMAGE_DIRECTORY_FOLDER OUTPUT_DIR pil metadata batch_number year w idx image)))) as Hc
      by (by apply filter_In).
    unfold batch_task in Hc. rewrite process_image_cells in Hc.
    fold (batch_task DEFAULT_DATE IMAGE_DIRECTORY_FOLDER OUTPUT_DIR pil metadata batch_number year w idx image) in Hc.
    destruct (snd (batch_task DEFAULT_DATE IMAGE_DIRECTORY_FOLDER OUTPUT_DIR pil metadata batch_number year w idx image)) as [e|[|]] eqn:Hr; try done.
    destruct (extract_date DEFAULT_DATE (record_of metadata image)) as [e|date] eqn:Hd;
      [done |].
    apply row_cells_spec in Hc as [-> Hv].
    exists image, date. replace (idx + 11 - 11) with idx by lia.
    split; [lia | done].
  - intros (image & date & Hr & Him & Htrue & Hd & Hv).
    exists (r - 11), image. split; [done |]. apply future_events_cell.
    assert (In (EvCell r c v) (List.filter is_cell (fst (batch_task DEFAULT_DATE IMAGE_DIRECTORY_FOLDER OUTPUT_DIR pil metadata batch_number year w (r - 11) image))))
      as Hc; [| by apply filter_In in Hc as [? _]].
    unfold batch_task. rewrite process_image_cells.
    fold (batch_task DEFAULT_DATE IMAGE_DIRECTORY_FOLDER OUTPUT_DIR pil metadata batch_number year w (r - 11) image). rewrite Htrue, Hd.
    apply row_cells_spec. split; [lia | done].
Qed.

(** The worksheet after the pool, whatever the schedule. *)
Lemma pool_sheet (sched : list nat) (w w1 : world) (r c : nat) :
  sheet w1 = template ->
  sheet (apply_events w1 (pool_events DEFAULT_DATE IMAGE_DIRECTORY_FOLDER OUTPUT_DIR pil metadata images batch_number year sched w)) !! (r, c) = manifest_cell DEFAULT_DATE IMAGE_DIRECTORY_FOLDER OUTPUT_DIR template pil metadata images batch_number year w r c.
Proof.
  intros Hw1. unfold manifest_cell.
  assert ((forall v', ~ In (EvCell r c v') (pool_events DEFAULT_DATE IMAGE_DIRECTORY_FOLDER OUTPUT_DIR pil metadata images batch_number year sched w)) ->
          sheet (apply_events w1 (pool_events DEFAULT_DATE IMAGE_DIRECTORY_FOLDER OUTPUT_DIR pil metadata images batch_number year sched w)) !! (r, c) = template !! (r, c))
    as Huntouched.
  { intros Hn. rewrite sheet_untouched; [by rewrite Hw1 | apply pool_events_no_load | done]. }
  destruct (Nat.leb_spec 11 r) as [Hr|Hr].
  2: { apply Huntouched. intros v' Hin.
       apply pool_events_cell in Hin as (? & ? & ? & _). lia. }
  destruct (images !! (r - 11)) as [image|] eqn:Him.
  2: { apply Huntouched. intros v' Hin.
       apply pool_events_cell in Hin as (? & ? & _ & ? & _). congruence. }
  destruct (snd (batch_task DEFAULT_DATE IMAGE_DIRECTORY_FOLDER OUTPUT_DIR pil metadata batch_number year w (r - 11) image)) as [e|[|]] eqn:Htrue.
  1, 3: apply Huntouched; intros v' Hin;
        apply pool_events_cell in Hin as (im & d & _ & Him' & Ht' & _);
        rewrite Him in Him'; injection Him' as <-; congruence.
  destruct (extract_date DEFAULT_DATE (record_of metadata image)) as [e|date] eqn:Hd.
  1: { apply Huntouched. intros v' Hin.
       apply pool_events_cell in Hin as (im & d & _ & Him' & _ & Hd' & _).
       rewrite Him in Him'. injection Him' as <-. congruence. }
  destruct (row_value (r - 11) image date c) as [v|] eqn:Hv.
  2: { apply Huntouched. intros v' Hin.
       apply pool_events_cell in Hin as (im & d & _ & Him' & _ & Hd' & Hv').
       rewrite Him in Him'. injection Him' as <-. congruence. }
  apply sheet_written; [apply pool_events_no_load | |].
  - apply pool_events_cell. by exists image, date.
  - intros v' Hin.
    apply pool_events_cell in Hin as (im & d & _ & Him' & _ & Hd' & Hv').
    rewrite Him in Him'. injection Him' as <-. congruence.
Qed.

End Batch.

Section BatchRun.
Variable SUB_BATCH_SIZE : nat.
Variables DEFAULT_DATE IMAGE_DIRECTORY_FOLDER OUTPUT_DIR : string.
Variable template : cells.
Variable pil : string -> option exn.
Variable metadata : store.
Variable images : list string.
Variable batch_number : nat.
Variable year : string.

Let run (sched : list nat) (w : world) : world :=
  snd (process_batch SUB_BATCH_SIZE DEFAULT_DATE IMAGE_DIRECTORY_FOLDER OUTPUT_DIR
         template pil sched images batch_number metadata year w).

Let pool (sched : list nat) (w : world) : list event :=
  pool_events DEFAULT_DATE IMAGE_DIRECTORY_FOLDER OUTPUT_DIR pil metadata images
    batch_number year sched w.

Lemma process_batch_unfold (sched : list nat) (w : world) :
  process_batch SUB_BATCH_SIZE DEFAULT_DATE IMAGE_DIRECTORY_FOLDER OUTPUT_DIR
    template pil sched images batch_number metadata year w
  = copy_sub_batches SUB_BATCH_SIZE images (batch_dir_of OUTPUT_DIR year batch_number)
      (after_save DEFAULT_DATE IMAGE_DIRECTORY_FOLDER OUTPUT_DIR template pil metadata images batch_number year sched w).
Proof. reflexivity. Qed.

(** A batch always runs to its end: the manifest is saved once, after the
    pool, and only sub-batch events that leave the worksheet alone follow. *)
Lemma process_batch_trace (sched : list nat) (w : world) :
  exists tail,
    trace (run sched w)
    = trace w
      ++ [EvMakedirs (batch_dir_of OUTPUT_DIR year batch_number);
          EvLoadWorkbook template]
      ++ pool sched w
      ++ EvWrite (output_xlsx OUTPUT_DIR batch_number year) (Workbook (sheet (run sched w))) :: tail
    /\ Forall (fun ev => off_sheet ev = true) tail
    /\ sheet (run sched w) = sheet (after_pool DEFAULT_DATE IMAGE_DIRECTORY_FOLDER OUTPUT_DIR template pil metadata images batch_number year sched w).
Proof.
  unfold run. rewrite process_batch_unfold.
  destruct (copy_sub_batches_off_sheet SUB_BATCH_SIZE images
              (batch_dir_of OUTPUT_DIR year batch_number) (after_save DEFAULT_DATE IMAGE_DIRECTORY_FOLDER OUTPUT_DIR template pil metadata images batch_number year sched w))
    as (tail & -> & Hoff).
  exists tail. simpl.
  assert (sheet (apply_events (after_save DEFAULT_DATE IMAGE_DIRECTORY_FOLDER OUTPUT_DIR template pil metadata images batch_number year sched w) tail) = sheet (after_pool DEFAULT_DATE IMAGE_DIRECTORY_FOLDER OUTPUT_DIR template pil metadata images batch_number year sched w)) as Hs.
  { by rewrite sheet_apply_events_off. }
  split; [| by split].
  rewrite Hs, trace_apply_events. unfold after_save. rewrite trace_apply_event.
  unfold after_pool. rewrite trace_apply_events, !trace_apply_event.
  by rewrite <- !app_assoc.
Qed.

(** The saved manifest, cell by cell. *)
Lemma process_batch_sheet (sched : list nat) (w : world) (r c : nat) :
  sheet (run sched w) !! (r, c)
  = manifest_cell DEFAULT_DATE IMAGE_DIRECTORY_FOLDER OUTPUT_DIR template pil metadata
      images batch_number year w r c.
Proof.
  destruct (process_batch_trace sched w) as (tail & _ & _ & ->).
  unfold after_pool. by apply pool_sheet.
Qed.

Lemma process_batch_sheet_sched (sched sched' : list nat) (w : world) :
  sheet (run sched w) = sheet (run sched' w).
Proof. apply map_eq. intros [r c]. by rewrite !process_batch_sheet. Qed.

End BatchRun.

(** C4: the manifest of a batch is determined cell by cell by the index of
    the items, whatever the schedule of the workers: the cell at row r,
    column c is [manifest_cell], which for r >= 11 looks at the item at
    index r - 11 only; the item at index idx whose task returns [True] has
    its six cells in row idx + 11; every cell the pool writes lies in the
    row idx + 11 of the item it belongs to; and two schedules give the same
    worksheet. *)
Theorem C4_manifest_row_by_index (SUB_BATCH_SIZE : nat)
    (DEFAULT_DATE IMAGE_DIRECTORY_FOLDER OUTPUT_DIR : string) (template : cells)
    (pil : string -> option exn) (metadata : store) (images : list string)
    (batch_number : nat) (year : string) (sched : list nat) (w : world) :
  (forall r c,
     sheet (snd (process_batch SUB_BATCH_SIZE DEFAULT_DATE IMAGE_DIRECTORY_FOLDER
                   OUTPUT_DIR template pil sched images batch_number metadata year w))
       !! (r, c)
     = manifest_cell DEFAULT_DATE IMAGE_DIRECTORY_FOLDER OUTPUT_DIR template pil
         metadata images batch_number year w r c)
  /\ (forall idx image,
        images !! idx = Some image ->
        snd (batch_task DEFAULT_DATE IMAGE_DIRECTORY_FOLDER OUTPUT_DIR pil metadata
               batch_number year w idx image) = inr true ->
        exists date,
          extract_date DEFAULT_DATE (record_of metadata image) = inr date
          /\ forall c v,
               row_value idx image date c = Some v ->
               sheet (snd (process_batch SUB_BATCH_SIZE DEFAULT_DATE
                             IMAGE_DIRECTORY_FOLDER OUTPUT_DIR template pil sched
                             images batch_number metadata year w))
                 !! (idx + 11, c) = Some v)
  /\ (forall r c v,
        In (EvCell r c v)
           (pool_events DEFAULT_DATE IMAGE_DIRECTORY_FOLDER OUTPUT_DIR pil metadata
              images batch_number year sched w) ->
        11 <= r
        /\ exists image date,
             images !! (r - 11) = Some image
             /\ extract_date DEFAULT_DATE (record_of metadata image) = inr date
             /\ row_value (r - 11) image date c = Some v)
  /\ (forall sched',
        sheet (snd (process_batch SUB_BATCH_SIZE DEFAULT_DATE IMAGE_DIRECTORY_FOLDER
                      OUTPUT_DIR template pil sched' images batch_number metadata
                      year w))
        = sheet (snd (process_batch SUB_BATCH_SIZE DEFAULT_DATE
                        IMAGE_DIRECTORY_FOLDER OUTPUT_DIR template pil sched images
                        batch_number metadata year w))).
Proof.
  split; [intros r c; apply process_batch_sheet |].
  split; [| split].
  - intros idx image Him Htrue.
    destruct (process_image_true _ _ _ _ _ _ _ _ Htrue) as [date Hd].
    exists date. split; [done |]. intros c v Hv.
    rewrite process_batch_sheet. unfold manifest_cell.
    replace (idx + 11 - 11) with idx by lia.
    destruct (Nat.leb_spec 11 (idx + 11)) as [_|?]; [| lia].
    by rewrite Him, Htrue, Hd, Hv.
  - intros r c v Hin. apply pool_events_cell in Hin
      as (image & date & Hr & Him & _ & Hd & Hv).
    split; [done |]. by exists image, date.
  - intros sched'. apply process_batch_sheet_sched.
Qed.

Lemma C4_manifest_row_by_index_witness :
  images_example !! 1 = Some "b.jpg"
  /\ snd (batch_task "08/2024" "/in" "/out" (fun _ => None) store_example
            1 "2023" world_example 1 "b.jpg") = inr true
  /\ sheet (snd (process_batch 2 "08/2024" "/in" "/out" ∅ (fun _ => None)
                   sched_reverse images_example 1 store_example "2023"
                   world_example))
       !! (12, 4) = Some (CStr "03/2023").
Proof.
  split; [reflexivity |]. split; [by vm_compute |].
  destruct (C4_manifest_row_by_index 2 "08/2024" "/in" "/out" ∅ (fun _ => None)
              store_example images_example 1 "2023" sched_reverse world_example)
    as (_ & Hrow & _ & _).
  destruct (Hrow 1 "b.jpg") as (date & Hd & Hcells);
    [reflexivity | by vm_compute |].
  assert (date = "03/2023") as -> by (vm_compute in Hd; congruence).
  apply Hcells. reflexivity.
Defined.

(** C6: if resolving the date raises, or the source file is missing,
    [process_image] returns [False] and writes no cell; it writes cells,
    the six of row idx + 11, exactly when it returns [True].  In a batch,
    whatever the other items do and whatever the schedule, row idx + 11 is
    written exactly when the task of item idx returns [True] and is the
    template's otherwise; the batch itself always runs to its end: the
    manifest is saved and the sub-batches are made. *)
Theorem C6_item_failure_is_contained (SUB_BATCH_SIZE : nat)
    (DEFAULT_DATE IMAGE_DIRECTORY_FOLDER OUTPUT_DIR : string) (template : cells)
    (pil : string -> option exn) (metadata : store) :
  (forall fs image batch_dir idx,
     (forall e, extract_date DEFAULT_DATE (record_of metadata image) = inl e ->
        snd (process_image DEFAULT_DATE IMAGE_DIRECTORY_FOLDER pil fs image
               batch_dir idx metadata) = inr false
        /\ List.filter is_cell
             (fst (process_image DEFAULT_DATE IMAGE_DIRECTORY_FOLDER pil fs image
                     batch_dir idx metadata)) = [])
     /\ (fs !! path_join IMAGE_DIRECTORY_FOLDER image = None ->
         snd (process_image DEFAULT_DATE IMAGE_DIRECTORY_FOLDER pil fs image
                batch_dir idx metadata) = inr false
         /\ List.filter is_cell
              (fst (process_image DEFAULT_DATE IMAGE_DIRECTORY_FOLDER pil fs image
                      batch_dir idx metadata)) = [])
     /\ ((exists r c v,
            In (EvCell r c v)
               (fst (process_image DEFAULT_DATE IMAGE_DIRECTORY_FOLDER pil fs image
                       batch_dir idx metadata)))
         <-> snd (process_image DEFAULT_DATE IMAGE_DIRECTORY_FOLDER pil fs image
                    batch_dir idx metadata) = inr true)
     /\ (snd (process_image DEFAULT_DATE IMAGE_DIRECTORY_FOLDER pil fs image
                batch_dir idx metadata) = inr true ->
         exists date,
           extract_date DEFAULT_DATE (record_of metadata image) = inr date
           /\ List.filter is_cell
                (fst (process_image DEFAULT_DATE IMAGE_DIRECTORY_FOLDER pil fs image
                        batch_dir idx metadata)) = row_cells idx image date))
  /\ (forall images batch_number year sched w,
        (exists tail,
           trace (snd (process_batch SUB_BATCH_SIZE DEFAULT_DATE
                         IMAGE_DIRECTORY_FOLDER OUTPUT_DIR template pil sched images
                         batch_number metadata year w))
           = trace w
             ++ [EvMakedirs (batch_dir_of OUTPUT_DIR year batch_number);
                 EvLoadWorkbook template]
             ++ pool_events DEFAULT_DATE IMAGE_DIRECTORY_FOLDER OUTPUT_DIR pil
                  metadata images batch_number year sched w
             ++ EvWrite (output_xlsx OUTPUT_DIR batch_number year)
                  (Workbook
                     (sheet (snd (process_batch SUB_BATCH_SIZE DEFAULT_DATE
                                    IMAGE_DIRECTORY_FOLDER OUTPUT_DIR template pil
                                    sched images batch_number metadata year w))))
                :: tail
           /\ Forall (fun ev => off_sheet ev = true) tail)
        /\ forall idx image,
             images !! idx = Some image ->
             ((exists c v,
                 In (EvCell (idx + 11) c v)
                    (pool_events DEFAULT_DATE IMAGE_DIRECTORY_FOLDER OUTPUT_DIR pil
                       metadata images batch_number year sched w))
              <-> snd (batch_task DEFAULT_DATE IMAGE_DIRECTORY_FOLDER OUTPUT_DIR pil
                         metadata batch_number year w idx image) = inr true)
             /\ (snd (batch_task DEFAULT_DATE IMAGE_DIRECTORY_FOLDER OUTPUT_DIR pil
                        metadata batch_number year w idx image) <> inr true ->
                 forall c,
                   sheet (snd (process_batch SUB_BATCH_SIZE DEFAULT_DATE
                                 IMAGE_DIRECTORY_FOLDER OUTPUT_DIR template pil sched
                                 images batch_number metadata year w))
                     !! (idx + 11, c) = template !! (idx + 11, c))).
Proof.
  split.
  - intros fs image bd idx.
    pose proof (process_image_cells DEFAULT_DATE IMAGE_DIRECTORY_FOLDER pil fs
                  metadata image bd idx) as Hcells.
    split; [| split; [| split]].
    + intros e He.
      by rewrite (process_image_date_raises _ _ _ _ _ _ bd idx _ He) in *.
    + intros Hf.
      destruct (extract_date DEFAULT_DATE (record_of metadata image)) as [e|date] eqn:Hd.
      * by rewrite (process_image_date_raises _ _ _ _ _ _ bd idx _ Hd) in *.
      * by rewrite (process_image_source_missing _ _ _ _ _ _ bd idx _ Hd Hf) in *.
    + split.
      * intros (r & c & v & Hin).
        assert (In (EvCell r c v)
                  (List.filter is_cell
                     (fst (process_image DEFAULT_DATE IMAGE_DIRECTORY_FOLDER pil fs
                             image bd idx metadata)))) as Hc by (by apply filter_In).
        rewrite Hcells in Hc.
        by destruct (snd (process_image DEFAULT_DATE IMAGE_DIRECTORY_FOLDER pil fs
                            image bd idx metadata)) as [e|[|]].
      * intros Htrue.
        destruct (process_image_true _ _ _ _ _ _ _ _ Htrue) as [date Hd].
        rewrite Htrue, Hd in Hcells.
        exists (idx + 11), 1, (CInt (idx + 1)).
        assert (In (EvCell (idx + 11) 1 (CInt (idx + 1))) (row_cells idx image date))
          as Hin by (by left).
        rewrite <- Hcells in Hin. by apply filter_In in Hin as [? _].
    + intros Htrue. destruct (process_image_true _ _ _ _ _ _ _ _ Htrue) as [date Hd].
      exists date. split; [done |]. by rewrite Htrue, Hd in Hcells.
  - intros images n year sched w. split.
    + destruct (process_batch_trace SUB_BATCH_SIZE DEFAULT_DATE IMAGE_DIRECTORY_FOLDER
                  OUTPUT_DIR template pil metadata images n year sched w)
        as (tail & Htr & Hoff & _).
      by exists tail.
    + intros idx image Him. split; [split |].
      * intros (c & v & Hin). apply pool_events_cell in Hin
          as (image' & date & _ & Him' & Htrue & _).
        replace (idx + 11 - 11) with idx in * by lia. congruence.
      * intros Htrue. destruct (process_image_true _ _ _ _ _ _ _ _ Htrue) as [date Hd].
        exists 1, (CInt (idx + 1)). apply pool_events_cell. exists image, date.
        replace (idx + 11 - 11) with idx by lia.
        split; [lia |]. by repeat split.
      * intros Hfail c. rewrite process_batch_sheet. unfold manifest_cell.
        replace (idx + 11 - 11) with idx by lia.
        destruct (Nat.leb 11 (idx + 11)); [| done]. rewrite Him.
        by destruct (snd (batch_task DEFAULT_DATE IMAGE_DIRECTORY_FOLDER OUTPUT_DIR pil
                            metadata n year w idx image)) as [e|[|]].
Qed.

Lemma C6_item_failure_is_contained_witness :
  files world_example !! path_join "/in" "c.jpg" = None
  /\ snd (process_image "08/2024" "/in" (fun _ => None) (files world_example)
            "c.jpg" "/out/2023_batch_1" 2 store_example) = inr false
  /\ List.filter is_cell
       (fst (process_image "08/2024" "/in" (fun _ => None) (files world_example)
               "c.jpg" "/out/2023_batch_1" 2 store_example)) = [].
Proof.
  split; [by vm_compute |].
  destruct (C6_item_failure_is_contained 2 "08/2024" "/in" "/out" ∅ (fun _ => None)
              store_example) as (Hitem & _).
  destruct (Hitem (files world_example) "c.jpg" "/out/2023_batch_1" 2)
    as (_ & Hmissing & _).
  apply Hmissing. by vm_compute.
Defined.

(** ** Paths *)

Module PathFacts.
Import PyStr.

Lemma chars_app (a b : string) : chars (a +:+ b) = chars a ++ chars b.
Proof. induction a as [|c a IH]; simpl; [done | by rewrite IH]. Qed.

Lemma contains_chr (c : ascii) (s : string) :
  contains (String c EmptyString) s = true <-> In c (chars s).
Proof.
  induction s as [|x s IH]; simpl; [done |].
  rewrite orb_true_iff, andb_true_r, IH, Ascii.eqb_eq. split; intros [?|?]; auto.
Qed.

Lemma not_contains_chr (c : ascii) (s : string) :
  contains (String c EmptyString) s = false <-> ~ In c (chars s).
Proof. rewrite <- contains_chr. by destruct (contains _ s). Qed.

Lemma startswith_chr (c : ascii) (s : string) :
  startswith (String c EmptyString) s = true -> In c (chars s).
Proof.
  destruct s as [|x s]; simpl; [done |].
  rewrite andb_true_r, Ascii.eqb_eq. by left.
Qed.

Lemma endswith_chars (p s : string) (c : ascii) :
  endswith p s = true -> In c (chars p) -> In c (chars s).
Proof.
  induction s as [|x s IH]; simpl.
  - rewrite orb_false_r. by intros ->%String.eqb_eq.
  - intros [->%String.eqb_eq|H]%orb_true_iff Hc; [done |]. right. by apply IH.
Qed.

Lemma endswith_chr_app (c : ascii) (a b : string) :
  b <> EmptyString ->
  endswith (String c EmptyString) (a +:+ b) = true -> In c (chars b).
Proof.
  intros Hb. induction a as [|x a IH].
  - intros H. by apply (endswith_chars (String c EmptyString) b); [| left].
  - change (String x a +:+ b) with (String x (a +:+ b)). cbn [endswith].
    intros [H%String.eqb_eq|H]%orb_true_iff; [| by apply IH].
    injection H as _ H.
    destruct a as [|y a]; simpl in H; [exfalso; by apply Hb | discriminate H].
Qed.

Lemma append_cancel (a x y : string) : a +:+ x = a +:+ y -> x = y.
Proof. induction a as [|c a IH]; simpl; [done |]. intros [= H]. by apply IH. Qed.

Lemma append_assoc (a b c : string) : (a +:+ b) +:+ c = a +:+ (b +:+ c).
Proof.
  induction a as [|x a IH]; [done |].
  change (String x a +:+ b) with (String x (a +:+ b)).
  change (String x a +:+ (b +:+ c)) with (String x (a +:+ (b +:+ c))).
  change (String x (a +:+ b) +:+ c) with (String x ((a +:+ b) +:+ c)).
  by rewrite IH.
Qed.

Lemma path_join_relative (a b : string) :
  ~ In "/"%char (chars b) -> path_join a b = a +:+ sep_of a +:+ b.
Proof.
  intros Hb. unfold path_join, sep_of.
  destruct (startswith "/" b) eqn:Hs; [by apply startswith_chr in Hs |].
  by destruct (String.eqb a "" || endswith "/" a).
Qed.

Lemma string_of_uint_digits (d : Decimal.uint) :
  Forall (fun c => is_digit c = true) (chars (NilEmpty.string_of_uint d)).
Proof. induction d; simpl; by constructor. Qed.

Lemma sub_batch_name_chars (n : nat) (c : ascii) :
  In c (chars ("sub_batch_" +:+ str_of_nat n)) ->
  c <> "/"%char /\ c <> "."%char.
Proof.
  rewrite chars_app, in_app_iff. intros [H|H].
  - simpl in H. repeat (destruct H as [<-|H]; [done |]). done.
  - pose proof (string_of_uint_digits (Nat.to_uint n)) as Hd.
    rewrite Forall_forall in Hd. apply list_elem_of_In, Hd in H.
    split; by intros ->.
Qed.

(** The resized image of a file name is neither a sub-batch directory nor
    a file in one. *)
Lemma resized_not_sub_batch_dir (bd image : string) (n : nat) :
  jpg_name image ->
  path_join bd image <> path_join bd ("sub_batch_" +:+ str_of_nat n).
Proof.
  intros [Hjpg Hslash%not_contains_chr].
  rewrite (path_join_relative bd image) by done.
  rewrite (path_join_relative bd ("sub_batch_" +:+ _))
    by (intros [Hc _]%sub_batch_name_chars; by destruct Hc).
  intros H%append_cancel%append_cancel.
  assert (In "."%char (chars image)) as Hdot
    by (apply (endswith_chars ".jpg" image); [done | by left]).
  rewrite H in Hdot. apply sub_batch_name_chars in Hdot as [_ Hc]. by destruct Hc.
Qed.

Lemma resized_not_in_sub_batch (bd image image' : string) (n : nat) :
  jpg_name image -> jpg_name image' ->
  path_join bd image
  <> path_join (path_join bd ("sub_batch_" +:+ str_of_nat n)) image'.
Proof.
  intros [_ Hslash%not_contains_chr] [_ Hslash'%not_contains_chr].
  rewrite (path_join_relative _ image), (path_join_relative _ image') by done.
  rewrite (path_join_relative bd ("sub_batch_" +:+ _))
    by (intros [Hc _]%sub_batch_name_chars; by destruct Hc).
  assert (sep_of (bd +:+ sep_of bd +:+ "sub_batch_" +:+ str_of_nat n) = "/") as ->.
  { unfold sep_of at 1.
    destruct (String.eqb_spec (bd +:+ sep_of bd +:+ "sub_batch_" +:+ str_of_nat n) "")
      as [He|_].
    - apply (f_equal chars) in He. rewrite !chars_app in He.
      by destruct (chars bd), (chars (sep_of bd)).
    - cbn [orb]. destruct (endswith "/" _) eqn:He; [| done].
      rewrite <- append_assoc in He.
      apply endswith_chr_app in He; [| done].
      apply sub_batch_name_chars in He as [Hc _]. by destruct Hc. }
  rewrite !append_assoc. intros H%append_cancel%append_cancel.
  apply Hslash. rewrite H, !chars_app, !in_app_iff. right. right. left. by left.
Qed.

End PathFacts.

(** ** Sub-batches *)

Lemma m_bind_run {A B : Type} (m : M A) (k : A -> M B) (w w' : world) (a : A) :
  m w = (a, w') -> m_bind m k w = k a w'.
Proof. intros H. unfold m_bind. by rewrite H. Qed.

Section SubBatches.
Import PathFacts.
Variable SUB_BATCH_SIZE : nat.
Variable batch_dir : string.

Variable fs0 : gmap string content.

Lemma copy_images_events (n : nat) (sub_batch : list string) (w : world) :
  Forall jpg_name sub_batch -> agrees batch_dir fs0 w ->
  m_for sub_batch (fun image =>
    let resized_img_path := path_join batch_dir image in
    found <~ path_exists resized_img_path;
    if negb found then
      m_emit (EvLog WARNING (ResizedImageNotFound resized_img_path))
    else
      r <~ shutil_copy resized_img_path (path_join (sub_batch_dir_n batch_dir n) image);
      match r with
      | inl e => m_emit (EvLog ERROR (FileNotFoundDuringCopy resized_img_path e))
      | inr _ => m_ret tt
      end) w
  = (tt, apply_events w (map (copy_event batch_dir fs0 (sub_batch_dir_n batch_dir n)) sub_batch))
  /\ agrees batch_dir fs0 (apply_events w (map (copy_event batch_dir fs0 (sub_batch_dir_n batch_dir n)) sub_batch)).
Proof.
  intros Hsub. revert w. induction Hsub as [|image sub_batch Him _ IH]; intros w Hw.
  - by split.
  - cbn [m_for map]. unfold m_bind at 1.
    assert (exists w1,
              w1 = apply_event w (copy_event batch_dir fs0 (sub_batch_dir_n batch_dir n) image) /\ agrees batch_dir fs0 w1)
      as (w1 & Hw1 & Hagree).
    { eexists. split; [done |]. unfold copy_event.
      destruct (fs0 !! path_join batch_dir image); [| exact Hw].
      intros im Him'. simpl. rewrite lookup_insert_ne; [by apply Hw |].
      intros Heq. by apply (resized_not_in_sub_batch batch_dir im image n). }
    destruct (IH w1 Hagree) as [Hrun Hag].
    change (apply_events w (copy_event batch_dir fs0 (sub_batch_dir_n batch_dir n) image
                            :: map (copy_event batch_dir fs0 (sub_batch_dir_n batch_dir n)) sub_batch))
      with (apply_events (apply_event w (copy_event batch_dir fs0 (sub_batch_dir_n batch_dir n) image))
              (map (copy_event batch_dir fs0 (sub_batch_dir_n batch_dir n)) sub_batch)).
    rewrite <- Hw1. split; [| done]. rewrite <- Hrun.
    unfold m_bind, path_exists, m_get, shutil_copy, copy_event in *.
    rewrite (Hw image Him).
    destruct (fs0 !! path_join batch_dir image) as [c|] eqn:Hf; simpl.
    + rewrite (Hw image Him), Hf. simpl. by rewrite Hw1.
    + by rewrite Hw1.
Qed.

Lemma copy_sub_batches_events (images : list string) (w : world) :
  Forall jpg_name images -> agrees batch_dir fs0 w ->
  copy_sub_batches SUB_BATCH_SIZE images batch_dir w
  = (tt, apply_events w (concat (sub_batch_events SUB_BATCH_SIZE batch_dir fs0 images))).
Proof.
  intros Him Hw. unfold copy_sub_batches, sub_batch_events, chunks.
  rewrite map_map.
  generalize (py_range (length images) SUB_BATCH_SIZE). intros js.
  revert w Hw. induction js as [|j js IH]; intros w Hw; [done |].
  assert (agrees batch_dir fs0 (apply_event w (EvMakedirs (sub_batch_dir_n batch_dir (j / SUB_BATCH_SIZE + 1)))))
    as Hw1.
  { intros im Him'. simpl. unfold sub_batch_dir_n.
    destruct (files w !! _) eqn:Hd; [by apply Hw |]. simpl.
    rewrite lookup_insert_ne; [by apply Hw |].
    intros Heq. by apply (resized_not_sub_batch_dir batch_dir im (j / SUB_BATCH_SIZE + 1)). }
  destruct (copy_images_events (j / SUB_BATCH_SIZE + 1)
              (slice j SUB_BATCH_SIZE images) _
              (Forall_take _ _ _ (Forall_drop _ _ _ Him)) Hw1) as [Hrun Hag].
  cbn [m_for map concat].
  erewrite m_bind_run;
    [| erewrite m_bind_run; [exact Hrun | reflexivity]].
  rewrite (IH _ Hag). f_equal.
  rewrite <- apply_events_app. reflexivity.
Qed.

End SubBatches.

(** C5: the sub-batch loop cuts the item list of the batch, failed items
    included, into ceil(N / SUB_BATCH_SIZE) consecutive windows, numbered
    from 1; for each it makes the directory sub_batch_<number> and then, for
    each item of the window in order, copies the resized file when the
    batch directory holds it and logs a warning and moves on when it does
    not.  The item names are file names of the image list: they end in
    ".jpg" and hold no slash. *)
Theorem C5_sub_batches (SUB_BATCH_SIZE : nat) (batch_dir : string)
    (images : list string) (w : world) :
  0 < SUB_BATCH_SIZE ->
  Forall jpg_name images ->
  copy_sub_batches SUB_BATCH_SIZE images batch_dir w
    = (tt, apply_events w
             (concat (sub_batch_events SUB_BATCH_SIZE batch_dir (files w) images)))
  /\ length (sub_batch_events SUB_BATCH_SIZE batch_dir (files w) images)
     = (length images + SUB_BATCH_SIZE - 1) / SUB_BATCH_SIZE
  /\ length images
     <= length (sub_batch_events SUB_BATCH_SIZE batch_dir (files w) images)
        * SUB_BATCH_SIZE
     < length images + SUB_BATCH_SIZE
  /\ (forall i,
        i < length (sub_batch_events SUB_BATCH_SIZE batch_dir (files w) images) ->
        sub_batch_events SUB_BATCH_SIZE batch_dir (files w) images !! i
        = Some (EvMakedirs (sub_batch_dir_n batch_dir (i + 1))
                :: map (copy_event batch_dir (files w) (sub_batch_dir_n batch_dir (i + 1)))
                       (take SUB_BATCH_SIZE (drop (i * SUB_BATCH_SIZE) images))))
  /\ concat (map snd (chunks SUB_BATCH_SIZE images)) = images
  /\ (forall sub_batch_dir image,
        match files w !! path_join batch_dir image with
        | Some c =>
            copy_event batch_dir (files w) sub_batch_dir image
            = EvWrite (path_join sub_batch_dir image) c
        | None =>
            copy_event batch_dir (files w) sub_batch_dir image
            = EvLog WARNING (ResizedImageNotFound (path_join batch_dir image))
        end).
Proof.
  intros HS Him.
  assert (length (sub_batch_events SUB_BATCH_SIZE batch_dir (files w) images)
          = (length images + SUB_BATCH_SIZE - 1) / SUB_BATCH_SIZE) as Hlen.
  { unfold sub_batch_events. by rewrite length_map, chunks_length. }
  split; [by apply copy_sub_batches_events |].
  split; [done |].
  split; [rewrite Hlen; by apply ceil_bounds |].
  split; [| split; [by apply chunks_windows |]].
  - intros i Hi. unfold sub_batch_events in *. rewrite length_map in Hi.
    by rewrite list_lookup_fmap, chunks_lookup.
  - intros sub_batch_dir image. unfold copy_event.
    by destruct (files w !! path_join batch_dir image).
Qed.

Lemma images_example_jpg_names : Forall jpg_name images_example.
Proof. repeat constructor. Qed.

Lemma C5_sub_batches_witness :
  0 < 2
  /\ Forall jpg_name images_example
  /\ trace (snd (copy_sub_batches 2 images_example "/out/2023_batch_1"
                   (mk_world (<["/out/2023_batch_1/a.jpg" := Image "/in/a.jpg"]>
                                (<["/out/2023_batch_1/c.jpg" := Image "/in/c.jpg"]> ∅))
                             ∅ [])))
     = [EvMakedirs "/out/2023_batch_1/sub_batch_1";
        EvWrite "/out/2023_batch_1/sub_batch_1/a.jpg" (Image "/in/a.jpg");
        EvLog WARNING (ResizedImageNotFound "/out/2023_batch_1/b.jpg");
        EvMakedirs "/out/2023_batch_1/sub_batch_2";
        EvWrite "/out/2023_batch_1/sub_batch_2/c.jpg" (Image "/in/c.jpg")].
Proof.
  split; [lia |]. split; [exact images_example_jpg_names |].
  destruct (C5_sub_batches 2 "/out/2023_batch_1" images_example
              (mk_world (<["/out/2023_batch_1/a.jpg" := Image "/in/a.jpg"]>
                           (<["/out/2023_batch_1/c.jpg" := Image "/in/c.jpg"]> ∅))
                        ∅ []))
    as (Hrun & _); [lia | exact images_example_jpg_names |].
  rewrite Hrun. by vm_compute.
Defined.

(** ** Worked examples *)

(** The parser on the border cases of its regular expressions, as CPython
    3.11 answers them. *)
Example strptime_day_with_space :
  Strptime.strptime "2023:01: 5" "%Y:%m:%d"
  = Some (DT.mk_datetime 2023 1 5 0 0 0 None).
Proof. by vm_compute. Qed.

Example strptime_lower_case_t :
  Strptime.strptime "2023-01-01t10:20:30" "%Y-%m-%dT%H:%M:%S"
  = Some (DT.mk_datetime 2023 1 1 10 20 30 None).
Proof. by vm_compute. Qed.

Example strptime_offset_with_seconds :
  Strptime.strptime "2023:01:01 10:00:00+02:00:30" "%Y:%m:%d %H:%M:%S%z"
  = Some (DT.mk_datetime 2023 1 1 10 0 0 (Some 7230000000%Z)).
Proof. by vm_compute. Qed.

Example strptime_negative_offset :
  Strptime.strptime "2023:01:01 10:00:00-2359" "%Y:%m:%d %H:%M:%S%z"
  = Some (DT.mk_datetime 2023 1 1 10 0 0 (Some (-86340000000)%Z)).
Proof. by vm_compute. Qed.

Example strptime_zulu :
  Strptime.strptime "2023:01:01 10:00:00Z" "%Y:%m:%d %H:%M:%S%z"
  = Some (DT.mk_datetime 2023 1 1 10 0 0 (Some 0%Z)).
Proof. by vm_compute. Qed.

Example strptime_rejects :
  map (fun '(data, fmt) => Strptime.strptime data fmt)
    [("2023:01:01 10:00:60", "%Y:%m:%d %H:%M:%S");
     ("0000:01:01", "%Y:%m:%d");
     ("2023:02:29", "%Y:%m:%d");
     ("2023:01:015", "%Y:%m:%d");
     ("2023:01:01 10:00:00z", "%Y:%m:%d %H:%M:%S%z");
     ("2023:01:01 10:00:00+2400", "%Y:%m:%d %H:%M:%S%z");
     ("2023:01:01 10:00:00+0200:30", "%Y:%m:%d %H:%M:%S%z");
     ("2023:01:01 10:00:00+02:0030", "%Y:%m:%d %H:%M:%S%z")]
  = [None; None; None; None; None; None; None; None].
Proof. by vm_compute. Qed.

(** The example of the specification: three images of March 2023 with a
    batch size of 2 make batch 1 of "a.jpg" and "b.jpg" and batch 2 of
    "c.jpg". *)
Example batches_of_three :
  group_by_year "08/2024" store_example (sorted_images listing_example) []
  = inr [("2023", ["a.jpg"; "b.jpg"; "c.jpg"])]
  /\ batches 2 ["a.jpg"; "b.jpg"; "c.jpg"]
     = [(1, ["a.jpg"; "b.jpg"]); (2, ["c.jpg"])].
Proof. split; by vm_compute. Qed.

(** The manifests of that run: rows 11 and 12 of batch 1 are "a.jpg" and
    "b.jpg", row 11 of batch 2 is "c.jpg", under a schedule that finishes
    the workers in reverse order. *)
Example manifests_of_three :
  let w := mk_world (<["/in/a.jpg" := Image "a"]>
                       (<["/in/b.jpg" := Image "b"]>
                          (<["/in/c.jpg" := Image "c"]> ∅))) ∅ [] in
  let w' := snd (process_images 2 1 "08/2024" "/in" "/out" ∅ (fun _ => None)
                   listing_example store_example (fun _ _ => sched_reverse) w) in
  match files w' !! "/out/2023_batch_1/diversity_photos_batch_1.xlsx",
        files w' !! "/out/2023_batch_2/diversity_photos_batch_2.xlsx" with
  | Some (Workbook m1), Some (Workbook m2) =>
      map (fun k => m1 !! k) [(11, 2); (11, 4); (12, 2); (13, 2)]
      = [Some (CStr "a.jpg"); Some (CStr "03/2023"); Some (CStr "b.jpg"); None]
      /\ map (fun k => m2 !! k) [(11, 1); (11, 2); (12, 2)]
         = [Some (CInt 1); Some (CStr "c.jpg"); None]
  | _, _ => False
  end.
Proof. vm_compute. by split. Qed.

(** * Further properties *)

(** ** [extract_date] tag by tag *)

Lemma collect_dates_tag_result (md : record) (tags : list string)
    (acc : list DT.datetime) :
  collect_dates md tags acc =
    match tags with
    | [] => inr acc
    | tag :: rest =>
        match tag_result md tag with
        | inl e => inl e
        | inr (Some date) => collect_dates md rest (acc ++ [date])
        | inr None => collect_dates md rest acc
        end
    end.
Proof.
  destruct tags as [|tag rest]; [done |]. simpl. unfold tag_result.
  destruct (md !! tag) as [v|]; [| done].
  destruct (truthy v); [| done]. by destruct v.
Qed.

(** Two records that agree tag by tag give the same dates. *)
Lemma collect_dates_ext (md md' : record) (tags : list string)
    (acc : list DT.datetime) :
  (forall tag, In tag tags -> tag_result md tag = tag_result md' tag) ->
  collect_dates md tags acc = collect_dates md' tags acc.
Proof.
  revert acc. induction tags as [|tag tags IH]; intros acc H; [done |].
  rewrite (collect_dates_tag_result md), (collect_dates_tag_result md').
  rewrite <- (H tag (or_introl eq_refl)).
  destruct (tag_result md tag) as [e|[d|]]; [done | |];
    apply IH; intros t Ht; apply H; by right.
Qed.

Lemma extract_date_ext (DEFAULT_DATE : string) (md md' : record) :
  (forall tag, In tag date_tags -> tag_result md tag = tag_result md' tag) ->
  extract_date DEFAULT_DATE md = extract_date DEFAULT_DATE md'.
Proof. intros H. unfold extract_date. by rewrite (collect_dates_ext md md'). Qed.

Lemma tag_result_raises (md : record) (tag : string) (e : exn) :
  tag_result md tag = inl e ->
  e = AttributeError
  /\ exists v, md !! tag = Some v /\ truthy v = true /\ is_str v = false.
Proof.
  unfold tag_result. destruct (md !! tag) as [v|]; [| done].
  destruct (truthy v) eqn:Ht; [| done].
  destruct v as [| | | |s| |];
    try (intros [= <-]; split; [done | eexists; split; [done |]; by split]).
  destruct (try_formats_total s date_formats) as [o ->]. done.
Qed.

Lemma collect_dates_raises (md : record) (tags : list string)
    (acc : list DT.datetime) (e : exn) :
  collect_dates md tags acc = inl e ->
  e = AttributeError
  /\ exists tag v, In tag tags /\ md !! tag = Some v
                   /\ truthy v = true /\ is_str v = false.
Proof.
  revert acc. induction tags as [|tag tags IH]; intros acc; [done |].
  rewrite collect_dates_tag_result.
  destruct (tag_result md tag) as [e'|[d|]] eqn:Hr.
  - intros [= ->]. destruct (tag_result_raises _ _ _ Hr) as (-> & v & ? & ? & ?).
    split; [done |]. exists tag, v. split; [by left | done].
  - intros H. destruct (IH _ H) as (-> & t & v & ? & ?).
    split; [done |]. exists t, v. split; [by right | done].
  - intros H. destruct (IH _ H) as (-> & t & v & ? & ?).
    split; [done |]. exists t, v. split; [by right | done].
Qed.

Lemma collect_dates_bad_tag (md : record) (tags : list string)
    (acc : list DT.datetime) (tag : string) (v : pyvalue) :
  In tag tags -> md !! tag = Some v -> truthy v = true -> is_str v = false ->
  collect_dates md tags acc = inl AttributeError.
Proof.
  intros Hin Hv Ht Hs. revert acc.
  induction tags as [|t tags IH]; intros acc; [done |].
  rewrite collect_dates_tag_result.
  destruct (tag_result md t) as [e|[d|]] eqn:Hr.
  - by destruct (tag_result_raises _ _ _ Hr) as [-> _].
  - destruct Hin as [->|Hin]; [| by apply IH].
    unfold tag_result in Hr. rewrite Hv, Ht in Hr.
    destruct v; try done.
  - destruct Hin as [->|Hin]; [| by apply IH].
    unfold tag_result in Hr. rewrite Hv, Ht in Hr.
    destruct v; try done.
Qed.

Lemma extract_date_raises_inv (DEFAULT_DATE : string) (md : record) (e : exn) :
  extract_date DEFAULT_DATE md = inl e ->
  e = AttributeError /\ exists tag, bad_tag md tag.
Proof.
  intros He. unfold extract_date in He.
  destruct (collect_dates md date_tags []) as [e'|dates] eqn:Hc.
  - injection He as ->.
    destruct (collect_dates_raises _ _ _ _ Hc) as (-> & tag & v & ? & ? & ? & ?).
    split; [done |]. exists tag. split; [done | by exists v].
  - simpl in He. by destruct dates.
Qed.

Lemma extract_date_bad_tag (DEFAULT_DATE : string) (md : record) (tag : string) :
  bad_tag md tag -> extract_date DEFAULT_DATE md = inl AttributeError.
Proof.
  intros (Htag & v & Hv & Ht & Hs). unfold extract_date.
  by rewrite (collect_dates_bad_tag md date_tags [] tag v).
Qed.

(** X1: [extract_date] raises exactly when one of the six candidate tags
    holds a truthy value that is not a string, and what it raises is then
    [AttributeError]. *)
Theorem X1_extract_date_raises_iff (DEFAULT_DATE : string) (md : record) :
  (forall e, extract_date DEFAULT_DATE md = inl e -> e = AttributeError)
  /\ (extract_date DEFAULT_DATE md = inl AttributeError
      <-> exists tag, bad_tag md tag).
Proof.
  split; [intros e He; by apply extract_date_raises_inv in He as [-> _] |]. split.
  - intros He. by apply extract_date_raises_inv in He as [_ ?].
  - intros [tag Htag]. by apply (extract_date_bad_tag _ _ tag).
Qed.

Lemma X1_extract_date_raises_iff_witness :
  extract_date "08/2024" (<["IPTC:DateCreated" := PyInt 20230101]> md_example)
  = inl AttributeError.
Proof.
  apply (proj2 (X1_extract_date_raises_iff "08/2024" _)).
  exists "IPTC:DateCreated". split; [simpl; tauto |].
  exists (PyInt 20230101). by vm_compute.
Defined.

(** X2: only the six candidate tags matter: two records that agree on them
    get the same answer, whatever else they hold. *)
Theorem X2_extract_date_only_candidate_tags (DEFAULT_DATE : string)
    (md md' : record) :
  (forall tag, In tag date_tags -> md !! tag = md' !! tag) ->
  extract_date DEFAULT_DATE md = extract_date DEFAULT_DATE md'.
Proof.
  intros H. apply extract_date_ext. intros tag Htag. unfold tag_result.
  by rewrite (H tag Htag).
Qed.

Lemma X2_extract_date_only_candidate_tags_witness :
  extract_date "08/2024" md_example
  = extract_date "08/2024" (<["EXIF:Model" := PyStr "2031:01:01"]> md_example).
Proof.
  apply X2_extract_date_only_candidate_tags. intros tag Htag.
  rewrite lookup_insert_ne; [done |].
  simpl in Htag. intros <-. repeat (destruct Htag as [Htag|Htag]; [done |]). done.
Defined.

(** X3: what follows the first dot of a tag value never reaches the
    parser: replacing the value by its part before the dot changes
    nothing. *)
Theorem X3_extract_date_cuts_at_first_dot (DEFAULT_DATE : string) (md : record)
    (tag a b : string) :
  PyStr.contains "." a = false ->
  extract_date DEFAULT_DATE (<[tag := PyStr (a +:+ String "." b)]> md)
  = extract_date DEFAULT_DATE (<[tag := PyStr a]> md).
Proof.
  intros Ha. apply extract_date_ext. intros t _. unfold tag_result.
  destruct (decide (tag = t)) as [->|Hne].
  - rewrite !lookup_insert_eq. cbn [truthy].
    rewrite (try_formats_truncates a b date_formats Ha).
    assert (String.eqb (a +:+ String "." b) "" = false) as ->
      by (by destruct a).
    cbn [negb]. destruct (String.eqb_spec a "") as [->|_]; [| done].
    cbn [negb]. by rewrite try_formats_empty.
  - by rewrite !lookup_insert_ne.
Qed.

Lemma X3_extract_date_cuts_at_first_dot_witness :
  PyStr.contains "." "2023:01:01 10:00:00" = false
  /\ extract_date "08/2024"
       (<["EXIF:CreateDate" := PyStr ("2023:01:01 10:00:00" +:+ String "." "25-05:00")]> ∅)
     = extract_date "08/2024" (<["EXIF:CreateDate" := PyStr "2023:01:01 10:00:00"]> ∅).
Proof.
  split; [reflexivity |].
  by apply X3_extract_date_cuts_at_first_dot.
Defined.

(** ** Ties between dates *)

Lemma max_from_keeps (best : DT.datetime) (l : list DT.datetime) :
  (forall d, In d l -> (DT.instant d <= DT.instant best)%Z) ->
  DT.max_from best l = best.
Proof.
  revert best. induction l as [|y l IH]; intros best H; [done |].
  change (DT.max_from best (y :: l))
    with (DT.max_from (if DT.gt y best then y else best) l).
  unfold DT.gt. destruct (Z.ltb_spec (DT.instant best) (DT.instant y)) as [Hlt|_].
  - specialize (H y (or_introl eq_refl)). lia.
  - apply IH. intros d Hd. apply H. by right.
Qed.

Lemma max_from_app (x : DT.datetime) (l1 l2 : list DT.datetime) :
  DT.max_from x (l1 ++ l2) = DT.max_from (DT.max_from x l1) l2.
Proof. unfold DT.max_from. apply fold_left_app. Qed.

Lemma max_from_first_latest (x m : DT.datetime) (l1 l2 : list DT.datetime) :
  (forall d, In d (x :: l1) -> (DT.instant d < DT.instant m)%Z) ->
  (forall d, In d l2 -> (DT.instant d <= DT.instant m)%Z) ->
  DT.max_from x (l1 ++ m :: l2) = m.
Proof.
  intros H1 H2. rewrite max_from_app.
  destruct (DTFacts.max_from_spec l1 x) as (Hin & _ & _).
  apply H1 in Hin.
  change (DT.max_from (DT.max_from x l1) (m :: l2))
    with (DT.max_from (if DT.gt m (DT.max_from x l1) then m else DT.max_from x l1) l2).
  unfold DT.gt.
  destruct (Z.ltb_spec (DT.instant (DT.max_from x l1)) (DT.instant m)); [| lia].
  by apply max_from_keeps.
Qed.

(** X4: of several tags that parse, the one that decides is the first, in
    tag order, of those with the latest instant: a date that comes before
    it in tag order must be strictly earlier, one that comes after it may be
    the same instant (written in another time zone, with another month or
    year). *)
Theorem X4_extract_date_first_latest_wins (DEFAULT_DATE : string) (md : record)
    (l1 l2 : list DT.datetime) (m : DT.datetime) :
  string_valued md ->
  parsed_dates md = l1 ++ m :: l2 ->
  (forall d, In d l1 -> (DT.instant d < DT.instant m)%Z) ->
  (forall d, In d l2 -> (DT.instant d <= DT.instant m)%Z) ->
  extract_date DEFAULT_DATE md = inr (DT.strftime_m_Y m).
Proof.
  intros Hmd Hp H1 H2. rewrite (extract_date_string_valued _ md Hmd), Hp.
  destruct l1 as [|x l1]; simpl.
  - by rewrite max_from_keeps.
  - by rewrite max_from_first_latest.
Qed.

Lemma md_same_instant_string_valued : string_valued md_same_instant.
Proof.
  unfold md_same_instant. apply map_Forall_insert_2; [done |].
  apply map_Forall_insert_2; [done |]. apply map_Forall_empty.
Qed.

Lemma X4_extract_date_first_latest_wins_witness :
  extract_date "08/2024" md_same_instant = inr "01/2023".
Proof.
  apply (X4_extract_date_first_latest_wins "08/2024" md_same_instant []
           [DT.mk_datetime 2022 12 31 23 30 0 (Some 0%Z)]
           (DT.mk_datetime 2023 1 1 0 30 0 (Some 3600000000%Z))).
  - exact md_same_instant_string_valued.
  - by vm_compute.
  - intros d [].
  - intros d [<-|[]]. by vm_compute.
Defined.

(** ** Well-formed date texts *)

Lemma length_append (a b : string) :
  String.length (a +:+ b) = String.length a + String.length b.
Proof.
  induction a as [|x a IH]; [done |].
  change (String x a +:+ b) with (String x (a +:+ b)). simpl. by rewrite IH.
Qed.

Module StrptimeFacts.
Import Re Strptime PyStr.

Lemma append_empty_r (s : string) : s +:+ "" = s.
Proof.
  induction s as [|c s IH]; [done |].
  change (String c s +:+ "") with (String c (s +:+ "")). by rewrite IH.
Qed.

Lemma substring_prefix (p rest : string) :
  substring 0 (String.length (p +:+ rest) - String.length rest) (p +:+ rest) = p.
Proof.
  rewrite length_append.
  replace (String.length p + String.length rest - String.length rest)
    with (String.length p) by lia.
  induction p as [|c p IH]; [by destruct rest |].
  change (String c p +:+ rest) with (String c (p +:+ rest)). simpl. by rewrite IH.
Qed.

Section Tokens.
Context {R : Type}.
Implicit Types (k : string -> groups -> option R) (g : groups) (x : R).

(** A group whose expression takes the token [p]: when the rest of the
    match goes through, [p] is what the group captures. *)
Lemma run_group_token (name : ascii) (r : regex) (p rest : string) g k x :
  (forall k' x', k' rest g = Some x' -> run r (p +:+ rest) g k' = Some x') ->
  k rest ((name, p) :: g) = Some x ->
  run (Group name r) (p +:+ rest) g k = Some x.
Proof.
  intros Hr Hk. cbn [run]. apply Hr. by rewrite substring_prefix.
Qed.

Lemma run_re_Y (y : Z) (rest : string) g k :
  run re_Y (fmt4 y +:+ rest) g k = k rest g.
Proof.
  unfold fmt4, fmt2.
  repeat match goal with
         | |- context [String ?c ?s +:+ rest] =>
             change (String c s +:+ rest) with (String c (s +:+ rest))
         end.
  change ("" +:+ rest) with rest.
  unfold re_Y, seqs, d. cbn [run].
  destruct (PyStrFacts.digit_mod10 (y / 1000)) as [-> _].
  destruct (PyStrFacts.digit_mod10 (y / 100)) as [-> _].
  destruct (PyStrFacts.digit_mod10 (y / 10)) as [-> _].
  destruct (PyStrFacts.digit_mod10 y) as [-> _].
  reflexivity.
Qed.

Lemma run_Y (y : Z) (rest : string) g k :
  run (Group "Y" re_Y) (fmt4 y +:+ rest) g k = k rest (("Y"%char, fmt4 y) :: g).
Proof. cbn [run]. by rewrite run_re_Y, substring_prefix. Qed.

Lemma run_lit_i (c : ascii) (rest : string) g k :
  run (lit_i c) (String c rest) g k = k rest g.
Proof. unfold lit_i. cbn [run]. by rewrite Ascii.eqb_refl. Qed.

(** A blank before a character that is not white space is all that [\s+]
    takes. *)
Lemma run_space (c : ascii) (rest : string) g k :
  is_space c = false ->
  run (Plus is_space) (String " " (String c rest)) g k = k (String c rest) g.
Proof. intros Hc. cbn [run plus_loop]. rewrite Hc. reflexivity. Qed.

End Tokens.

(** The numbers of a range, for a proof by cases. *)
Lemma range_cases (lo n : nat) (v : Z) :
  (Z.of_nat lo <= v < Z.of_nat (lo + n))%Z -> In v (map Z.of_nat (seq lo n)).
Proof.
  intros H. apply in_map_iff. exists (Z.to_nat v). split; [lia |].
  apply in_seq. lia.
Qed.

(** Decides the goal for the two-digit token of one number. *)
Ltac token n rest Hk :=
  let t := eval vm_compute in (fmt2 n) in
  match t with
  | String ?a (String ?b EmptyString) =>
      change (fmt2 n +:+ rest) with (String a (String b rest))
  end;
  vm_compute; first [exact Hk | rewrite Hk; reflexivity].

Ltac token_now rest Hk :=
  match goal with
  | |- Re.run _ (PyStr.fmt2 ?n +:+ rest) _ _ = _ => token n rest Hk
  end.

Ltac tokens v rest Hv Hk :=
  cbn [seq map In] in Hv;
  repeat (destruct Hv as [Hv|Hv]; [subst v; token_now rest Hk |]);
  destruct Hv.

Section Fields.
Context {R : Type}.
Implicit Types (k : string -> groups -> option R) (g : groups) (x : R).

Lemma run_re_m (v : Z) (rest : string) g k x :
  (1 <= v <= 12)%Z -> k rest g = Some x -> run re_m (fmt2 v +:+ rest) g k = Some x.
Proof. intros Hv Hk. assert (In v (map Z.of_nat (seq 1 12))) as Hin
    by (apply range_cases; lia).
  clear Hv. tokens v rest Hin Hk. Qed.

Lemma run_re_d (v : Z) (rest : string) g k x :
  (1 <= v <= 31)%Z -> k rest g = Some x -> run re_d (fmt2 v +:+ rest) g k = Some x.
Proof. intros Hv Hk. assert (In v (map Z.of_nat (seq 1 31))) as Hin
    by (apply range_cases; lia).
  clear Hv. tokens v rest Hin Hk. Qed.

Lemma run_re_H (v : Z) (rest : string) g k x :
  (0 <= v <= 23)%Z -> k rest g = Some x -> run re_H (fmt2 v +:+ rest) g k = Some x.
Proof. intros Hv Hk. assert (In v (map Z.of_nat (seq 0 24))) as Hin
    by (apply range_cases; lia).
  clear Hv. tokens v rest Hin Hk. Qed.

Lemma run_re_M (v : Z) (rest : string) g k x :
  (0 <= v <= 59)%Z -> k rest g = Some x -> run re_M (fmt2 v +:+ rest) g k = Some x.
Proof. intros Hv Hk. assert (In v (map Z.of_nat (seq 0 60))) as Hin
    by (apply range_cases; lia).
  clear Hv. tokens v rest Hin Hk. Qed.

Lemma run_re_S (v : Z) (rest : string) g k x :
  (0 <= v <= 59)%Z -> k rest g = Some x -> run re_S (fmt2 v +:+ rest) g k = Some x.
Proof. intros Hv Hk. assert (In v (map Z.of_nat (seq 0 60))) as Hin
    by (apply range_cases; lia).
  clear Hv. tokens v rest Hin Hk. Qed.

End Fields.

End StrptimeFacts.

Module RoundTrip.
Import Re Strptime PyStr StrptimeFacts.

Lemma pattern_date :
  pattern "%Y:%m:%d"
  = Some (seqs [Group "Y" re_Y; lit_i ":"; Group "m" re_m; lit_i ":"; Group "d" re_d]).
Proof. reflexivity. Qed.

Lemma pattern_datetime :
  pattern "%Y:%m:%d %H:%M:%S"
  = Some (seqs [Group "Y" re_Y; lit_i ":"; Group "m" re_m; lit_i ":"; Group "d" re_d;
                Plus is_space; Group "H" re_H; lit_i ":"; Group "M" re_M; lit_i ":";
                Group "S" re_S]).
Proof. reflexivity. Qed.

Lemma pattern_datetime_z :
  pattern "%Y:%m:%d %H:%M:%S%z"
  = Some (seqs [Group "Y" re_Y; lit_i ":"; Group "m" re_m; lit_i ":"; Group "d" re_d;
                Plus is_space; Group "H" re_H; lit_i ":"; Group "M" re_M; lit_i ":";
                Group "S" re_S; Group "z" re_z]).
Proof. reflexivity. Qed.

Lemma pattern_iso :
  pattern "%Y-%m-%dT%H:%M:%S"
  = Some (seqs [Group "Y" re_Y; lit_i "-"; Group "m" re_m; lit_i "-"; Group "d" re_d;
                lit_i "T"; Group "H" re_H; lit_i ":"; Group "M" re_M; lit_i ":";
                Group "S" re_S]).
Proof. reflexivity. Qed.

(** The ranges that the constructors' checks leave. *)
Lemma date_fields_ranges (y m d : Z) :
  DT.check_date_fields y m d = true ->
  (1 <= y <= 9999 /\ 1 <= m <= 12 /\ 1 <= d <= 31)%Z.
Proof.
  intros H. pose proof (DTFacts.check_date_fields_range y m d H) as [Hy Hm].
  split; [done |]. split; [done |].
  unfold DT.check_date_fields in H.
  assert (DT.days_in_month y m <= 31)%Z as Hdim.
  { unfold DT.days_in_month.
    assert (In m (map Z.of_nat (seq 1 12))) as Hin by (apply range_cases; lia).
    cbn [seq map In] in Hin.
    repeat (destruct Hin as [<-|Hin]; [simpl; try destruct (DT.is_leap y); simpl; lia |]).
    destruct Hin. }
  lia.
Qed.

Lemma time_fields_ranges (h mi s : Z) :
  DT.check_time_fields h mi s = true ->
  (0 <= h <= 23 /\ 0 <= mi <= 59 /\ 0 <= s <= 59)%Z.
Proof. unfold DT.check_time_fields. lia. Qed.

Lemma fmt2_first_not_space (n : Z) (rest : string) :
  exists c s, fmt2 n +:+ rest = String c s /\ is_space c = false.
Proof.
  eexists _, _. split; [reflexivity |].
  by destruct (PyStrFacts.digit_mod10 (n / 10)) as (_ & _ & _ & ?).
Qed.

Lemma run_Seq {R : Type} (r1 r2 : regex) (s : string) (g : groups)
    (k : string -> groups -> option R) :
  run (Seq r1 r2) s g k = run r1 s g (fun s' g' => run r2 s' g' k).
Proof. reflexivity. Qed.

Section Matches.
Variables y m d h mi s : Z.
Hypothesis date_ok : DT.check_date_fields y m d = true.
Hypothesis time_ok : DT.check_time_fields h mi s = true.

(** The match of the time of day, from the hour on. *)
Lemma run_time (g : groups) :
  run (seqs [Group "H" re_H; lit_i ":"; Group "M" re_M; lit_i ":"; Group "S" re_S])
    (time_text h mi s) g (fun s' g' => Some (g', s'))
  = Some (("S"%char, fmt2 s) :: ("M"%char, fmt2 mi) :: ("H"%char, fmt2 h) :: g, "").
Proof.
  destruct (time_fields_ranges _ _ _ time_ok) as (Hh & Hmi & Hs).
  unfold time_text. cbn [seqs]. rewrite run_Seq.
  apply run_group_token; [intros; by apply run_re_H |].
  rewrite run_Seq, run_lit_i, run_Seq.
  apply run_group_token; [intros; by apply run_re_M |].
  rewrite run_Seq, run_lit_i.
  rewrite <- (append_empty_r (fmt2 s)).
  apply run_group_token; [intros; by apply run_re_S |].
  reflexivity.
Qed.

Lemma rmatch_exif_date :
  rmatch (seqs [Group "Y" re_Y; lit_i ":"; Group "m" re_m; lit_i ":"; Group "d" re_d])
    (exif_date y m d)
  = Some ([("d"%char, fmt2 d); ("m"%char, fmt2 m); ("Y"%char, fmt4 y)], "").
Proof.
  destruct (date_fields_ranges _ _ _ date_ok) as (Hy & Hm & Hd).
  unfold rmatch, exif_date. cbn [seqs].
  rewrite run_Seq, run_Y, run_Seq, run_lit_i, run_Seq.
  apply run_group_token; [intros; by apply run_re_m |].
  rewrite run_Seq, run_lit_i.
  rewrite <- (append_empty_r (fmt2 d)).
  apply run_group_token; [intros; by apply run_re_d |].
  reflexivity.
Qed.

Lemma rmatch_exif_datetime_as_date :
  rmatch (seqs [Group "Y" re_Y; lit_i ":"; Group "m" re_m; lit_i ":"; Group "d" re_d])
    (exif_datetime y m d h mi s)
  = Some ([("d"%char, fmt2 d); ("m"%char, fmt2 m); ("Y"%char, fmt4 y)],
          String " " (time_text h mi s)).
Proof.
  destruct (date_fields_ranges _ _ _ date_ok) as (Hy & Hm & Hd).
  unfold rmatch, exif_datetime. cbn [seqs].
  rewrite run_Seq, run_Y, run_Seq, run_lit_i, run_Seq.
  apply run_group_token; [intros; by apply run_re_m |].
  rewrite run_Seq, run_lit_i.
  apply run_group_token; [intros; by apply run_re_d |].
  reflexivity.
Qed.

Lemma rmatch_exif_datetime :
  rmatch (seqs [Group "Y" re_Y; lit_i ":"; Group "m" re_m; lit_i ":"; Group "d" re_d;
                Plus is_space; Group "H" re_H; lit_i ":"; Group "M" re_M; lit_i ":";
                Group "S" re_S])
    (exif_datetime y m d h mi s)
  = Some ([("S"%char, fmt2 s); ("M"%char, fmt2 mi); ("H"%char, fmt2 h);
           ("d"%char, fmt2 d); ("m"%char, fmt2 m); ("Y"%char, fmt4 y)], "").
Proof.
  destruct (date_fields_ranges _ _ _ date_ok) as (Hy & Hm & Hd).
  unfold rmatch, exif_datetime. cbn [seqs].
  rewrite run_Seq, run_Y, run_Seq, run_lit_i, run_Seq.
  apply run_group_token; [intros; by apply run_re_m |].
  rewrite run_Seq, run_lit_i, run_Seq.
  apply run_group_token; [intros; by apply run_re_d |].
  rewrite run_Seq.
  destruct (fmt2_first_not_space h (String ":" (fmt2 mi +:+ String ":" (fmt2 s))))
    as (c & rest & Heq & Hc).
  unfold time_text at 1. rewrite Heq, (run_space c rest _ _ Hc), <- Heq.
  apply run_time.
Qed.

Lemma rmatch_iso_datetime :
  rmatch (seqs [Group "Y" re_Y; lit_i "-"; Group "m" re_m; lit_i "-"; Group "d" re_d;
                lit_i "T"; Group "H" re_H; lit_i ":"; Group "M" re_M; lit_i ":";
                Group "S" re_S])
    (iso_datetime y m d h mi s)
  = Some ([("S"%char, fmt2 s); ("M"%char, fmt2 mi); ("H"%char, fmt2 h);
           ("d"%char, fmt2 d); ("m"%char, fmt2 m); ("Y"%char, fmt4 y)], "").
Proof.
  destruct (date_fields_ranges _ _ _ date_ok) as (Hy & Hm & Hd).
  unfold rmatch, iso_datetime. cbn [seqs].
  rewrite run_Seq, run_Y, run_Seq, run_lit_i, run_Seq.
  apply run_group_token; [intros; by apply run_re_m |].
  rewrite run_Seq, run_lit_i, run_Seq.
  apply run_group_token; [intros; by apply run_re_d |].
  rewrite run_Seq, run_lit_i.
  apply run_time.
Qed.

(** A text with hyphens matches no format with colons. *)
Lemma rmatch_iso_colon (rs : list regex) :
  rs <> [] ->
  rmatch (seqs (Group "Y" re_Y :: lit_i ":" :: rs)) (iso_datetime y m d h mi s) = None.
Proof.
  intros Hrs. destruct rs as [|r rs]; [done |].
  unfold rmatch, iso_datetime.
  change (seqs (Group "Y" re_Y :: lit_i ":" :: r :: rs))
    with (Seq (Group "Y" re_Y) (Seq (lit_i ":") (seqs (r :: rs)))).
  rewrite run_Seq, run_Y, run_Seq. reflexivity.
Qed.

Lemma strptime_exif_date :
  strptime (exif_date y m d) "%Y:%m:%d" = Some (DT.mk_datetime y m d 0 0 0 None).
Proof.
  destruct (date_fields_ranges _ _ _ date_ok) as (Hy & Hm & Hd).
  unfold strptime. rewrite pattern_date. cbn [mbind option_bind].
  rewrite rmatch_exif_date. cbn [mbind option_bind String.eqb negb].
  unfold field. simpl group. cbv beta iota.
  rewrite PyStrFacts.int_fmt4, !PyStrFacts.int_fmt2 by lia.
  cbn [mbind option_bind]. by rewrite date_ok.
Qed.

Lemma strptime_exif_datetime_as_date :
  strptime (exif_datetime y m d h mi s) "%Y:%m:%d" = None.
Proof.
  unfold strptime. rewrite pattern_date. cbn [mbind option_bind].
  by rewrite rmatch_exif_datetime_as_date.
Qed.

Lemma strptime_exif_datetime :
  strptime (exif_datetime y m d h mi s) "%Y:%m:%d %H:%M:%S"
  = Some (DT.mk_datetime y m d h mi s None).
Proof.
  destruct (date_fields_ranges _ _ _ date_ok) as (Hy & Hm & Hd).
  destruct (time_fields_ranges _ _ _ time_ok) as (Hh & Hmi & Hs).
  unfold strptime. rewrite pattern_datetime. cbn [mbind option_bind].
  rewrite rmatch_exif_datetime. cbn [mbind option_bind String.eqb negb].
  unfold field. simpl group. cbv beta iota.
  rewrite PyStrFacts.int_fmt4, !PyStrFacts.int_fmt2 by lia.
  cbn [mbind option_bind]. by rewrite date_ok, time_ok.
Qed.

Lemma strptime_iso_datetime :
  strptime (iso_datetime y m d h mi s) "%Y-%m-%dT%H:%M:%S"
  = Some (DT.mk_datetime y m d h mi s None).
Proof.
  destruct (date_fields_ranges _ _ _ date_ok) as (Hy & Hm & Hd).
  destruct (time_fields_ranges _ _ _ time_ok) as (Hh & Hmi & Hs).
  unfold strptime. rewrite pattern_iso. cbn [mbind option_bind].
  rewrite rmatch_iso_datetime. cbn [mbind option_bind String.eqb negb].
  unfold field. simpl group. cbv beta iota.
  rewrite PyStrFacts.int_fmt4, !PyStrFacts.int_fmt2 by lia.
  cbn [mbind option_bind]. by rewrite date_ok, time_ok.
Qed.

Lemma strptime_iso_colon :
  strptime (iso_datetime y m d h mi s) "%Y:%m:%d" = None
  /\ strptime (iso_datetime y m d h mi s) "%Y:%m:%d %H:%M:%S" = None
  /\ strptime (iso_datetime y m d h mi s) "%Y:%m:%d %H:%M:%S%z" = None.
Proof.
  unfold strptime.
  rewrite pattern_date, pattern_datetime, pattern_datetime_z.
  cbn [mbind option_bind]. by rewrite !rmatch_iso_colon.
Qed.

(** The texts have no dot: [split('.')[0]] is the whole text. *)
Lemma fmt2_no_dot (n : Z) : ~ In "."%char (chars (fmt2 n)).
Proof.
  unfold fmt2. simpl. intros [H|[H|[]]].
  - destruct (PyStrFacts.digit_mod10 (n / 10)) as [Hd _]. by rewrite H in Hd.
  - destruct (PyStrFacts.digit_mod10 n) as [Hd _]. by rewrite H in Hd.
Qed.

Lemma fmt4_no_dot (n : Z) : ~ In "."%char (chars (fmt4 n)).
Proof.
  unfold fmt4. simpl. intros [H|[H|H]].
  - destruct (PyStrFacts.digit_mod10 (n / 1000)) as [Hd _]. by rewrite H in Hd.
  - destruct (PyStrFacts.digit_mod10 (n / 100)) as [Hd _]. by rewrite H in Hd.
  - by apply (fmt2_no_dot n).
Qed.

Lemma texts_no_dot :
  contains "." (exif_date y m d) = false
  /\ contains "." (exif_datetime y m d h mi s) = false
  /\ contains "." (iso_datetime y m d h mi s) = false.
Proof.
  assert (forall a b, ~ In "."%char (chars a) -> ~ In "."%char (chars b) ->
                      ~ In "."%char (chars (a +:+ b))) as Happ.
  { intros a b Ha Hb. rewrite PathFacts.chars_app, in_app_iff. tauto. }
  assert (forall x b, x <> "."%char -> ~ In "."%char (chars b) ->
                      ~ In "."%char (chars (String x b))) as Hcons.
  { intros x b Hx Hb [?|?]; tauto. }
  unfold exif_date, exif_datetime, iso_datetime, time_text.
  repeat split; apply PathFacts.not_contains_chr;
    repeat first [apply fmt4_no_dot | apply fmt2_no_dot | apply Happ | apply Hcons
                 | discriminate].
Qed.

Lemma try_formats_exif_date :
  try_formats (exif_date y m d) date_formats
  = inr (Some (DT.mk_datetime y m d 0 0 0 (Some 0%Z))).
Proof.
  destruct texts_no_dot as (Hdot & _ & _).
  unfold date_formats. cbn [try_formats].
  rewrite (PyStrFacts.split_none _ _ Hdot). cbn [item lookup list_lookup].
  by rewrite strptime_exif_date.
Qed.

Lemma try_formats_exif_datetime :
  try_formats (exif_datetime y m d h mi s) date_formats
  = inr (Some (DT.mk_datetime y m d h mi s (Some 0%Z))).
Proof.
  destruct texts_no_dot as (_ & Hdot & _).
  unfold date_formats. cbn [try_formats].
  rewrite (PyStrFacts.split_none _ _ Hdot). cbn [item lookup list_lookup].
  by rewrite strptime_exif_datetime_as_date, strptime_exif_datetime.
Qed.

Lemma try_formats_iso_datetime :
  try_formats (iso_datetime y m d h mi s) date_formats
  = inr (Some (DT.mk_datetime y m d h mi s (Some 0%Z))).
Proof.
  destruct texts_no_dot as (_ & _ & Hdot).
  destruct strptime_iso_colon as (H1 & H2 & H3).
  unfold date_formats. cbn [try_formats].
  rewrite (PyStrFacts.split_none _ _ Hdot). cbn [item lookup list_lookup].
  by rewrite H1, H2, H3, strptime_iso_datetime.
Qed.

End Matches.

End RoundTrip.

Lemma date_tags_NoDup : NoDup date_tags.
Proof. by apply (bool_decide_unpack _). Qed.

Lemma collect_dates_absent (md : record) (tags : list string)
    (acc : list DT.datetime) :
  (forall t, In t tags -> md !! t = None) -> collect_dates md tags acc = inr acc.
Proof.
  induction tags as [|t tags IH]; intros H; [done |].
  cbn [collect_dates]. rewrite (H t (or_introl eq_refl)).
  apply IH. intros t' Ht'. apply H. by right.
Qed.

(** A record with one candidate tag. *)
Lemma collect_dates_single (md : record) (tags : list string)
    (acc : list DT.datetime) (tag text : string) (dt : DT.datetime) :
  NoDup tags -> In tag tags ->
  (forall t, In t tags -> t <> tag -> md !! t = None) ->
  md !! tag = Some (PyStr text) -> text <> "" ->
  try_formats text date_formats = inr (Some dt) ->
  collect_dates md tags acc = inr (acc ++ [dt]).
Proof.
  intros Hnd Hin Hother Htag Hne Htext.
  induction tags as [|t tags IH]; [done |].
  apply NoDup_cons in Hnd as [Hnotin Hnd].
  cbn [collect_dates]. destruct Hin as [->|Hin].
  - rewrite Htag. cbn [truthy].
    destruct (String.eqb_spec text "") as [Heq|_]; [done |]. cbn [negb].
    rewrite Htext. apply collect_dates_absent.
    intros t' Ht'. apply Hother; [by right |]. intros ->.
    by apply Hnotin, list_elem_of_In.
  - rewrite (Hother t (or_introl eq_refl)).
    + apply IH; [done | done |]. intros t' Ht'. apply Hother. by right.
    + intros ->. by apply Hnotin, list_elem_of_In.
Qed.

(** X5: a well-formed text resolves to its own month and year.  When one
    candidate tag of a record holds the EXIF text of a valid date
    (YYYY:MM:DD), of a valid date and time of day (YYYY:MM:DD HH:MM:SS), or
    the ISO text YYYY-MM-DDTHH:MM:SS, and the other candidate tags are
    absent, the text is parsed to the date it was written from, read as
    UTC, and [extract_date] returns the month of that date in two digits, a
    slash, and its year in decimal: the zeros that pad the year of the text
    to four digits are not in the result. *)
Theorem X5_well_formed_text_resolves_to_its_month (DEFAULT_DATE : string)
    (md : record) (tag text : string) (y m d h mi s : Z) :
  DT.check_date_fields y m d = true ->
  DT.check_time_fields h mi s = true ->
  In tag date_tags ->
  md !! tag = Some (PyStr text) ->
  (forall t, In t date_tags -> t <> tag -> md !! t = None) ->
  text = exif_date y m d \/ text = exif_datetime y m d h mi s
  \/ text = iso_datetime y m d h mi s ->
  (exists hh mm ss,
     try_formats text date_formats
     = inr (Some (DT.mk_datetime y m d hh mm ss (Some 0%Z))))
  /\ extract_date DEFAULT_DATE md = inr (PyStr.fmt2 m +:+ "/" +:+ PyStr.decimal y).
Proof.
  intros Hdate Htime Hin Htag Hother Htext.
  assert (text <> "") as Hne.
  { destruct Htext as [-> | [-> | ->]]; discriminate. }
  assert (exists hh mm ss,
            try_formats text date_formats
            = inr (Some (DT.mk_datetime y m d hh mm ss (Some 0%Z))))
    as (hh & mm & ss & Hparse).
  { destruct Htext as [-> | [-> | ->]].
    - exists 0%Z, 0%Z, 0%Z. by apply RoundTrip.try_formats_exif_date.
    - exists h, mi, s. by apply RoundTrip.try_formats_exif_datetime.
    - exists h, mi, s. by apply RoundTrip.try_formats_iso_datetime. }
  split; [by exists hh, mm, ss |].
  unfold extract_date.
  by rewrite (collect_dates_single md date_tags [] tag text _ date_tags_NoDup
                Hin Hother Htag Hne Hparse).
Qed.

Lemma X5_well_formed_text_resolves_to_its_month_witness :
  extract_date "08/2024"
    (<["IPTC:DateCreated" := PyStr "0996:02:29 23:59:59"]>
       (<["EXIF:Model" := PyInt 3]> ∅))
  = inr "02/996".
Proof.
  apply (X5_well_formed_text_resolves_to_its_month "08/2024" _ "IPTC:DateCreated"
           "0996:02:29 23:59:59" 996 2 29 23 59 59); try reflexivity.
  - simpl. tauto.
  - intros t Ht Hne. rewrite lookup_insert_ne by done.
    simpl in Ht. repeat (destruct Ht as [<-|Ht]; [done |]). destruct Ht.
  - right. left. reflexivity.
Defined.

(** ** Texts with a UTC offset *)

Module Offsets.
Import Re Strptime PyStr StrptimeFacts RoundTrip.

Lemma pattern_iso_z :
  pattern "%Y-%m-%dT%H:%M:%S%z"
  = Some (seqs [Group "Y" re_Y; lit_i "-"; Group "m" re_m; lit_i "-"; Group "d" re_d;
                lit_i "T"; Group "H" re_H; lit_i ":"; Group "M" re_M; lit_i ":";
                Group "S" re_S; Group "z" re_z]).
Proof. reflexivity. Qed.

(** The first digit of a minute is one of 0..5. *)
Lemma minute_first_digit (om : Z) :
  (0 <= om <= 59)%Z ->
  (code "0" <=? code (digit_char (om / 10 mod 10)))%Z
  && (code (digit_char (om / 10 mod 10)) <=? code "5")%Z = true.
Proof.
  intros Hom.
  assert (In om (map Z.of_nat (seq 0 60))) as Hin by (apply range_cases; lia).
  cbn [seq map In] in Hin.
  repeat (destruct Hin as [<-|Hin]; [by vm_compute |]). destruct Hin.
Qed.

Section OffsetMatch.
Variables oh om : Z.
Variable negative : bool.
Hypothesis oh_ok : (0 <= oh <= 23)%Z.
Hypothesis om_ok : (0 <= om <= 59)%Z.

Lemma run_re_z {R : Type} (g : groups) (k : string -> groups -> option R) (x : R) :
  k "" g = Some x ->
  run re_z (offset_text negative oh om) g k = Some x.
Proof.
  intros Hk. unfold offset_text, fmt2.
  repeat match goal with
         | |- context [String ?c ?s +:+ ?r] =>
             change (String c s +:+ r) with (String c (s +:+ r))
         end.
  change ("" +:+ ?r) with r.
  destruct (PyStrFacts.digit_mod10 (oh / 10)) as [H1 _].
  destruct (PyStrFacts.digit_mod10 oh) as [H2 _].
  pose proof (minute_first_digit om om_ok) as H3.
  destruct (PyStrFacts.digit_mod10 om) as [H4 _].
  unfold re_z, seqs, opt, sign, d, lit, rng. cbn [run].
  rewrite H1, H2, H3, H4, Hk. by destruct negative.
Qed.

(** [parse_z] on the text of an offset. *)
Lemma parse_z_offset :
  parse_z (offset_text negative oh om)
  = Some (((if negative then -1 else 1) * (oh * 3600 + om * 60))%Z, 0%Z).
Proof.
  assert (forall c1 c2 c3 c4 : ascii,
            parse_z (String (if negative then "-" else "+")%char
                       (String c1 (String c2 (String ":" (String c3 (String c4 ""))))))
            = (hours ← int (String c1 (String c2 ""));
               minutes ← int (String c3 (String c4 ""));
               Some (((if negative then -1 else 1)
                      * (hours * 60 * 60 + minutes * 60 + 0))%Z,
                     ((if negative then -1 else 1) * 0)%Z))) as H.
  { intros c1 c2 c3 c4. destruct negative; cbv -[int Z.mul Z.add Z.opp];
      (destruct (int (String c1 (String c2 ""))) as [hh|]; [| done]);
      (destruct (int (String c3 (String c4 ""))) as [mm|]; [| done]);
      cbv -[Z.mul Z.add Z.opp]; f_equal; f_equal; lia. }
  unfold offset_text, fmt2.
  repeat match goal with
         | |- context [String ?c ?s +:+ ?r] =>
             change (String c s +:+ r) with (String c (s +:+ r))
         end.
  change ("" +:+ ?r) with r. rewrite H.
  change (String (digit_char (oh / 10 mod 10)) (String (digit_char (oh mod 10)) ""))
    with (fmt2 oh).
  change (String (digit_char (om / 10 mod 10)) (String (digit_char (om mod 10)) ""))
    with (fmt2 om).
  rewrite !PyStrFacts.int_fmt2 by lia. cbn [mbind option_bind].
  f_equal. f_equal; destruct negative; lia.
Qed.

Variables y m d h mi s : Z.
Hypothesis date_ok : DT.check_date_fields y m d = true.
Hypothesis time_ok : DT.check_time_fields h mi s = true.

(** The time of day and the offset, under a format with [%z] and under
    one without. *)
Lemma run_time_offset (g : groups) :
  run (seqs [Group "H" re_H; lit_i ":"; Group "M" re_M; lit_i ":"; Group "S" re_S;
             Group "z" re_z])
    (time_offset_text h mi s negative oh om) g (fun s' g' => Some (g', s'))
  = Some (("z"%char, offset_text negative oh om) :: ("S"%char, fmt2 s)
          :: ("M"%char, fmt2 mi) :: ("H"%char, fmt2 h) :: g, "").
Proof.
  destruct (time_fields_ranges _ _ _ time_ok) as (Hh & Hmi & Hs).
  unfold time_offset_text. cbn [seqs]. rewrite run_Seq.
  apply run_group_token; [intros; by apply run_re_H |].
  rewrite run_Seq, run_lit_i, run_Seq.
  apply run_group_token; [intros; by apply run_re_M |].
  rewrite run_Seq, run_lit_i, run_Seq.
  apply run_group_token; [intros; by apply run_re_S |].
  rewrite <- (append_empty_r (offset_text negative oh om)).
  apply run_group_token; [| reflexivity].
  intros k' x' Hk'. rewrite append_empty_r. by apply run_re_z.
Qed.

Lemma run_time_rest (g : groups) :
  run (seqs [Group "H" re_H; lit_i ":"; Group "M" re_M; lit_i ":"; Group "S" re_S])
    (time_offset_text h mi s negative oh om) g (fun s' g' => Some (g', s'))
  = Some (("S"%char, fmt2 s) :: ("M"%char, fmt2 mi) :: ("H"%char, fmt2 h) :: g,
          offset_text negative oh om).
Proof.
  destruct (time_fields_ranges _ _ _ time_ok) as (Hh & Hmi & Hs).
  unfold time_offset_text. cbn [seqs]. rewrite run_Seq.
  apply run_group_token; [intros; by apply run_re_H |].
  rewrite run_Seq, run_lit_i, run_Seq.
  apply run_group_token; [intros; by apply run_re_M |].
  rewrite run_Seq, run_lit_i.
  apply run_group_token; [intros; by apply run_re_S |].
  reflexivity.
Qed.

(** The date, up to the character that follows the day. *)
Lemma run_date_then {R : Type} (sep : ascii) (r : regex) (rest : string)
    (k : string -> groups -> option R) (x : R) :
  run r rest [("d"%char, fmt2 d); ("m"%char, fmt2 m); ("Y"%char, fmt4 y)] k = Some x ->
  run (Seq (Group "Y" re_Y) (Seq (lit_i sep) (Seq (Group "m" re_m)
         (Seq (lit_i sep) (Seq (Group "d" re_d) r)))))
    (fmt4 y +:+ String sep (fmt2 m +:+ String sep (fmt2 d +:+ rest))) [] k
  = Some x.
Proof.
  intros Hr.
  destruct (date_fields_ranges _ _ _ date_ok) as (Hy & Hm & Hd).
  rewrite run_Seq, run_Y, run_Seq, run_lit_i, run_Seq.
  apply run_group_token; [intros; by apply run_re_m |].
  rewrite run_Seq, run_lit_i, run_Seq.
  by apply run_group_token; [intros; by apply run_re_d |].
Qed.

Lemma run_blank {R : Type} (r : regex) (g : groups)
    (k : string -> groups -> option R) :
  run (Seq (Plus is_space) r)
    (String " " (time_offset_text h mi s negative oh om)) g k
  = run r (time_offset_text h mi s negative oh om) g k.
Proof.
  rewrite run_Seq.
  destruct (fmt2_first_not_space h
              (String ":" (fmt2 mi +:+ String ":" (fmt2 s +:+ offset_text negative oh om))))
    as (c & rest & Heq & Hc).
  unfold time_offset_text. rewrite Heq. by rewrite (run_space c rest _ _ Hc).
Qed.

Lemma rmatch_exif_offset :
  rmatch (seqs [Group "Y" re_Y; lit_i ":"; Group "m" re_m; lit_i ":"; Group "d" re_d;
                Plus is_space; Group "H" re_H; lit_i ":"; Group "M" re_M; lit_i ":";
                Group "S" re_S; Group "z" re_z])
    (exif_datetime_offset y m d h mi s negative oh om)
  = Some ([("z"%char, offset_text negative oh om); ("S"%char, fmt2 s);
           ("M"%char, fmt2 mi); ("H"%char, fmt2 h);
           ("d"%char, fmt2 d); ("m"%char, fmt2 m); ("Y"%char, fmt4 y)], "").
Proof.
  unfold rmatch, exif_datetime_offset. cbn [seqs].
  apply run_date_then. rewrite run_blank. apply run_time_offset.
Qed.

Lemma rmatch_exif_offset_rest :
  rmatch (seqs [Group "Y" re_Y; lit_i ":"; Group "m" re_m; lit_i ":"; Group "d" re_d;
                Plus is_space; Group "H" re_H; lit_i ":"; Group "M" re_M; lit_i ":";
                Group "S" re_S])
    (exif_datetime_offset y m d h mi s negative oh om)
  = Some ([("S"%char, fmt2 s); ("M"%char, fmt2 mi); ("H"%char, fmt2 h);
           ("d"%char, fmt2 d); ("m"%char, fmt2 m); ("Y"%char, fmt4 y)],
          offset_text negative oh om).
Proof.
  unfold rmatch, exif_datetime_offset. cbn [seqs].
  apply run_date_then. rewrite run_blank. apply run_time_rest.
Qed.

Lemma rmatch_exif_offset_as_date :
  rmatch (seqs [Group "Y" re_Y; lit_i ":"; Group "m" re_m; lit_i ":"; Group "d" re_d])
    (exif_datetime_offset y m d h mi s negative oh om)
  = Some ([("d"%char, fmt2 d); ("m"%char, fmt2 m); ("Y"%char, fmt4 y)],
          String " " (time_offset_text h mi s negative oh om)).
Proof.
  destruct (date_fields_ranges _ _ _ date_ok) as (Hy & Hm & Hd).
  unfold rmatch, exif_datetime_offset. cbn [seqs].
  rewrite run_Seq, run_Y, run_Seq, run_lit_i, run_Seq.
  apply run_group_token; [intros; by apply run_re_m |].
  rewrite run_Seq, run_lit_i.
  by apply run_group_token; [intros; by apply run_re_d |].
Qed.

Lemma rmatch_iso_offset :
  rmatch (seqs [Group "Y" re_Y; lit_i "-"; Group "m" re_m; lit_i "-"; Group "d" re_d;
                lit_i "T"; Group "H" re_H; lit_i ":"; Group "M" re_M; lit_i ":";
                Group "S" re_S; Group "z" re_z])
    (iso_datetime_offset y m d h mi s negative oh om)
  = Some ([("z"%char, offset_text negative oh om); ("S"%char, fmt2 s);
           ("M"%char, fmt2 mi); ("H"%char, fmt2 h);
           ("d"%char, fmt2 d); ("m"%char, fmt2 m); ("Y"%char, fmt4 y)], "").
Proof.
  unfold rmatch, iso_datetime_offset. cbn [seqs].
  apply run_date_then. rewrite run_Seq, run_lit_i. apply run_time_offset.
Qed.

Lemma rmatch_iso_offset_rest :
  rmatch (seqs [Group "Y" re_Y; lit_i "-"; Group "m" re_m; lit_i "-"; Group "d" re_d;
                lit_i "T"; Group "H" re_H; lit_i ":"; Group "M" re_M; lit_i ":";
                Group "S" re_S])
    (iso_datetime_offset y m d h mi s negative oh om)
  = Some ([("S"%char, fmt2 s); ("M"%char, fmt2 mi); ("H"%char, fmt2 h);
           ("d"%char, fmt2 d); ("m"%char, fmt2 m); ("Y"%char, fmt4 y)],
          offset_text negative oh om).
Proof.
  unfold rmatch, iso_datetime_offset. cbn [seqs].
  apply run_date_then. rewrite run_Seq, run_lit_i. apply run_time_rest.
Qed.

Lemma rmatch_iso_offset_colon (rs : list regex) :
  rs <> [] ->
  rmatch (seqs (Group "Y" re_Y :: lit_i ":" :: rs))
    (iso_datetime_offset y m d h mi s negative oh om) = None.
Proof.
  intros Hrs. destruct rs as [|r rs]; [done |].
  unfold rmatch, iso_datetime_offset.
  change (seqs (Group "Y" re_Y :: lit_i ":" :: r :: rs))
    with (Seq (Group "Y" re_Y) (Seq (lit_i ":") (seqs (r :: rs)))).
  rewrite run_Seq, run_Y, run_Seq. reflexivity.
Qed.

Lemma offset_in_range : DT.check_utc_offset (offset_us negative oh om) = true.
Proof.
  unfold DT.check_utc_offset, DT.DAY_US, offset_us. destruct negative; lia.
Qed.

Ltac strptime_offset Hpat Hmatch :=
  destruct (date_fields_ranges _ _ _ date_ok) as (Hy & Hm & Hd);
  destruct (time_fields_ranges _ _ _ time_ok) as (Hh & Hmi & Hs);
  unfold strptime; rewrite Hpat; cbn [mbind option_bind];
  rewrite Hmatch; cbn [mbind option_bind String.eqb negb];
  unfold field; simpl group; cbv beta iota;
  rewrite PyStrFacts.int_fmt4, !PyStrFacts.int_fmt2 by lia;
  cbn [mbind option_bind]; rewrite parse_z_offset; cbn [mbind option_bind];
  replace ((if negative then -1 else 1) * (oh * 3600 + om * 60) * 1000000 + 0)%Z
    with (offset_us negative oh om) by (unfold offset_us; lia);
  rewrite date_ok, time_ok; cbn [from_option negb];
  by rewrite offset_in_range.

Lemma strptime_exif_offset :
  strptime (exif_datetime_offset y m d h mi s negative oh om) "%Y:%m:%d %H:%M:%S%z"
  = Some (DT.mk_datetime y m d h mi s (Some (offset_us negative oh om))).
Proof. strptime_offset pattern_datetime_z rmatch_exif_offset. Qed.

Lemma strptime_iso_offset :
  strptime (iso_datetime_offset y m d h mi s negative oh om) "%Y-%m-%dT%H:%M:%S%z"
  = Some (DT.mk_datetime y m d h mi s (Some (offset_us negative oh om))).
Proof. strptime_offset pattern_iso_z rmatch_iso_offset. Qed.

Lemma strptime_exif_offset_fails :
  strptime (exif_datetime_offset y m d h mi s negative oh om) "%Y:%m:%d" = None
  /\ strptime (exif_datetime_offset y m d h mi s negative oh om) "%Y:%m:%d %H:%M:%S"
     = None.
Proof.
  unfold strptime. rewrite pattern_date, pattern_datetime. cbn [mbind option_bind].
  by rewrite rmatch_exif_offset_as_date, rmatch_exif_offset_rest.
Qed.

Lemma strptime_iso_offset_fails :
  strptime (iso_datetime_offset y m d h mi s negative oh om) "%Y:%m:%d" = None
  /\ strptime (iso_datetime_offset y m d h mi s negative oh om) "%Y:%m:%d %H:%M:%S"
     = None
  /\ strptime (iso_datetime_offset y m d h mi s negative oh om) "%Y:%m:%d %H:%M:%S%z"
     = None
  /\ strptime (iso_datetime_offset y m d h mi s negative oh om) "%Y-%m-%dT%H:%M:%S"
     = None.
Proof.
  unfold strptime.
  rewrite pattern_date, pattern_datetime, pattern_datetime_z, pattern_iso.
  cbn [mbind option_bind].
  by rewrite !rmatch_iso_offset_colon, rmatch_iso_offset_rest.
Qed.

Lemma offset_texts_no_dot :
  contains "." (exif_datetime_offset y m d h mi s negative oh om) = false
  /\ contains "." (iso_datetime_offset y m d h mi s negative oh om) = false.
Proof.
  assert (forall a b, ~ In "."%char (chars a) -> ~ In "."%char (chars b) ->
                      ~ In "."%char (chars (a +:+ b))) as Happ.
  { intros a b Ha Hb. rewrite PathFacts.chars_app, in_app_iff. tauto. }
  assert (forall x b, x <> "."%char -> ~ In "."%char (chars b) ->
                      ~ In "."%char (chars (String x b))) as Hcons.
  { intros x b Hx Hb [?|?]; tauto. }
  unfold exif_datetime_offset, iso_datetime_offset, time_offset_text, offset_text.
  split; apply PathFacts.not_contains_chr;
    repeat first [apply fmt4_no_dot | apply fmt2_no_dot | apply Happ | apply Hcons
                 | by destruct negative].
Qed.

Lemma try_formats_exif_offset :
  try_formats (exif_datetime_offset y m d h mi s negative oh om) date_formats
  = inr (Some (DT.mk_datetime y m d h mi s (Some (offset_us negative oh om)))).
Proof.
  destruct offset_texts_no_dot as (Hdot & _).
  destruct strptime_exif_offset_fails as (H1 & H2).
  unfold date_formats. cbn [try_formats].
  rewrite (PyStrFacts.split_none _ _ Hdot). cbn [item lookup list_lookup].
  by rewrite H1, H2, strptime_exif_offset.
Qed.

Lemma try_formats_iso_offset :
  try_formats (iso_datetime_offset y m d h mi s negative oh om) date_formats
  = inr (Some (DT.mk_datetime y m d h mi s (Some (offset_us negative oh om)))).
Proof.
  destruct offset_texts_no_dot as (_ & Hdot).
  destruct strptime_iso_offset_fails as (H1 & H2 & H3 & H4).
  unfold date_formats. cbn [try_formats].
  rewrite (PyStrFacts.split_none _ _ Hdot). cbn [item lookup list_lookup].
  by rewrite H1, H2, H3, H4, strptime_iso_offset.
Qed.

End OffsetMatch.
End Offsets.

(** X6: a text with a UTC offset keeps it.  The EXIF or ISO text of a valid
    date and time of day followed by +HH:MM or -HH:MM is parsed to that
    date and time with that offset: the instant it denotes is earlier than
    the same text read as UTC by the offset; and when it is the only
    candidate tag of a record, [extract_date] returns the month and year of
    the text, not those of the instant in UTC: the month in two digits, a
    slash, and the year in decimal, without the zeros that pad it to four
    digits in the text. *)
Theorem X6_offset_text_keeps_its_offset (DEFAULT_DATE : string) (md : record)
    (tag text : string) (y m d h mi s : Z) (negative : bool) (oh om : Z) :
  DT.check_date_fields y m d = true ->
  DT.check_time_fields h mi s = true ->
  (0 <= oh <= 23)%Z -> (0 <= om <= 59)%Z ->
  In tag date_tags ->
  md !! tag = Some (PyStr text) ->
  (forall t, In t date_tags -> t <> tag -> md !! t = None) ->
  text = exif_datetime_offset y m d h mi s negative oh om
  \/ text = iso_datetime_offset y m d h mi s negative oh om ->
  try_formats text date_formats
  = inr (Some (DT.mk_datetime y m d h mi s (Some (offset_us negative oh om))))
  /\ DT.instant (DT.mk_datetime y m d h mi s (Some (offset_us negative oh om)))
     = (DT.instant (DT.mk_datetime y m d h mi s (Some 0%Z))
        - offset_us negative oh om)%Z
  /\ extract_date DEFAULT_DATE md = inr (PyStr.fmt2 m +:+ "/" +:+ PyStr.decimal y).
Proof.
  intros Hdate Htime Hoh Hom Hin Htag Hother Htext.
  assert (text <> "") as Hne.
  { destruct Htext as [-> | ->]; discriminate. }
  assert (try_formats text date_formats
          = inr (Some (DT.mk_datetime y m d h mi s (Some (offset_us negative oh om)))))
    as Hparse.
  { destruct Htext as [-> | ->].
    - by apply Offsets.try_formats_exif_offset.
    - by apply Offsets.try_formats_iso_offset. }
  split; [done |]. split.
  { unfold DT.instant.
    change (DT.wall_us (DT.mk_datetime y m d h mi s (Some (offset_us negative oh om))))
      with (DT.wall_us (DT.mk_datetime y m d h mi s (Some 0%Z))).
    generalize (DT.wall_us (DT.mk_datetime y m d h mi s (Some 0%Z))).
    intros wall. cbn [DT.tzinfo default from_option id]. lia. }
  unfold extract_date.
  by rewrite (collect_dates_single md date_tags [] tag text _ date_tags_NoDup
                Hin Hother Htag Hne Hparse).
Qed.

Lemma X6_offset_text_keeps_its_offset_witness :
  try_formats "0999-01-01T00:30:00+02:00" date_formats
  = inr (Some (DT.mk_datetime 999 1 1 0 30 0 (Some 7200000000%Z)))
  /\ extract_date "08/2024" (<["XMP:CreateDate" := PyStr "0999-01-01T00:30:00+02:00"]> ∅)
     = inr "01/999".
Proof.
  destruct (X6_offset_text_keeps_its_offset "08/2024"
              (<["XMP:CreateDate" := PyStr "0999-01-01T00:30:00+02:00"]> ∅)
              "XMP:CreateDate" "0999-01-01T00:30:00+02:00" 999 1 1 0 30 0 false 2 0)
    as (Hp & _ & He); try reflexivity; try lia.
  - simpl. tauto.
  - intros t Ht Hne. by rewrite lookup_insert_ne.
  - right. reflexivity.
  - split; [exact Hp | exact He].
Defined.

(** ** One image *)

Section ProcessImageOutcomes.
Variables DEFAULT_DATE IMAGE_DIRECTORY_FOLDER : string.
Variable pil : string -> option exn.
Variable fs : gmap string content.
Variable metadata : store.

Lemma process_image_outcomes (image batch_dir : string) (idx : nat) :
  let t := process_image DEFAULT_DATE IMAGE_DIRECTORY_FOLDER pil fs image
             batch_dir idx metadata in
  let img_path := path_join IMAGE_DIRECTORY_FOLDER image in
  (forall e, snd t = inl e ->
     is_FileNotFoundError e = false /\ pil img_path = Some e
     /\ fs !! img_path <> None)
  /\ (forall p c, In (EvWrite p c) (fst t)
        <-> snd t = inr true /\ p = path_join batch_dir image /\ c = Image img_path)
  /\ (snd t <> inr true -> exists msg, In (EvLog ERROR msg) (fst t))
  /\ (forall p, ~ In (EvMakedirs p) (fst t)).
Proof.
  intros t img_path. subst t img_path.
  assert (forall ev, In ev (no_metadata_warning metadata image) ->
            ev = EvLog WARNING (NoMetadataFound image)) as Hw.
  { unfold no_metadata_warning.
    destruct (Nat.eqb (size (record_of metadata image)) 0);
      [by intros ev [<-|[]] | by intros ev []]. }
  destruct (extract_date DEFAULT_DATE (record_of metadata image)) as [e|date] eqn:Hd;
    [rewrite (process_image_date_raises _ _ _ _ _ image batch_dir idx e Hd) |
     destruct (fs !! path_join IMAGE_DIRECTORY_FOLDER image) as [c0|] eqn:Hf;
     [destruct (pil (path_join IMAGE_DIRECTORY_FOLDER image)) as [e|] eqn:Hp;
      [rewrite (process_image_codec_raises _ _ _ _ _ image batch_dir idx date c0 e
                  Hd Hf Hp); destruct e |
       rewrite (process_image_succeeds _ _ _ _ _ image batch_dir idx date c0
                  Hd Hf Hp)] |
      rewrite (process_image_source_missing _ _ _ _ _ image batch_dir idx date
                 Hd Hf)]];
    cbn [fst snd is_FileNotFoundError row_cells];
    (split; [| split; [| split]];
    [ intros e' He'; try discriminate He'; injection He' as <-; by rewrite ?Hp
    | intros p c; split;
      [ intros Hin; outcome_in Hw Hin | intros (He' & -> & ->); try discriminate He';
        apply in_or_app; right; by left ]
    | intros Hne; try (by destruct Hne);
      eexists; apply in_or_app; right; left; reflexivity
    | intros p Hin; outcome_in Hw Hin ]).
Qed.

End ProcessImageOutcomes.

(** X7: an image without a record (none in the store, or an empty one) is
    processed like any other: the task warns, resizes, and writes the row
    with the default date as it is configured. *)
Theorem X7_no_metadata_default_row (DEFAULT_DATE IMAGE_DIRECTORY_FOLDER : string)
    (pil : string -> option exn) (fs : gmap string content) (metadata : store)
    (image batch_dir : string) (idx : nat) (c : content) :
  record_of metadata image = ∅ ->
  fs !! path_join IMAGE_DIRECTORY_FOLDER image = Some c ->
  pil (path_join IMAGE_DIRECTORY_FOLDER image) = None ->
  process_image DEFAULT_DATE IMAGE_DIRECTORY_FOLDER pil fs image batch_dir idx metadata
  = (EvLog WARNING (NoMetadataFound image)
     :: EvWrite (path_join batch_dir image)
          (Image (path_join IMAGE_DIRECTORY_FOLDER image))
     :: row_cells idx image DEFAULT_DATE,
     inr true).
Proof.
  intros Hr Hf Hp.
  rewrite (process_image_succeeds _ _ _ _ _ image batch_dir idx DEFAULT_DATE c);
    [| by rewrite Hr | done | done].
  unfold no_metadata_warning. by rewrite Hr.
Qed.

Lemma X7_no_metadata_default_row_witness :
  process_image "08/2024" "/in" (fun _ => None) (files world_example) "b.jpg"
    "/out/2024_batch_1" 0 ∅
  = ([EvLog WARNING (NoMetadataFound "b.jpg");
      EvWrite "/out/2024_batch_1/b.jpg" (Image "/in/b.jpg");
      EvCell 11 1 (CInt 1); EvCell 11 2 (CStr "b.jpg"); EvCell 11 3 (CStr "b.jpg");
      EvCell 11 4 (CStr "08/2024"); EvCell 11 5 (CStr "b.jpg"); EvCell 11 6 (CStr "")],
     inr true).
Proof.
  by apply (X7_no_metadata_default_row "08/2024" "/in" (fun _ => None)
              (files world_example) ∅ "b.jpg" "/out/2024_batch_1" 0 (Image "b")).
Defined.

(** X8: what a task can do.  It raises only what the codec raised on an
    existing source, and never [FileNotFoundError]; it writes one file at
    most, the resized image, and that exactly when it returns [True]; when
    it does not return [True] it has logged an error; it makes no
    directory. *)
Theorem X8_process_image_outcomes (DEFAULT_DATE IMAGE_DIRECTORY_FOLDER : string)
    (pil : string -> option exn) (fs : gmap string content) (metadata : store)
    (image batch_dir : string) (idx : nat) :
  let t := process_image DEFAULT_DATE IMAGE_DIRECTORY_FOLDER pil fs image
             batch_dir idx metadata in
  let img_path := path_join IMAGE_DIRECTORY_FOLDER image in
  (forall e, snd t = inl e ->
     is_FileNotFoundError e = false /\ pil img_path = Some e
     /\ fs !! img_path <> None)
  /\ (forall p c, In (EvWrite p c) (fst t)
        <-> snd t = inr true /\ p = path_join batch_dir image /\ c = Image img_path)
  /\ (snd t <> inr true -> exists msg, In (EvLog ERROR msg) (fst t))
  /\ (forall p, ~ In (EvMakedirs p) (fst t)).
Proof. apply process_image_outcomes. Qed.

(** ** Files *)

(** A file that is there stays as it is under events that do not write
    other contents to its path ([makedirs] leaves an existing path alone). *)
Lemma files_kept (w : world) (evs : list event) (p : string) (c : content) :
  files w !! p = Some c ->
  (forall c', In (EvWrite p c') evs -> c' = c) ->
  files (apply_events w evs) !! p = Some c.
Proof.
  induction evs as [|ev evs IH] using rev_ind; [done |].
  intros Hp Hfun. rewrite apply_events_snoc.
  assert (files (apply_events w evs) !! p = Some c) as Hf.
  { apply IH; [done |]. intros c' Hc'. apply Hfun, in_app_iff. by left. }
  destruct ev as [| q | q c' | |]; try done; simpl.
  - destruct (files (apply_events w evs) !! q) eqn:Hq; [done |].
    rewrite lookup_insert_ne; [done | congruence].
  - destruct (decide (q = p)) as [->|Hne].
    + rewrite lookup_insert_eq. f_equal. apply Hfun, in_app_iff. right. by left.
    + by rewrite lookup_insert_ne.
Qed.

(** A path whose writes all carry the same contents ends with them. *)
Lemma files_written (w : world) (evs : list event) (p : string) (c : content) :
  In (EvWrite p c) evs ->
  (forall c', In (EvWrite p c') evs -> c' = c) ->
  files (apply_events w evs) !! p = Some c.
Proof.
  induction evs as [|ev evs IH] using rev_ind; [done |].
  intros Hin Hfun. rewrite apply_events_snoc.
  destruct (decide (ev = EvWrite p c)) as [->|Hne].
  - simpl. apply lookup_insert_eq.
  - assert (In (EvWrite p c) evs) as Hin'.
    { apply in_app_iff in Hin as [?|[?|[]]]; [done | congruence]. }
    assert (files (apply_events w evs) !! p = Some c) as Hf.
    { apply IH; [done |]. intros c' Hc'. apply Hfun, in_app_iff. by left. }
    destruct ev as [| q | q c' | |]; try done; simpl.
    + destruct (files (apply_events w evs) !! q) eqn:Hq; [done |].
      rewrite lookup_insert_ne; [done | congruence].
    + destruct (decide (q = p)) as [->|Hne'].
      * rewrite lookup_insert_eq. f_equal. apply Hfun, in_app_iff. right. by left.
      * by rewrite lookup_insert_ne.
Qed.

(** ** Paths of a batch *)

Module BatchPaths.
Import PyStr PathFacts.

Lemma jpg_name_no_slash (image : string) :
  jpg_name image -> ~ In "/"%char (chars image).
Proof. by intros [_ ?%not_contains_chr]. Qed.

(** Two names in one directory are one name. *)
Lemma path_join_inj (bd a b : string) :
  ~ In "/"%char (chars a) -> ~ In "/"%char (chars b) ->
  path_join bd a = path_join bd b -> a = b.
Proof.
  intros Ha Hb. rewrite !path_join_relative by done.
  by intros ?%append_cancel%append_cancel.
Qed.

Lemma str_of_nat_chars (n : nat) (c : ascii) :
  In c (chars (str_of_nat n)) -> is_digit c = true.
Proof.
  intros H. pose proof (string_of_uint_digits (Nat.to_uint n)) as Hd.
  rewrite Forall_forall in Hd. by apply Hd, list_elem_of_In.
Qed.

(** The path of a file in a sub-batch directory, written out. *)
Lemma sub_batch_file_path (bd image : string) (n : nat) :
  ~ In "/"%char (chars image) ->
  path_join (sub_batch_dir_n bd n) image
  = bd +:+ sep_of bd +:+ "sub_batch_" +:+ str_of_nat n +:+ String "/" image.
Proof.
  intros Hslash. unfold sub_batch_dir_n.
  rewrite (path_join_relative _ image) by done.
  rewrite (path_join_relative bd ("sub_batch_" +:+ _))
    by (intros [Hc _]%sub_batch_name_chars; by destruct Hc).
  assert (sep_of (bd +:+ sep_of bd +:+ "sub_batch_" +:+ str_of_nat n) = "/") as ->.
  { unfold sep_of at 1.
    destruct (String.eqb_spec (bd +:+ sep_of bd +:+ "sub_batch_" +:+ str_of_nat n) "")
      as [He|_].
    - apply (f_equal chars) in He. rewrite !chars_app in He.
      by destruct (chars bd), (chars (sep_of bd)).
    - cbn [orb]. destruct (endswith "/" _) eqn:He; [| done].
      rewrite <- append_assoc in He.
      apply endswith_chr_app in He; [| done].
      apply sub_batch_name_chars in He as [Hc _]. by destruct Hc. }
  by rewrite !append_assoc.
Qed.

(** A file of a sub-batch directory names its image. *)
Lemma sub_batch_file_inj (bd image image' : string) (n n' : nat) :
  ~ In "/"%char (chars image) -> ~ In "/"%char (chars image') ->
  path_join (sub_batch_dir_n bd n) image = path_join (sub_batch_dir_n bd n') image' ->
  image = image'.
Proof.
  intros Hi Hi'. rewrite !sub_batch_file_path by done.
  intros H%append_cancel%append_cancel%append_cancel.
  apply (f_equal (split "/")) in H.
  rewrite !PyStrFacts.split_app in H.
  - rewrite !PyStrFacts.split_none in H by (by apply not_contains_chr). congruence.
  - apply not_contains_chr. by intros Hc%str_of_nat_chars.
  - apply not_contains_chr. by intros Hc%str_of_nat_chars.
Qed.

Lemma manifest_name_no_slash (batch_number : nat) :
  ~ In "/"%char
      (chars ("diversity_photos_batch_" +:+ str_of_nat batch_number +:+ ".xlsx")).
Proof.
  rewrite !chars_app, !in_app_iff. intros [H|[H%str_of_nat_chars|H]]; [| done |].
  - simpl in H. repeat (destruct H as [H|H]; [done |]). done.
  - simpl in H. repeat (destruct H as [H|H]; [done |]). done.
Qed.

(** The manifest is not a file of a sub-batch directory. *)
Lemma manifest_not_in_sub_batch (bd image : string) (n batch_number : nat) :
  ~ In "/"%char (chars image) ->
  path_join (sub_batch_dir_n bd n) image
  <> path_join bd ("diversity_photos_batch_" +:+ str_of_nat batch_number +:+ ".xlsx").
Proof.
  intros Hi. rewrite sub_batch_file_path by done.
  rewrite (path_join_relative bd _) by apply manifest_name_no_slash.
  by intros H%append_cancel%append_cancel.
Qed.

Lemma endswith_app_inv (p a b : string) :
  String.length p <= String.length b ->
  endswith p (a +:+ b) = true -> endswith p b = true.
Proof.
  intros Hlen. induction a as [|x a IH]; [done |].
  change (String x a +:+ b) with (String x (a +:+ b)). cbn [endswith].
  intros [H%String.eqb_eq|H]%orb_true_iff; [| by apply IH].
  apply (f_equal String.length) in H. simpl in H.
  rewrite length_append in H. lia.
Qed.

(** The manifest is not a resized image. *)
Lemma manifest_not_resized (bd image : string) (batch_number : nat) :
  jpg_name image ->
  path_join bd image
  <> path_join bd ("diversity_photos_batch_" +:+ str_of_nat batch_number +:+ ".xlsx").
Proof.
  intros Hjpg H.
  apply path_join_inj in H;
    [| by apply jpg_name_no_slash | apply manifest_name_no_slash].
  destruct Hjpg as [Hjpg _]. rewrite H, <- append_assoc in Hjpg.
  apply endswith_app_inv in Hjpg; [by vm_compute in Hjpg | simpl; lia].
Qed.

End BatchPaths.

(** ** The files of a batch *)

Lemma future_events_write (t : task bool) (p : string) (c : content) :
  In (EvWrite p c) (future_events t) <-> In (EvWrite p c) (fst t).
Proof.
  destruct t as [evs [e|[|]]]; simpl; [| done |];
    rewrite in_app_iff; simpl; split; try tauto; by intros [?|[?|[]]].
Qed.

Lemma slice_in {A : Type} (i n : nat) (l : list A) (x : A) :
  In x (slice i n l) -> In x l.
Proof.
  unfold slice. intros H%list_elem_of_In. apply list_elem_of_In.
  eapply elem_of_sublist; [| apply sublist_drop].
  eapply elem_of_sublist; [exact H | apply sublist_take].
Qed.

Section BatchFiles.
Import BatchPaths.
Variable SUB_BATCH_SIZE : nat.
Variables DEFAULT_DATE IMAGE_DIRECTORY_FOLDER OUTPUT_DIR : string.
Variable template : cells.
Variable pil : string -> option exn.
Variable metadata : store.
Variable images : list string.
Variable batch_number : nat.
Variable year : string.
Hypothesis images_jpg : Forall jpg_name images.

Let batch_dir := batch_dir_of OUTPUT_DIR year batch_number.

Let run (sched : list nat) (w : world) : world :=
  snd (process_batch SUB_BATCH_SIZE DEFAULT_DATE IMAGE_DIRECTORY_FOLDER OUTPUT_DIR
         template pil sched images batch_number metadata year w).

Let pool (sched : list nat) (w : world) : list event :=
  pool_events DEFAULT_DATE IMAGE_DIRECTORY_FOLDER OUTPUT_DIR pil metadata images
    batch_number year sched w.

Let saved (sched : list nat) (w : world) : world :=
  after_save DEFAULT_DATE IMAGE_DIRECTORY_FOLDER OUTPUT_DIR template pil metadata
    images batch_number year sched w.

Let task_of (w : world) (idx : nat) (image : string) : task bool :=
  batch_task DEFAULT_DATE IMAGE_DIRECTORY_FOLDER OUTPUT_DIR pil metadata batch_number
    year w idx image.

Lemma images_jpg_name (image : string) : In image images -> jpg_name image.
Proof.
  intros Hin. rewrite Forall_forall in images_jpg.
  by apply images_jpg, list_elem_of_In.
Qed.

Lemma images_no_slash (image : string) :
  In image images -> ~ In "/"%char (chars image).
Proof. intros Hin. by apply jpg_name_no_slash, images_jpg_name. Qed.

Lemma lookup_in (idx : nat) (image : string) :
  images !! idx = Some image -> In image images.
Proof. intros H. apply list_elem_of_In, list_elem_of_lookup. by exists idx. Qed.

(** The batch, as the events of its sub-batches applied to the world in
    which the manifest has just been saved. *)
Lemma run_events (sched : list nat) (w : world) :
  run sched w
  = apply_events (saved sched w)
      (concat (sub_batch_events SUB_BATCH_SIZE batch_dir (files (saved sched w)) images)).
Proof.
  unfold run. rewrite process_batch_unfold.
  by rewrite (copy_sub_batches_events SUB_BATCH_SIZE batch_dir (files (saved sched w))).
Qed.

Lemma sub_batch_write_inv (fs0 : gmap string content) (p : string) (c : content) :
  In (EvWrite p c) (concat (sub_batch_events SUB_BATCH_SIZE batch_dir fs0 images)) ->
  exists n image,
    In image images /\ p = path_join (sub_batch_dir_n batch_dir n) image
    /\ fs0 !! path_join batch_dir image = Some c.
Proof.
  rewrite in_concat. intros (evs & Hevs & Hin).
  unfold sub_batch_events in Hevs. apply in_map_iff in Hevs as ([n sub] & <- & Hch).
  unfold chunks in Hch. apply in_map_iff in Hch as (i & [= <- <-] & _).
  destruct Hin as [Hin|Hin]; [done |].
  apply in_map_iff in Hin as (image & Hev & Him%slice_in).
  exists (i / SUB_BATCH_SIZE + 1), image. split; [done |].
  unfold copy_event in Hev.
  destruct (fs0 !! path_join batch_dir image); [| done]. by injection Hev as <- <-.
Qed.

(** The writes of the pool: the resized images of the tasks that returned
    [True]. *)
Lemma pool_write (sched : list nat) (w : world) (p : string) (c : content) :
  In (EvWrite p c) (pool sched w)
  <-> exists idx image,
        images !! idx = Some image /\ snd (task_of w idx image) = inr true
        /\ p = path_join batch_dir image
        /\ c = Image (path_join IMAGE_DIRECTORY_FOLDER image).
Proof.
  unfold pool. rewrite pool_events_in. split.
  - intros (idx & image & Him & Hin%future_events_write).
    apply process_image_outcomes in Hin. by exists idx, image.
  - intros (idx & image & Him & Ht & -> & ->). exists idx, image. split; [done |].
    apply future_events_write. by apply process_image_outcomes.
Qed.

Lemma saved_manifest (sched : list nat) (w : world) :
  files (run sched w) !! output_xlsx OUTPUT_DIR batch_number year
  = Some (Workbook (sheet (run sched w))).
Proof.
  destruct (process_batch_trace SUB_BATCH_SIZE DEFAULT_DATE IMAGE_DIRECTORY_FOLDER
              OUTPUT_DIR template pil metadata images batch_number year sched w)
    as (_ & _ & _ & Hsheet).
  fold (run sched w) in Hsheet. rewrite Hsheet, run_events.
  apply files_kept; [apply lookup_insert_eq |].
  intros c' (n & image & Him & Hp & _)%sub_batch_write_inv. exfalso.
  symmetry in Hp. revert Hp. apply manifest_not_in_sub_batch. by apply images_no_slash.
Qed.

Lemma resized_in_place (sched : list nat) (w : world) (idx : nat) (image : string) :
  images !! idx = Some image -> snd (task_of w idx image) = inr true ->
  files (saved sched w) !! path_join batch_dir image
  = Some (Image (path_join IMAGE_DIRECTORY_FOLDER image)).
Proof.
  intros Him Ht.
  assert (In image images) as Hin by (by apply (lookup_in idx)).
  unfold saved, after_save. cbn [apply_event files].
  rewrite lookup_insert_ne.
  2:{ intros Heq. symmetry in Heq. revert Heq.
      by apply manifest_not_resized, images_jpg_name. }
  unfold after_pool. apply files_written.
  - apply pool_write. by exists idx, image.
  - intros c' (idx' & image' & Him' & _ & Hp & ->)%pool_write.
    apply path_join_inj in Hp as ->; [done | |]; apply images_no_slash; [done |].
    by apply (lookup_in idx').
Qed.

Lemma resized_kept (sched : list nat) (w : world) (idx : nat) (image : string) :
  images !! idx = Some image -> snd (task_of w idx image) = inr true ->
  files (run sched w) !! path_join batch_dir image
  = Some (Image (path_join IMAGE_DIRECTORY_FOLDER image)).
Proof.
  intros Him Ht. rewrite run_events.
  apply files_kept; [by apply (resized_in_place sched w idx) |].
  intros c' (n & image' & Him' & Hp & _)%sub_batch_write_inv. exfalso.
  revert Hp. apply PathFacts.resized_not_in_sub_batch;
    apply images_jpg_name; [by apply (lookup_in idx) | done].
Qed.

(** The image at index [idx] is in the window that holds that index. *)
Lemma window_of_index (idx : nat) (image : string) :
  0 < SUB_BATCH_SIZE -> images !! idx = Some image ->
  exists sub_batch,
    In (idx / SUB_BATCH_SIZE + 1, sub_batch) (chunks SUB_BATCH_SIZE images)
    /\ In image sub_batch.
Proof.
  intros HS Him.
  assert (idx < length images) as Hlt by (by eapply lookup_lt_Some).
  assert (idx / SUB_BATCH_SIZE < length (chunks SUB_BATCH_SIZE images)) as Hq.
  { rewrite chunks_length. apply Nat.Div0.div_lt_upper_bound.
    pose proof (ceil_bounds (length images) SUB_BATCH_SIZE HS). lia. }
  exists (slice (idx / SUB_BATCH_SIZE * SUB_BATCH_SIZE) SUB_BATCH_SIZE images). split.
  - apply list_elem_of_In, list_elem_of_lookup. exists (idx / SUB_BATCH_SIZE).
    by apply chunks_lookup.
  - apply list_elem_of_In, list_elem_of_lookup. exists (idx mod SUB_BATCH_SIZE).
    unfold slice. rewrite lookup_take_lt by (apply Nat.mod_upper_bound; lia).
    rewrite lookup_drop.
    replace (idx / SUB_BATCH_SIZE * SUB_BATCH_SIZE + idx mod SUB_BATCH_SIZE) with idx;
      [done |].
    rewrite (Nat.div_mod_eq idx SUB_BATCH_SIZE) at 1. lia.
Qed.

Lemma copied_in_place (sched : list nat) (w : world) (idx : nat) (image : string) :
  0 < SUB_BATCH_SIZE ->
  images !! idx = Some image -> snd (task_of w idx image) = inr true ->
  files (run sched w)
    !! path_join (sub_batch_dir_n batch_dir (idx / SUB_BATCH_SIZE + 1)) image
  = Some (Image (path_join IMAGE_DIRECTORY_FOLDER image)).
Proof.
  intros HS Him Ht. rewrite run_events.
  pose proof (resized_in_place sched w idx image Him Ht) as Hres.
  assert (In image images) as Hin by (by apply (lookup_in idx)).
  apply files_written.
  - destruct (window_of_index idx image HS Him) as (sub & Hch & Hsub).
    apply in_concat. eexists. split.
    + unfold sub_batch_events. apply in_map_iff. eexists. split; [| exact Hch].
      reflexivity.
    + right. apply in_map_iff. exists image. split; [| done].
      unfold copy_event. by rewrite Hres.
  - intros c' (n & image' & Him' & Hp & Hc')%sub_batch_write_inv.
    apply sub_batch_file_inj in Hp as <-; [| by apply images_no_slash..].
    congruence.
Qed.

End BatchFiles.

(** X9: when a batch is done, the file under the manifest's path is the
    workbook with the worksheet as the pool left it — the sub-batch copies
    that follow the save do not touch it — and its cells are those of
    [manifest_cell]. *)
Theorem X9_saved_manifest_is_the_worksheet (SUB_BATCH_SIZE : nat)
    (DEFAULT_DATE IMAGE_DIRECTORY_FOLDER OUTPUT_DIR : string) (template : cells)
    (pil : string -> option exn) (metadata : store) (images : list string)
    (batch_number : nat) (year : string) (sched : list nat) (w : world) :
  Forall jpg_name images ->
  exists manifest,
    files (snd (process_batch SUB_BATCH_SIZE DEFAULT_DATE IMAGE_DIRECTORY_FOLDER
                  OUTPUT_DIR template pil sched images batch_number metadata year w))
      !! output_xlsx OUTPUT_DIR batch_number year
    = Some (Workbook manifest)
    /\ forall r c,
         manifest !! (r, c)
         = manifest_cell DEFAULT_DATE IMAGE_DIRECTORY_FOLDER OUTPUT_DIR template pil
             metadata images batch_number year w r c.
Proof.
  intros Hjpg. eexists. split; [by apply saved_manifest |].
  intros r c. apply process_batch_sheet.
Qed.

Lemma X9_saved_manifest_is_the_worksheet_witness :
  Forall jpg_name images_example
  /\ exists manifest,
       files (snd (process_batch 2 "08/2024" "/in" "/out" ∅ (fun _ => None)
                     sched_reverse images_example 1 store_example "2023"
                     world_example))
         !! "/out/2023_batch_1/diversity_photos_batch_1.xlsx"
       = Some (Workbook manifest)
       /\ manifest !! (12, 2) = Some (CStr "b.jpg").
Proof.
  split; [exact images_example_jpg_names |].
  destruct (X9_saved_manifest_is_the_worksheet 2 "08/2024" "/in" "/out" ∅
              (fun _ => None) store_example images_example 1 "2023" sched_reverse
              world_example images_example_jpg_names) as (manifest & Hf & Hc).
  exists manifest. split; [exact Hf |]. by rewrite Hc.
Defined.

(** X10: an image whose task returned [True] has, when the batch is done,
    its resized file in the batch directory and a copy of it in the
    sub-batch directory with the number [idx // SUB_BATCH_SIZE + 1], for
    every schedule of the pool. *)
Theorem X10_succeeded_image_files (SUB_BATCH_SIZE : nat)
    (DEFAULT_DATE IMAGE_DIRECTORY_FOLDER OUTPUT_DIR : string) (template : cells)
    (pil : string -> option exn) (metadata : store) (images : list string)
    (batch_number : nat) (year : string) (sched : list nat) (w : world)
    (idx : nat) (image : string) :
  0 < SUB_BATCH_SIZE ->
  Forall jpg_name images ->
  images !! idx = Some image ->
  snd (batch_task DEFAULT_DATE IMAGE_DIRECTORY_FOLDER OUTPUT_DIR pil metadata
         batch_number year w idx image) = inr true ->
  let w' := snd (process_batch SUB_BATCH_SIZE DEFAULT_DATE IMAGE_DIRECTORY_FOLDER
                   OUTPUT_DIR template pil sched images batch_number metadata year w) in
  let batch_dir := batch_dir_of OUTPUT_DIR year batch_number in
  files w' !! path_join batch_dir image
    = Some (Image (path_join IMAGE_DIRECTORY_FOLDER image))
  /\ files w' !! path_join (sub_batch_dir_n batch_dir (idx / SUB_BATCH_SIZE + 1)) image
     = Some (Image (path_join IMAGE_DIRECTORY_FOLDER image)).
Proof.
  intros HS Hjpg Him Ht. split.
  - by apply (resized_kept _ _ _ _ _ _ _ _ _ _ Hjpg sched w idx).
  - by apply (copied_in_place _ _ _ _ _ _ _ _ _ _ Hjpg sched w idx).
Qed.

Lemma X10_succeeded_image_files_witness :
  files (snd (process_batch 2 "08/2024" "/in" "/out" ∅ (fun _ => None)
                sched_reverse images_example 1 store_example "2023" world_example))
    !! "/out/2023_batch_1/sub_batch_1/b.jpg"
  = Some (Image "/in/b.jpg").
Proof.
  apply (X10_succeeded_image_files 2 "08/2024" "/in" "/out" ∅ (fun _ => None)
           store_example images_example 1 "2023" sched_reverse world_example
           1 "b.jpg"); [lia | exact images_example_jpg_names | done | by vm_compute].
Defined.

(** X11: the rows of a manifest that belong to no image of the batch (the
    ten rows of the head, the rows after the last image) and the columns
    that [process_image] does not fill are those of the template, whatever
    the worksheet held before the batch. *)
Theorem X11_manifest_outside_rows_is_template (SUB_BATCH_SIZE : nat)
    (DEFAULT_DATE IMAGE_DIRECTORY_FOLDER OUTPUT_DIR : string) (template : cells)
    (pil : string -> option exn) (metadata : store) (images : list string)
    (batch_number : nat) (year : string) (sched : list nat) (w : world)
    (r c : nat) :
  r < 11 \/ length images + 11 <= r \/ c = 0 \/ 7 <= c ->
  sheet (snd (process_batch SUB_BATCH_SIZE DEFAULT_DATE IMAGE_DIRECTORY_FOLDER
                OUTPUT_DIR template pil sched images batch_number metadata year w))
    !! (r, c)
  = template !! (r, c).
Proof.
  intros H. rewrite process_batch_sheet. unfold manifest_cell.
  destruct (Nat.leb_spec 11 r) as [Hr|Hr]; [| done].
  destruct (images !! (r - 11)) as [image|] eqn:Him; [| done].
  apply lookup_lt_Some in Him.
  destruct (snd (batch_task _ _ _ _ _ _ _ _ _ _)) as [|[|]]; try done.
  destruct (extract_date _ _); [done |].
  destruct H as [H|[H|[->|H]]]; [lia | lia | done |].
  do 7 (destruct c as [|c]; [lia |]). done.
Qed.

Lemma X11_manifest_outside_rows_is_template_witness :
  sheet (snd (process_batch 2 "08/2024" "/in" "/out" (<[(1, 1) := CStr "Title"]> ∅)
                (fun _ => None) sched_reverse images_example 1 store_example "2023"
                (mk_world (files world_example) (<[(1, 1) := CStr "old"]> ∅) [])))
    !! (1, 1)
  = Some (CStr "Title").
Proof.
  rewrite X11_manifest_outside_rows_is_template; [done | lia].
Defined.

(** ** Reports of the pool *)

Section Reports.
Variables DEFAULT_DATE IMAGE_DIRECTORY_FOLDER : string.
Variable pil : string -> option exn.
Variable fs : gmap string content.
Variable metadata : store.



End Reports.

Lemma filter_none {A : Type} (f : A -> bool) (l : list A) :
  (forall x, In x l -> f x = false) -> List.filter f l = [].
Proof.
  induction l as [|x l IH]; intros H; simpl; [done |].
  rewrite (H x (or_introl eq_refl)). apply IH. intros y Hy. apply H. by right.
Qed.




(** ** The batches of a run *)

Lemma m_for_app {A : Type} (l1 l2 : list A) (body : A -> M unit) (w : world) :
  m_for (l1 ++ l2) body w = m_for l2 body (snd (m_for l1 body w)).
Proof.
  revert w. induction l1 as [|x l1 IH]; intros w; [done |].
  cbn [app m_for]. unfold m_bind.
  destruct (body x w) as [[] w1]. apply IH.
Qed.

Lemma m_for_map {A B : Type} (f : A -> B) (l : list A) (body : B -> M unit) (w : world) :
  m_for (map f l) body w = m_for l (fun x => body (f x)) w.
Proof.
  revert w. induction l as [|x l IH]; intros w; [done |].
  cbn [map m_for]. unfold m_bind. destruct (body (f x) w) as [[] w1]. apply IH.
Qed.

Lemma m_for_ext {A : Type} (l : list A) (body body' : A -> M unit) (w : world) :
  (forall x w', body x w' = body' x w') -> m_for l body w = m_for l body' w.
Proof.
  intros H. revert w. induction l as [|x l IH]; intros w; [done |].
  cbn [m_for]. unfold m_bind. rewrite H. destruct (body' x w) as [[] w1]. apply IH.
Qed.

Lemma m_for_unit {A : Type} (l : list A) (body : A -> M unit) (w : world) :
  m_for l body w = (tt, snd (m_for l body w)).
Proof. by destruct (m_for l body w) as [[] w1]. Qed.

Section AllBatches.
Variables BATCH_SIZE SUB_BATCH_SIZE : nat.
Variables DEFAULT_DATE IMAGE_DIRECTORY_FOLDER OUTPUT_DIR : string.
Variable template : cells.
Variable pil : string -> option exn.
Variable metadata : store.
Variable sched : string -> nat -> list nat.

Let one_batch : string * nat * list string -> M unit :=
  fun '(year, batch_number, batch) =>
    process_batch SUB_BATCH_SIZE DEFAULT_DATE IMAGE_DIRECTORY_FOLDER OUTPUT_DIR
      template pil (sched year batch_number) batch batch_number metadata year.

(** The two loops of [process_images] as one loop over the batches. *)
Lemma loops_flatten (images_by_year : list (string * list string)) (w : world) :
  m_for images_by_year (fun '(year, year_images) =>
    m_for (batches BATCH_SIZE year_images) (fun '(batch_number, batch) =>
      process_batch SUB_BATCH_SIZE DEFAULT_DATE IMAGE_DIRECTORY_FOLDER OUTPUT_DIR
        template pil (sched year batch_number) batch batch_number metadata year)) w
  = m_for (all_batches BATCH_SIZE images_by_year) one_batch w.
Proof.
  revert w. induction images_by_year as [|[year l] d IH]; intros w; [done |].
  cbn [m_for]. unfold all_batches. cbn [flat_map].
  fold (all_batches BATCH_SIZE d).
  rewrite m_for_app, m_for_map. unfold m_bind.
  match goal with
  | |- (let '(_, _) := m_for ?bs ?F w in _) = m_for _ _ (snd (m_for ?bs ?G w)) =>
      assert (m_for bs F w = m_for bs G w) as ->
        by (apply m_for_ext; by intros [n b] w')
  end.
  destruct (m_for (batches BATCH_SIZE l) _ w) as [[] w1]. apply IH.
Qed.

End AllBatches.

Lemma all_batches_concat (BATCH_SIZE : nat) (images_by_year : list (string * list string)) :
  0 < BATCH_SIZE ->
  concat (map snd (all_batches BATCH_SIZE images_by_year))
  = concat (map snd images_by_year).
Proof.
  intros HB. induction images_by_year as [|[year l] d IH]; [done |].
  unfold all_batches. cbn [flat_map]. fold (all_batches BATCH_SIZE d).
  rewrite map_app, concat_app, IH. cbn [map concat snd]. f_equal.
  rewrite map_map.
  rewrite <- (chunks_windows BATCH_SIZE l HB) at 2. unfold batches.
  f_equal. apply map_ext. by intros [n b].
Qed.

Lemma all_batches_in (BATCH_SIZE : nat) (images_by_year : list (string * list string))
    (year : string) (batch_number : nat) (batch : list string) :
  0 < BATCH_SIZE ->
  In (year, batch_number, batch) (all_batches BATCH_SIZE images_by_year) ->
  exists year_images i,
    In (year, year_images) images_by_year
    /\ batch_number = i + 1
    /\ batch = slice (i * BATCH_SIZE) BATCH_SIZE year_images
    /\ 1 <= length batch <= BATCH_SIZE.
Proof.
  intros HB Hin. unfold all_batches in Hin.
  apply in_flat_map in Hin as ([y l] & Hyl & Hin).
  apply in_map_iff in Hin as ([n b] & [= -> -> ->] & Hb).
  apply list_elem_of_In, list_elem_of_lookup in Hb as [i Hi].
  assert (i < length (batches BATCH_SIZE l)) as Hlt by (by eapply lookup_lt_Some).
  unfold batches in *. rewrite (chunks_lookup BATCH_SIZE l i HB Hlt) in Hi.
  injection Hi as <- <-. exists l, i. repeat (split; [done |]).
  by apply chunks_nonempty.
Qed.

(** X13: every image is processed in one batch.  When the grouping loop
    returns, the run is the sequence of [process_batch] calls over the
    batches of the year groups; these batches hold the sorted images, each
    once; a batch has between one and [BATCH_SIZE] images, all of its
    year. *)
Theorem X13_every_image_in_one_batch (BATCH_SIZE SUB_BATCH_SIZE : nat)
    (DEFAULT_DATE IMAGE_DIRECTORY_FOLDER OUTPUT_DIR : string) (template : cells)
    (pil : string -> option exn) (listing : list string) (metadata : store)
    (sched : string -> nat -> list nat) (w : world)
    (images_by_year : list (string * list string)) :
  0 < BATCH_SIZE ->
  group_by_year DEFAULT_DATE metadata (sorted_images listing) [] = inr images_by_year ->
  process_images BATCH_SIZE SUB_BATCH_SIZE DEFAULT_DATE IMAGE_DIRECTORY_FOLDER
    OUTPUT_DIR template pil listing metadata sched w
  = (inr tt,
     snd (m_for (all_batches BATCH_SIZE images_by_year)
            (fun '(year, batch_number, batch) =>
               process_batch SUB_BATCH_SIZE DEFAULT_DATE IMAGE_DIRECTORY_FOLDER
                 OUTPUT_DIR template pil (sched year batch_number) batch batch_number
                 metadata year) w))
  /\ Permutation (concat (map snd (all_batches BATCH_SIZE images_by_year)))
       (sorted_images listing)
  /\ (forall year batch_number batch,
        In (year, batch_number, batch) (all_batches BATCH_SIZE images_by_year) ->
        1 <= length batch <= BATCH_SIZE
        /\ forall image, In image batch ->
             In image (sorted_images listing)
             /\ in_year DEFAULT_DATE metadata year image = true).
Proof.
  intros HB Hg.
  destruct (group_by_year_spec DEFAULT_DATE metadata _ _ _ Hg)
    as (Hget & Hnd & _ & Hperm).
  split; [| split].
  - unfold process_images. rewrite Hg. unfold m_bind.
    rewrite loops_flatten. by rewrite m_for_unit.
  - by rewrite all_batches_concat.
  - intros year n batch Hin.
    apply all_batches_in in Hin as (l & i & Hl & -> & -> & Hlen); [| done].
    split; [done |]. intros image Him%slice_in.
    rewrite <- (dict_get_entry year l images_by_year) in Him;
      [| apply Hnd; constructor | done].
    rewrite Hget in Him. by apply filter_In in Him.
Qed.

Lemma X13_every_image_in_one_batch_witness :
  0 < 2
  /\ group_by_year "08/2024" store_example (sorted_images listing_example) []
     = inr [("2023", ["a.jpg"; "b.jpg"; "c.jpg"])]
  /\ all_batches 2 [("2023", ["a.jpg"; "b.jpg"; "c.jpg"])]
     = [("2023", 1, ["a.jpg"; "b.jpg"]); ("2023", 2, ["c.jpg"])]
  /\ Permutation
       (concat (map snd (all_batches 2 [("2023", ["a.jpg"; "b.jpg"; "c.jpg"])])))
       (sorted_images listing_example).
Proof.
  split; [lia |]. split; [by vm_compute |]. split; [by vm_compute |].
  apply (X13_every_image_in_one_batch 2 1 "08/2024" "/in" "/out" ∅ (fun _ => None)
           listing_example store_example (fun _ _ => []) world_example);
    [lia | by vm_compute].
Defined.

(** ** The run as a whole: what stops it, what leaves it idle *)


Section RunStops.
Variable DEFAULT_DATE : string.
Variable metadata : store.
Hypothesis default_has_slash : PyStr.contains "/" DEFAULT_DATE = true.



End RunStops.

(** X14: in a directory without a file that ends in ".jpg", the run does
    nothing once the store is built, whatever the store holds: no directory
    is made, nothing is logged, and it returns normally. *)
Theorem X14_no_images_no_effect (BATCH_SIZE SUB_BATCH_SIZE : nat)
    (DEFAULT_DATE IMAGE_DIRECTORY_FOLDER OUTPUT_DIR : string) (template : cells)
    (pil : string -> option exn) (listing : list string) (metadata : store)
    (sched : string -> nat -> list nat) (w : world) :
  (forall f, In f listing -> PyStr.endswith ".jpg" f = false) ->
  process_images BATCH_SIZE SUB_BATCH_SIZE DEFAULT_DATE IMAGE_DIRECTORY_FOLDER
    OUTPUT_DIR template pil listing metadata sched w = (inr tt, w).
Proof.
  intros H. unfold process_images, sorted_images.
  by rewrite (filter_none _ listing H).
Qed.

Lemma X14_no_images_no_effect_witness :
  process_images 750 150 "08/2024" "/in" "/out" ∅ (fun _ => None)
    ["a.JPG"; "a.json"; "notes.txt"; "b.jpeg"] store_example (fun _ _ => [])
    world_example
  = (inr tt, world_example).
Proof.
  apply X14_no_images_no_effect.
  intros f Hf. simpl in Hf.
  repeat (destruct Hf as [<-|Hf]; [reflexivity |]). destruct Hf.
Defined.



(** ** The metadata store *)

Lemma replace_json_stem (stem : string) :
  PyStr.contains ".json" stem = false ->
  PyStr.replace ".json" "" (stem +:+ ".json") = stem.
Proof.
  unfold PyStr.replace. induction stem as [|c stem IH]; [done |].
  intros Hc. cbn [PyStr.contains] in Hc. apply orb_false_iff in Hc as [Hs Hc].
  change (String c stem +:+ ".json") with (String c (stem +:+ ".json")).
  cbn [PyStr.replace_from].
  assert (PyStr.startswith ".json" (String c (stem +:+ ".json")) = false) as ->.
  { clear IH Hc. revert Hs.
    destruct stem as [|c1 [|c2 [|c3 [|c4 stem]]]]; simpl; try done;
      repeat (case Ascii.eqb_spec; intros; subst; simpl; try done). }
  by rewrite IH.
Qed.

Section Store.
Variable IMAGE_DIRECTORY_FOLDER : string.
Variable read_json : string -> result json_doc.
Variable h5_name_error : string -> option exn.

Let load := load_json_files IMAGE_DIRECTORY_FOLDER read_json h5_name_error.
Let step := load_step IMAGE_DIRECTORY_FOLDER read_json h5_name_error.
Let path (json_file : string) := path_join IMAGE_DIRECTORY_FOLDER json_file.

Lemma load_cons (json_file : string) (rest : list string) (st : store_state) :
  load (json_file :: rest) st = load rest (step json_file st).
Proof.
  unfold load, step, load_step. simpl.
  by destruct (load_json_file _ _ _ json_file st).
Qed.

(** A turn of the loop stores the record of its file or writes one log
    entry. *)
Lemma step_cases (json_file : string) (st : store_state) :
  (exists doc d,
     read_json (path json_file) = inr doc /\ doc_dict doc = Some d
     /\ h5_name_error (json_key json_file) = None
     /\ h5 st !! json_key json_file = None
     /\ step json_file st
        = mk_store_state (<[json_key json_file := d]> (h5 st))
            (<[json_key json_file := d]> (metadata_of st)) (store_logs st))
  \/ (exists entry,
        step json_file st
        = mk_store_state (h5 st) (metadata_of st) (store_logs st ++ [entry])).
Proof.
  unfold step, load_step, load_json_files, load_json_file, create_dataset.
  fold (path json_file). fold (json_key json_file).
  destruct (read_json (path json_file)) as [e|doc] eqn:Hr; simpl; [right; by eexists |].
  destruct doc as [d|[d| | |]| |]; simpl; try (right; by eexists).
  - destruct (h5_name_error (json_key json_file)) eqn:Hn; simpl; [right; by eexists |].
    destruct (h5 st !! json_key json_file) eqn:Hh; simpl; [right; by eexists |].
    left. by exists (DocDict d), d.
  - destruct (h5_name_error (json_key json_file)) eqn:Hn; simpl; [right; by eexists |].
    destruct (h5 st !! json_key json_file) eqn:Hh; simpl; [right; by eexists |].
    left. by exists (DocList (DocDict d)), d.
Qed.

(** A file that loads, under a name that is new, is stored. *)
Lemma step_stores (json_file : string) (st : store_state) (doc : json_doc)
    (d : record) :
  read_json (path json_file) = inr doc -> doc_dict doc = Some d ->
  h5_name_error (json_key json_file) = None ->
  h5 st !! json_key json_file = None ->
  step json_file st
  = mk_store_state (<[json_key json_file := d]> (h5 st))
      (<[json_key json_file := d]> (metadata_of st)) (store_logs st).
Proof.
  intros Hr Hd Hn Hh.
  unfold step, load_step, load_json_files, load_json_file, create_dataset.
  fold (path json_file). fold (json_key json_file). rewrite Hr. simpl.
  destruct doc as [d'|[d'| | |]| |]; try done; injection Hd as ->; simpl;
    by rewrite Hn, Hh.
Qed.

(** The file and the dict hold the same records, and every file has given
    one record or one log entry. *)
Lemma load_invariant (json_files : list string) (st : store_state) :
  h5 st = metadata_of st ->
  h5 (load json_files st) = metadata_of (load json_files st)
  /\ size (metadata_of (load json_files st)) + length (store_logs (load json_files st))
     = size (metadata_of st) + length (store_logs st) + length json_files.
Proof.
  revert st. induction json_files as [|f rest IH]; intros st Hst.
  - split; [done |]. simpl. lia.
  - rewrite load_cons.
    destruct (step_cases f st) as [(doc & d & _ & _ & _ & Hnew & ->)|[entry ->]].
    + destruct (IH (mk_store_state (<[json_key f := d]> (h5 st))
                      (<[json_key f := d]> (metadata_of st)) (store_logs st)))
        as [Hh Hsz]; [simpl; by rewrite Hst |].
      split; [done |]. rewrite Hsz. simpl.
      rewrite map_size_insert_None by (by rewrite <- Hst). lia.
    + destruct (IH (mk_store_state (h5 st) (metadata_of st) (store_logs st ++ [entry])))
        as [Hh Hsz]; [done |].
      split; [done |]. rewrite Hsz. simpl. rewrite length_app. simpl. lia.
Qed.

(** A record that is stored stays as it is. *)
Lemma load_keeps (json_files : list string) (st : store_state) (key : string)
    (d : record) :
  h5 st = metadata_of st -> metadata_of st !! key = Some d ->
  metadata_of (load json_files st) !! key = Some d.
Proof.
  revert st. induction json_files as [|f rest IH]; intros st Hst Hk; [done |].
  rewrite load_cons.
  destruct (step_cases f st) as [(doc & d' & _ & _ & _ & Hnew & ->)|[entry ->]].
  - apply IH; simpl; [by rewrite Hst |].
    rewrite lookup_insert_ne; [done |]. intros Heq. rewrite Hst, Heq in Hnew. congruence.
  - by apply IH.
Qed.

(** A key that no file has stays free. *)
Lemma load_free (json_files : list string) (st : store_state) (key : string) :
  (forall f, In f json_files -> json_key f <> key) ->
  metadata_of (load json_files st) !! key = metadata_of st !! key
  /\ h5 (load json_files st) !! key = h5 st !! key.
Proof.
  revert st. induction json_files as [|f rest IH]; intros st Hk; [done |].
  rewrite load_cons.
  assert (forall f', In f' rest -> json_key f' <> key) as Hrest
    by (intros f' Hf'; apply Hk; by right).
  destruct (IH (step f st) Hrest) as [-> ->].
  destruct (step_cases f st) as [(doc & d' & _ & _ & _ & _ & ->)|[entry ->]];
    [| done].
  simpl. rewrite !lookup_insert_ne; [done | |]; apply Hk; by left.
Qed.

(** Every record has a file it was read from. *)
Lemma load_sound (json_files : list string) (st : store_state) (key : string)
    (d : record) :
  metadata_of (load json_files st) !! key = Some d ->
  metadata_of st !! key = Some d
  \/ exists json_file doc,
       In json_file json_files /\ json_key json_file = key
       /\ read_json (path json_file) = inr doc /\ doc_dict doc = Some d.
Proof.
  revert st. induction json_files as [|f rest IH]; intros st; [by left |].
  rewrite load_cons. intros [H|(jf & doc & Hin & ?)]%IH.
  - destruct (step_cases f st) as [(doc & d' & Hr & Hd & _ & _ & Hs)|[entry Hs]];
      rewrite Hs in H; simpl in H; [| by left].
    destruct (decide (json_key f = key)) as [<-|Hne].
    + rewrite lookup_insert_eq in H. injection H as ->.
      right. exists f, doc. by split; [left |].
    + rewrite lookup_insert_ne in H by done. by left.
  - right. exists jf, doc. by split; [right |].
Qed.

End Store.

Lemma filter_app_cons {A : Type} (f : A -> bool) (l1 l2 : list A) (x : A) :
  f x = true ->
  List.filter f (l1 ++ x :: l2) = List.filter f l1 ++ x :: List.filter f l2.
Proof. intros Hx. rewrite List.filter_app. simpl. by rewrite Hx. Qed.

(** X16: the HDF5 file and the dict that [create_metadata_hdf5] returns
    hold the same records under the same keys, and every file of the
    directory that ends in ".json" is accounted for once: by a record or by
    a log entry. *)
Theorem X16_store_accounts_for_every_file (IMAGE_DIRECTORY_FOLDER : string)
    (read_json : string -> result json_doc) (h5_name_error : string -> option exn)
    (listing : list string) :
  let st := create_metadata_hdf5 IMAGE_DIRECTORY_FOLDER read_json h5_name_error
              listing in
  h5 st = metadata_of st
  /\ size (metadata_of st) + length (store_logs st)
     = length (List.filter (PyStr.endswith ".json") listing).
Proof.
  intros st. subst st. unfold create_metadata_hdf5.
  match goal with
  | |- context [load_json_files _ _ _ ?l ?s] =>
      destruct (load_invariant IMAGE_DIRECTORY_FOLDER read_json h5_name_error l s
                  eq_refl) as [Hh Hsz]
  end.
  split; [done |]. rewrite Hsz. simpl. by rewrite map_size_empty.
Qed.

Lemma first_file_stored (IMAGE_DIRECTORY_FOLDER : string)
    (read_json : string -> result json_doc) (h5_name_error : string -> option exn)
    (before after : list string) (json_file : string) (doc : json_doc) (d : record) :
  PyStr.endswith ".json" json_file = true ->
  (forall f, In f before -> PyStr.endswith ".json" f = true ->
             json_key f <> json_key json_file) ->
  read_json (path_join IMAGE_DIRECTORY_FOLDER json_file) = inr doc ->
  doc_dict doc = Some d ->
  h5_name_error (json_key json_file) = None ->
  metadata_of (create_metadata_hdf5 IMAGE_DIRECTORY_FOLDER read_json h5_name_error
                 (before ++ json_file :: after))
    !! json_key json_file
  = Some d.
Proof.
  intros Hj Hbefore Hr Hd Hn. unfold create_metadata_hdf5.
  rewrite (filter_app_cons _ _ _ _ Hj).
  set (l1 := List.filter (PyStr.endswith ".json") before).
  set (l2 := List.filter (PyStr.endswith ".json") after).
  set (st0 := mk_store_state ∅ ∅ []).
  assert (load_json_files IMAGE_DIRECTORY_FOLDER read_json h5_name_error
            (l1 ++ json_file :: l2) st0
          = load_json_files IMAGE_DIRECTORY_FOLDER read_json h5_name_error l2
              (load_step IMAGE_DIRECTORY_FOLDER read_json h5_name_error json_file
                 (load_json_files IMAGE_DIRECTORY_FOLDER read_json h5_name_error l1 st0)))
    as ->.
  { generalize st0. induction l1 as [|f l1 IH]; intros st.
    - apply load_cons.
    - change ((f :: l1) ++ json_file :: l2) with (f :: (l1 ++ json_file :: l2)).
      by rewrite !load_cons, IH. }
  destruct (load_invariant IMAGE_DIRECTORY_FOLDER read_json h5_name_error l1 st0 eq_refl)
    as [Hh _].
  destruct (load_free IMAGE_DIRECTORY_FOLDER read_json h5_name_error l1 st0
              (json_key json_file)) as [_ Hfree].
  { intros f [Hf Hjf]%filter_In. by apply Hbefore. }
  rewrite (step_stores _ _ _ _ _ doc d Hr Hd Hn) by (by rewrite Hfree).
  apply load_keeps; simpl; [by rewrite Hh | apply lookup_insert_eq].
Qed.


(** X17: of the files that are stored under one key, the first of the
    listing wins: a file that loads (a dict, or a list that starts with a
    dict, under a name the HDF5 file accepts) and has no file before it
    with its key gives the record of that key, whatever comes after it. *)
Theorem X17_first_file_of_a_key_wins (IMAGE_DIRECTORY_FOLDER : string)
    (read_json : string -> result json_doc) (h5_name_error : string -> option exn)
    (before after : list string) (json_file : string) (doc : json_doc) (d : record) :
  PyStr.endswith ".json" json_file = true ->
  (forall f, In f before -> PyStr.endswith ".json" f = true ->
             json_key f <> json_key json_file) ->
  read_json (path_join IMAGE_DIRECTORY_FOLDER json_file) = inr doc ->
  doc_dict doc = Some d ->
  h5_name_error (json_key json_file) = None ->
  metadata_of (create_metadata_hdf5 IMAGE_DIRECTORY_FOLDER read_json h5_name_error
                 (before ++ json_file :: after))
    !! json_key json_file
  = Some d.
Proof. apply first_file_stored. Qed.

Lemma X17_first_file_of_a_key_wins_witness :
  metadata_of (create_metadata_hdf5 "/in" read_json_example (fun _ => None)
                 listing_sidecars) !! "a"
  = Some (<["EXIF:CreateDate" := PyStr "2023:03:05"]> ∅).
Proof.
  apply (X17_first_file_of_a_key_wins "/in" read_json_example (fun _ => None)
           ["a.jpg"] ["a.json.json"; "b.jpg"; "b.json"; "c.jpg"; "c.json"; "d.json"]
           "a.json" (DocDict (<["EXIF:CreateDate" := PyStr "2023:03:05"]> ∅)));
    try reflexivity.
  intros f [<-|[]]. discriminate.
Defined.

(** X18: every record of the store was read from a file of the listing
    that ends in ".json" and is stored under that file's name with every
    ".json" taken out; the record is the document of the file, or the first
    item of the list the document is. *)
Theorem X18_every_record_has_its_file (IMAGE_DIRECTORY_FOLDER : string)
    (read_json : string -> result json_doc) (h5_name_error : string -> option exn)
    (listing : list string) (key : string) (d : record) :
  metadata_of (create_metadata_hdf5 IMAGE_DIRECTORY_FOLDER read_json h5_name_error
                 listing) !! key = Some d ->
  exists json_file doc,
    In json_file listing /\ PyStr.endswith ".json" json_file = true
    /\ key = PyStr.replace ".json" "" json_file
    /\ read_json (path_join IMAGE_DIRECTORY_FOLDER json_file) = inr doc
    /\ (doc = DocDict d \/ doc = DocList (DocDict d)).
Proof.
  unfold create_metadata_hdf5.
  intros [H|(jf & doc & [Hin Hj]%filter_In & <- & Hr & Hd)]%load_sound; [done |].
  exists jf, doc. repeat (split; [done |]).
  destruct doc as [d'|[d'| | |]| |]; try done; injection Hd as ->; (by left) || (by right).
Qed.

Lemma X18_every_record_has_its_file_witness :
  exists json_file doc,
    In json_file listing_sidecars /\ PyStr.endswith ".json" json_file = true
    /\ "b" = PyStr.replace ".json" "" json_file
    /\ read_json_example (path_join "/in" json_file) = inr doc
    /\ (doc = DocDict (<["EXIF:CreateDate" := PyStr "2023:03:06"]> ∅)
        \/ doc = DocList (DocDict (<["EXIF:CreateDate" := PyStr "2023:03:06"]> ∅))).
Proof.
  apply (X18_every_record_has_its_file "/in" read_json_example (fun _ => None)).
  by vm_compute.
Defined.

Lemma endswith_app (p a : string) : PyStr.endswith p (a +:+ p) = true.
Proof.
  induction a as [|x a IH].
  - destruct p; simpl; [done |]. by rewrite Ascii.eqb_refl, String.eqb_refl.
  - change (String x a +:+ p) with (String x (a +:+ p)). cbn [PyStr.endswith].
    rewrite IH. apply orb_true_r.
Qed.

Lemma sidecar_record (IMAGE_DIRECTORY_FOLDER : string)
    (read_json : string -> result json_doc) (h5_name_error : string -> option exn)
    (before after : list string) (stem : string) (doc : json_doc) (d : record) :
  PyStr.contains ".jpg" stem = false ->
  PyStr.contains ".json" stem = false ->
  (forall f, In f before -> PyStr.endswith ".json" f = true -> json_key f <> stem) ->
  read_json (path_join IMAGE_DIRECTORY_FOLDER (stem +:+ ".json")) = inr doc ->
  doc_dict doc = Some d ->
  h5_name_error stem = None ->
  record_of
    (metadata_of (create_metadata_hdf5 IMAGE_DIRECTORY_FOLDER read_json h5_name_error
                    (before ++ (stem +:+ ".json") :: after)))
    (stem +:+ ".jpg")
  = d.
Proof.
  intros Hjpg Hjson Hbefore Hr Hd Hn.
  assert (json_key (stem +:+ ".json") = stem) as Hkey by (by apply replace_json_stem).
  pose proof (first_file_stored IMAGE_DIRECTORY_FOLDER read_json h5_name_error before
                after (stem +:+ ".json") doc d (endswith_app _ _)) as H.
  rewrite Hkey in H. unfold record_of.
  by rewrite (replace_jpg_stem stem Hjpg), H.
Qed.


(** X19: the side-car file of an image.  For a stem in which neither
    ".jpg" nor ".json" occurs, the record that [process_image] and the
    grouping loop look up for the image [stem.jpg] is the dict of the file
    [stem.json], when that file loads and no file before it in the listing
    has its key. *)
Theorem X19_sidecar_record_is_used (IMAGE_DIRECTORY_FOLDER : string)
    (read_json : string -> result json_doc) (h5_name_error : string -> option exn)
    (before after : list string) (stem : string) (doc : json_doc) (d : record) :
  PyStr.contains ".jpg" stem = false ->
  PyStr.contains ".json" stem = false ->
  (forall f, In f before -> PyStr.endswith ".json" f = true -> json_key f <> stem) ->
  read_json (path_join IMAGE_DIRECTORY_FOLDER (stem +:+ ".json")) = inr doc ->
  doc_dict doc = Some d ->
  h5_name_error stem = None ->
  record_of
    (metadata_of (create_metadata_hdf5 IMAGE_DIRECTORY_FOLDER read_json h5_name_error
                    (before ++ (stem +:+ ".json") :: after)))
    (stem +:+ ".jpg")
  = d.
Proof. apply sidecar_record. Qed.

Lemma X19_sidecar_record_is_used_witness :
  record_of
    (metadata_of (create_metadata_hdf5 "/in" read_json_example (fun _ => None)
                    listing_sidecars))
    "b.jpg"
  = <["EXIF:CreateDate" := PyStr "2023:03:06"]> ∅.
Proof.
  apply (X19_sidecar_record_is_used "/in" read_json_example (fun _ => None)
           ["a.jpg"; "a.json"; "a.json.json"; "b.jpg"] ["c.jpg"; "c.json"; "d.json"]
           "b" (DocList (DocDict (<["EXIF:CreateDate" := PyStr "2023:03:06"]> ∅))));
    try reflexivity.
  intros f Hf _. simpl in Hf.
  repeat (destruct Hf as [<-|Hf]; [by vm_compute |]). destruct Hf.
Defined.

(** ** The run with the store it builds *)



